(* ===== verification/_CoqProject ===== *)
-Q . S2P
Prelude.v
Float64.v
PyFormat.v
Mesh.v
StlBinary.v
StlText.v
StlLoader.v
Metrics.v
Surfaces.v
CrossSection.v
AsciiArt.v
Histogram.v
Pockets.v
Report.v
ScadGen.v
SlicedGen.v
ScadMain.v
AnalyzeReport.v
