(* ===== verification/Prelude.v ===== *)
(** * A verification development for the STL tools of openscad-claude-code

    The repository ships two Python scripts.  [src/scripts/analyze-stl.py]
    reads an STL mesh (binary or text) and prints a geometric report;
    [src/scripts/stl-to-scad.py] converts a mesh to OpenSCAD source, as
    one polyhedron or as extruded horizontal slices, with the third-party
    libraries trimesh, shapely and fast_simplification.  The first script
    is modelled whole, down to the lines it prints and its exit status; of
    the second, everything the script itself computes is modelled, and the
    library calls are parameters of the model (oracles).

    ** The program and how its parts interact

    [analyze(filepath)] (analyze-stl.py 173-387) is one batch pass:
    the format test [is_ascii_stl] chooses between [read_ascii_stl] and
    [read_binary_stl]; the triangle list they return feeds the bounding box,
    the face-normal classification, the Z histogram, the cross-section
    analysis [analyze_slice], the text-art slices [ascii_cross_section],
    the floor/ceiling detection [detect_surfaces], the void detection
    [detect_pockets] and finally the reconstruction recommendation, each
    printing its section of the report.  No analysis mutates the data of
    another, so each is a Rocq function; the loops that build dicts and
    grids are [fold_left]s whose accumulator is the dict or grid.

    [main()] of stl-to-scad.py (194-276) checks the input file and the
    imports, derives the output path, creates its directory, loads and
    centres the mesh, prints its dimensions, converts it with
    [polyhedron_to_scad] (89-112) or [sliced_to_scad] (115-191), writes
    the file and prints its size.  The model is the list of these effects
    and the exit status.

    ** Files (in dependency order, as [_CoqProject] lists them)

    - [Prelude] (this file): Python's exceptions as the error type
      [result] with stdpp's monad notation; Python's comparisons on floats
      ([Qltb], [Qgtb], with a [Proper] instance for [Qeq]); [py_min] and
      [py_max], the left-to-right scans of [min] and [max], proved against
      the interface [StrictWeak]; [round_half_even] and [py_round1] for
      [round(x, 1)]; [py_int] for [int(x)]; the exact doubles of the
      literals [0.9], [0.1], [0.3], [0.2], [0.03]; the hint database [stl]
      and the tactic [qcase].
    - [Float64]: binary64 arithmetic with the Standard Library's
      [SpecFloat] ([f64_add], [f64_sub], [f64_mul], [f64_div], [int()],
      [float(n)]); [rounds_to], the round-to-nearest-even contract of
      [float(s)]; and [f64_of_Q], the correctly rounded conversion of a
      decimal's exact value that CPython's [strtod] performs ([binade]
      chooses the exponent, [f64_round_pos] rounds half to even, carries
      into the next binade, overflows to an infinity and underflows to
      zero), with [is_double], the set of values of finite doubles.
    - [PyFormat]: the format specifications of the f-strings: [.kf] on
      exact values ([fmt_fixed]) and on floats ([fmt_f64_fixed]), [,]
      ([fmt_commas]), [.6g] ([fmt_g6]) and [repr] of a float ([py_repr]:
      the shortest digits that read back, nearest first), with a
      reference reading of decimals ([parse_decimal], [parse_commas]).
    - [Mesh]: the tuples of the code as records ([vec3], [triangle]);
      Python floats read from a file ([pyfloat], with the infinities and
      NaN that [struct.unpack] and [float()] produce); [all_verts]; the
      type [tri_double] of a triangle whose finite floats are doubles.
    - [StlBinary]: [read_binary_stl] over a byte list: the 80-byte header,
      the little-endian count, the 50-byte records with the early [break],
      the IEEE-754 binary32 decoding of [struct.unpack("<12fH")]; a writer
      of the format, used only to state the round trip.
    - [StlText]: [read_ascii_stl]: universal-newline line splitting,
      [str.strip], [str.split], [float()] on a token (its grammar, then
      [f64_of_Q] on the decimal's value), and the line-by-line
      state machine [text_step] over (normal, vertex accumulator,
      triangles) with its error exits; [run_lines] is the loop.
    - [StlLoader]: [is_ascii_stl] and the dispatch [load_stl] (177-182).
    - [Metrics]: bounding box (189-197), face-normal classification
      (213-223), Z histogram (236-239) as a [gmap Z nat] keyed by tenths.
    - [Surfaces]: [detect_surfaces] (109-123) with its nested defaultdicts
      as [gmap]s, and the two report loops (326-341).
    - [CrossSection]: [z_levels] (251-260) and [analyze_slice] (262-293)
      in a Section whose variables [sqrt] and [pow_half] stand for
      [math.sqrt] and [** 0.5]; [cross_sections] is the loop of 296-307.
    - [AsciiArt]: [ascii_cross_section] (76-106) with the character grid
      as a list of rows, and its caller loop (309-324); [ascii_reference]
      describes the same picture row by row.
    - [Histogram]: the Z-level report (241-247), its bar lengths computed
      in binary64.
    - [Pockets]: [detect_pockets] (126-170) with its grid as a
      [gmap (Z * Z) nat], and the loop over nine heights (343-360).
    - [Report]: the recommendation (362-386) and the exit status of the
      command line (184-186, 390-400).
    - [ScadGen]: [check_dependencies] (23-57) over an oracle [avail] of
      the imports that succeed, the early exits of [main] (229-233), the
      output path (236-241) with [os.path.basename], [splitext] and
      [join], [polyhedron_to_scad] (89-112), and the arithmetic of
      [load_and_center] (60-86): the centring and the decimation target.
    - [SlicedGen]: [sliced_to_scad] (115-191): [np.arange] as numpy
      computes it in binary64 ([arange_length], [arange]), the header, and
      the two nested loops over heights and polygons with the [lines] and
      [slice_count] they mutate ([slice_state]) and the [try]/[except]
      around each height; [mesh.section], [to_2D] and [simplify] are the
      Section variable [section], an oracle from a height to their outcome.
    - [ScadMain]: [main] of stl-to-scad.py (194-276) as [scad_main], the
      list of its [effect]s (prints, [os.makedirs], the file write) and its
      exit status; [load_and_center] (60-86) in binary64 after
      [trimesh.load], with [fast_simplification] as the Section variable
      [simplify]; [mesh.bounds] over the referenced vertices, and
      [os.path.dirname].  The file system calls are taken to succeed.
    - [AnalyzeReport]: every [print] of [analyze] and the [__main__] block
      ([analyze_report], [main_run]), checked against the real output on a
      6 x 8 x 10 mm box.

    ** Numbers

    Python floats are exact rationals [Q] where the code only compares,
    thresholds, rounds or prints them: the literals are the doubles they
    denote ([lit_0_1] ... [lit_0_9], [lit_0_03]), and [round], [int()] and
    the formats act on the exact value, as CPython's do.  The arithmetic
    of the analyses is done exactly.  Where a float operation's rounding
    shows in the output, the operation is binary64 ([Float64]): the bars of
    the histogram, the printed percentages and the decimation advice, the
    heights of [np.arange], the offsets added to the slice outlines and the
    durations and dimensions printed by the converter.  Keys [round(x, 1)]
    are the integer number of tenths.  Infinities and NaN exist in the
    loaders and in the converter's floats; the analyses take the finite
    meshes ([finite_mesh]).  The loaders' values are doubles: a float32
    widens exactly, and the text reader rounds each decimal token to the
    nearest double, so [0.1] in a file is [lit_0_1] and [1e400] an
    infinity.

    ** Theorems, by group

    - Loader: the binary round trip; the tolerant read of a truncated file
      and the exact number of triangles read; the struct error on a file
      shorter than 84 bytes; the range of float32 decoding; the text state
      machine (a well-formed facet yields its triangle, a facet with two
      vertices nothing, a repeated [endfacet] repeats the triangle, a short
      [facet normal] line raises, the triangle list only grows); the NUL
      test and the misreading of a binary file whose header starts with
      [solid]; every float [load_stl] returns is a double ([tri_double]),
      from either reader.
    - Analyses: the bounding box is the least box; the classification's
      thresholds; the histogram counts each vertex once; the surface report
      lists exactly the levels above 5; a slice is analysed exactly when it
      has ten points; the ASCII picture equals its reference; pockets are
      exactly the sparse cells with four dense neighbours, and are found.
    - Report: the decimation ratio bounds, the recommendation as an integer
      decision, the advice that announces a face count [--reduce] does not
      give; the exit status on an empty mesh and on a reader's exception,
      and the printed run refining the exit model.
    - Formats: [.kf] is correctly rounded, [,] reads back; the [repr]
      search of [py_repr] ends within seventeen digits on every finite
      float (a termination proof resting on [2^53 < 10^16]), and what
      [py_repr] prints is converted by [float()] to the same float:
      [float(repr(x)) == x].
    - Conversion: [f64_of_Q] meets the IEEE-754 contract on every rational
      (a bounded float the value rounds to, zero up to [2^-1075], an
      infinity from [2^1024 - 2^970]); it returns exactly the float a
      decimal rounds to, hence is the identity on doubles; [is_double]
      decides the set of values of finite doubles.
    - Converter: the centring puts the box on the origin; the polyhedron
      source has one line per vertex and per face; the sliced loop prints
      exactly one block per polygon before the first exception of each
      height and counts them; holes are extruded, not subtracted; the
      default output stays in [output/]; the dependency check; the run
      refines the exit model, writes the polyhedron to [output/<base>.scad]
      and, with [--z-step 0], dies after creating the directory without
      writing a file.

    ** Fuel

    [read_binary_stl]'s loop is a [Fixpoint] on a fuel argument; the model
    passes one more than the byte count, and [read_records_length] shows
    that the fuel never cuts the loop short.  [repr_search] has a fuel of
    17 digit lengths, and [repr_search_17] shows that it always succeeds
    within it.  [np.arange] builds its list with [seq] of the computed
    length.  Every other loop runs over a list.

    ** Not modelled

    The libraries the converter calls: [trimesh.load], [mesh.section],
    [to_2D], shapely's [simplify], [fast_simplification] (their outcome is
    a parameter); [argparse] (the model starts from the parsed
    arguments), the clock, and the allocation limits of numpy for huge
    [arange] lengths; the text-mode decoding of non-ASCII bytes in the
    text reader (bytes above 0x7F are opaque non-space characters).

    The cross-section analysis ([CrossSection]) is modelled on exact
    values with [math.sqrt] and [** 0.5] as Section variables: Python's
    [**] on floats calls the C library's [pow], which is not correctly
    rounded, so its result has no definition to translate, and the sums
    and quotients around it are kept exact rather than rounded.  The sign
    of a zero read by [float()] (["-0.0"]) is lost in the exact values of
    the text reader; no analysis depends on it. *)

From Stdlib Require Export QArith Qround Qabs Lqa ZArith Lia String Ascii.
From stdpp Require Export base list.

Declare Scope py_scope.
Delimit Scope py_scope with py.

(** ** Python exceptions as values *)

(** The exceptions the modelled code can raise.  [StructError] is
    [struct.error] (too few bytes for [struct.unpack]); [OverflowError]
    is numpy's when an [arange] length does not fit its index type;
    [TypeError] is the subscript of [None] ([mesh.bounds] of a mesh
    without vertices). *)
Inductive pyexc := IndexError | ValueError | StructError | OverflowError | TypeError.

Inductive result (A : Type) : Type :=
| Ok (a : A)
| Raise (e : pyexc).
Arguments Ok {A} a.
Arguments Raise {A} e.

#[export] Instance result_ret : MRet result := λ A a, Ok a.
#[export] Instance result_bind : MBind result :=
  λ A B k c, match c with Ok a => k a | Raise e => Raise e end.

Lemma result_bind_ok {A B} (a : A) (k : A -> result B) : (Ok a ≫= k) = k a.
Proof. reflexivity. Qed.

Lemma result_bind_raise {A B} e (k : A -> result B) : (Raise e ≫= k) = Raise e.
Proof. reflexivity. Qed.

Lemma result_bind_eq_ok {A B} (c : result A) (k : A -> result B) b :
  (c ≫= k) = Ok b -> exists a, c = Ok a /\ k a = Ok b.
Proof. destruct c; simpl; [eauto | discriminate]. Qed.

(** ** Float comparisons *)

Definition Qltb (x y : Q) : bool := negb (Qle_bool y x).
Definition Qgtb (x y : Q) : bool := Qltb y x.
Infix "<?" := Qltb : py_scope.
Infix ">?" := Qgtb : py_scope.

Lemma Qltb_spec x y : reflect (x < y)%Q (Qltb x y).
Proof.
  unfold Qltb. destruct (Qle_bool y x) eqn:E; constructor.
  - apply Qle_bool_iff in E. lra.
  - destruct (Qlt_le_dec x y) as [|H]; [done|].
    apply Qle_bool_iff in H. congruence.
Qed.

Lemma Qle_bool_spec x y : reflect (x <= y)%Q (Qle_bool x y).
Proof.
  destruct (Qle_bool x y) eqn:E; constructor.
  - by apply Qle_bool_iff.
  - intros H%Qle_bool_iff. congruence.
Qed.

Lemma Qltb_true x y : Qltb x y = true <-> (x < y)%Q.
Proof. destruct (Qltb_spec x y); split; (done || lra). Qed.

Lemma Qltb_false x y : Qltb x y = false <-> (y <= x)%Q.
Proof. destruct (Qltb_spec x y); split; (done || lra || discriminate). Qed.

(** Comparisons see numbers, not their representation as fractions. *)
#[export] Instance Qltb_proper : Proper (Qeq ==> Qeq ==> eq) Qltb.
Proof.
  intros x x' Hx y y' Hy. destruct (Qltb_spec x y), (Qltb_spec x' y'); try done; exfalso;
    rewrite Hx, Hy in *; contradiction.
Qed.

(** Case split on the first float comparison of the goal. *)
Ltac qcase :=
  match goal with
  | |- context [Qltb ?a ?b] => destruct (Qltb_spec a b)
  | |- context [Qgtb ?a ?b] => unfold Qgtb; destruct (Qltb_spec b a)
  | |- context [Qle_bool ?a ?b] => destruct (Qle_bool_spec a b)
  end.

(** ** Python's [min] and [max] on a list

    CPython's [min] keeps its current item and replaces it by a later item
    only when [item < current]; [max] only when [item > current].  An empty
    argument raises [ValueError]; the model returns [None]. *)

(** The laws of a strict weak order, which [Qltb] and [Z.ltb] obey; the
    lemmas on [py_min] and [py_max] are stated against this interface. *)
Class StrictWeak {A : Type} (lt : A -> A -> bool) := {
  sw_irrefl : forall a, lt a a = false;
  sw_trans : forall a b c, lt a b = true -> lt b c = true -> lt a c = true;
  sw_cotrans : forall a b c, lt a c = true -> lt a b = true \/ lt b c = true
}.

#[export] Instance StrictWeak_flip {A} (lt : A -> A -> bool) `{!StrictWeak lt} :
  StrictWeak (λ a b, lt b a).
Proof.
  split; intros.
  - apply sw_irrefl.
  - eapply sw_trans; eauto.
  - destruct (sw_cotrans c b a); auto.
Qed.

#[export] Instance Qltb_strict_weak : StrictWeak Qltb.
Proof.
  split; intros *; rewrite ?Qltb_true, ?Qltb_false.
  - lra.
  - lra.
  - intros H. destruct (Qlt_le_dec a b); [left|right]; lra.
Qed.

#[export] Instance Zltb_strict_weak : StrictWeak Z.ltb.
Proof. split; intros *; rewrite ?Z.ltb_irrefl, ?Z.ltb_lt; try done; lia. Qed.

#[export] Instance Natltb_strict_weak : StrictWeak Nat.ltb.
Proof. split; intros *; rewrite ?Nat.ltb_irrefl, ?Nat.ltb_lt; try done; lia. Qed.

Section MinMax.
Context {A : Type} (lt : A -> A -> bool) `{!StrictWeak lt}.

Definition py_min_from (x : A) (xs : list A) : A :=
  fold_left (λ m y, if lt y m then y else m) xs x.

Definition py_min (l : list A) : option A :=
  match l with [] => None | x :: xs => Some (py_min_from x xs) end.

Lemma py_min_from_in x xs : py_min_from x xs = x \/ In (py_min_from x xs) xs.
Proof.
  unfold py_min_from. revert x. induction xs as [|y ys IH]; intros x; simpl; [by left|].
  destruct (IH (if lt y x then y else x)) as [H|H]; rewrite ?H; [|auto].
  destruct (lt y x); simpl; auto.
Qed.

Lemma py_min_from_least x xs :
  forall y, In y (x :: xs) -> lt y (py_min_from x xs) = false.
Proof.
  unfold py_min_from. revert x.
  induction xs as [|z zs IH]; intros x y Hy; simpl in *.
  - destruct Hy as [->|[]]. apply sw_irrefl.
  - set (r := fold_left _ zs _).
    destruct (lt z x) eqn:Ezx.
    + destruct Hy as [->|[->|Hy]]; [|by apply IH; left|by apply IH; right].
      destruct (lt y r) eqn:E; [|done].
      pose proof (IH z z (or_introl eq_refl)) as Hz. fold r in Hz.
      rewrite (sw_trans _ _ _ Ezx E) in Hz. discriminate.
    + destruct Hy as [->|[->|Hy]]; [by apply IH; left| |by apply IH; right].
      destruct (lt y r) eqn:E; [|done].
      pose proof (IH x x (or_introl eq_refl)) as Hx. fold r in Hx.
      destruct (sw_cotrans y x r E) as [H|H]; congruence.
Qed.

Lemma py_min_spec l m :
  py_min l = Some m -> In m l /\ forall y, In y l -> lt y m = false.
Proof.
  destruct l as [|x xs]; simpl; [discriminate|]. intros [= <-].
  split; [destruct (py_min_from_in x xs); auto|]. apply py_min_from_least.
Qed.
End MinMax.

Definition py_max {A} (lt : A -> A -> bool) (l : list A) : option A :=
  py_min (λ a b, lt b a) l.

(** [min] and [max] commute with a map that preserves the order. *)
Lemma py_min_map {A B} (lt : A -> A -> bool) (lt' : B -> B -> bool) (f : B -> A) l :
  (forall a b, lt (f a) (f b) = lt' a b) -> py_min lt (map f l) = option_map f (py_min lt' l).
Proof.
  intros Hf. destruct l as [|x xs]; [done|]. simpl. f_equal. unfold py_min_from.
  revert x. induction xs as [|y xs IH]; intros x; [done|]. simpl. rewrite Hf.
  destruct (lt' y x); apply IH.
Qed.

Lemma py_max_map {A B} (lt : A -> A -> bool) (lt' : B -> B -> bool) (f : B -> A) l :
  (forall a b, lt (f a) (f b) = lt' a b) -> py_max lt (map f l) = option_map f (py_max lt' l).
Proof. intros Hf. apply py_min_map. intros a b. apply Hf. Qed.

Lemma py_min_some {A} (lt : A -> A -> bool) l : l <> [] -> exists m, py_min lt l = Some m.
Proof. destruct l; simpl; [done|eauto]. Qed.

Lemma py_max_some {A} (lt : A -> A -> bool) l : l <> [] -> exists m, py_max lt l = Some m.
Proof. apply py_min_some. Qed.

Lemma py_max_spec {A} (lt : A -> A -> bool) `{!StrictWeak lt} l m :
  py_max lt l = Some m -> In m l /\ forall y, In y l -> lt m y = false.
Proof. apply (py_min_spec (λ a b, lt b a)). Qed.

(** On floats: the minimum is below and the maximum above every item. *)
Lemma py_min_Q_le l m y : py_min Qltb l = Some m -> In y l -> (m <= y)%Q.
Proof. intros Hm Hy. apply Qltb_false. by apply (py_min_spec Qltb l m Hm). Qed.

Lemma py_max_Q_ge l m y : py_max Qltb l = Some m -> In y l -> (y <= m)%Q.
Proof. intros Hm Hy. apply Qltb_false. by apply (py_max_spec Qltb l m Hm). Qed.

Lemma py_min_Z_le l m y : py_min Z.ltb l = Some m -> In y l -> (m <= y)%Z.
Proof. intros Hm Hy. apply Z.ltb_ge. by apply (py_min_spec Z.ltb l m Hm). Qed.

Lemma py_max_Z_ge l m y : py_max Z.ltb l = Some m -> In y l -> (y <= m)%Z.
Proof. intros Hm Hy. apply Z.ltb_ge. by apply (py_max_spec Z.ltb l m Hm). Qed.

(** ** [round(x, 1)] and [int(x)] on a float

    [round(x, 1)] rounds the exact value of [x] to the nearest multiple of
    a tenth, ties to even; the model returns the multiple as an integer
    number of tenths.  [int(x)] truncates toward zero. *)

Definition round_half_even (q : Q) : Z :=
  let f := Qfloor q in
  match Qcompare (q - inject_Z f) (1 # 2) with
  | Lt => f
  | Gt => (f + 1)%Z
  | Eq => if Z.even f then f else (f + 1)%Z
  end.

Definition py_round1 (q : Q) : Z := round_half_even (q * 10).

Definition py_int (q : Q) : Z := Z.quot (Qnum q) (Zpos (Qden q)).

Lemma round_half_even_close q :
  (Qabs (q - inject_Z (round_half_even q)) <= 1 # 2)%Q.
Proof.
  unfold round_half_even.
  pose proof (Qfloor_le q) as Hl. pose proof (Qlt_floor q) as Hu.
  set (f := Qfloor q) in *. rewrite inject_Z_plus in Hu.
  destruct (Qcompare_spec (q - inject_Z f) (1 # 2)) as [E|E|E];
    [destruct (Z.even f)| |]; rewrite ?inject_Z_plus; change (inject_Z 1) with (1 # 1) in *;
    apply Qabs_case; intros; lra.
Qed.

Lemma py_int_nonneg q : (0 <= q)%Q -> py_int q = Qfloor q.
Proof.
  destruct q as [n d]. unfold py_int, Qle, Qfloor. simpl. intros H.
  rewrite Z.quot_div_nonneg; lia.
Qed.

Lemma py_int_floor_nonneg q : (0 <= q)%Q -> (0 <= py_int q)%Z.
Proof.
  intros H. rewrite py_int_nonneg by done.
  change 0%Z with (Qfloor 0). by apply Qfloor_resp_le.
Qed.

(** ** Automation shared by the component files *)

Create HintDb stl discriminated.
#[export] Hint Resolve py_min_Q_le py_max_Q_ge py_min_Z_le py_max_Z_ge : stl.
#[export] Hint Resolve py_int_floor_nonneg : stl.

(** ** Float literals of the code

    A Python literal such as [0.9] denotes the nearest double, not the
    decimal: these are the exact values the code compares against. *)
Definition lit_0_9 : Q := 8106479329266893 # 9007199254740992.
Definition lit_0_1 : Q := 3602879701896397 # 36028797018963968.
Definition lit_0_3 : Q := 5404319552844595 # 18014398509481984.
Definition lit_0_2 : Q := 3602879701896397 # 18014398509481984.
Definition lit_0_4 : Q := 3602879701896397 # 9007199254740992.
Definition lit_0_6 : Q := 5404319552844595 # 9007199254740992.
Definition lit_0_7 : Q := 3152519739159347 # 4503599627370496.
Definition lit_0_8 : Q := 3602879701896397 # 4503599627370496.
Definition lit_0_03 : Q := 1080863910568919 # 36028797018963968.
