(* ===== verification/Float64.v ===== *)
(** * Float64: binary64 arithmetic where the code's rounding is observable

    Most of the development keeps a float as its exact value.  Where the
    program's output depends on how a float operation rounds (the bars of
    the histogram, the printed percentages, the decimation advice, the
    [repr] of a parsed argument), the operation is the Standard Library's
    [SpecFloat] specification of IEEE-754 binary64 (53-bit mantissa,
    [emax = 1024]), round to nearest even.  [f64_of_Q] is Python's
    [float()] of a decimal: the exact value rounded to the nearest double,
    proved against the contract [rounds_to] ([f64_of_Q_correct]) and
    complete for it ([f64_of_Q_complete]); [is_double] is the set of
    values of finite doubles. *)

From S2P Require Import Prelude.
From Stdlib Require Import SpecFloat Qpower.

(** ** Operations *)

(** [float(n)] for an integer [n]. *)
Definition f64_of_Z (n : Z) : spec_float := binary_normalize 53 1024 n 0 false.

Definition f64_add (x y : spec_float) : spec_float := SFadd 53 1024 x y.
Definition f64_sub (x y : spec_float) : spec_float := SFsub 53 1024 x y.
Definition f64_mul (x y : spec_float) : spec_float := SFmul 53 1024 x y.
Definition f64_div (x y : spec_float) : spec_float := SFdiv 53 1024 x y.

(** [int(x)] on a finite float: truncation toward zero of [m * 2^e]. *)
Definition f64_trunc (f : spec_float) : Z :=
  match f with
  | S754_finite s m e =>
      let a := if (0 <=? e)%Z then (Zpos m * 2 ^ e)%Z else (Zpos m / 2 ^ (- e))%Z in
      if s then (- a)%Z else a
  | _ => 0%Z
  end.

(** The exact value of a finite float; the non-finite ones do not arise
    where it is used. *)
Definition f64_to_Q (f : spec_float) : Q :=
  match f with
  | S754_finite s m e =>
      let a := if (0 <=? e)%Z then inject_Z (Zpos m * 2 ^ e) else Qmake (Zpos m) (Z.to_pos (2 ^ (- e))) in
      if s then (- a)%Q else a
  | _ => 0%Q
  end.

(** Python's [a / b] on two integers: the quotient correctly rounded to a
    float, which is [float(a) / float(b)] when both are below [2^53]. *)
Definition f64_int_div (a b : Z) : spec_float := f64_div (f64_of_Z a) (f64_of_Z b).


(** ** Correct rounding *)

(** [2^e] for an integer [e] of any sign. *)
Definition pow2_Q (e : Z) : Q :=
  if (0 <=? e)%Z then inject_Z (2 ^ e) else Qmake 1 (Z.to_pos (2 ^ (- e))).

(** The value [m * 2^e] of a positive finite float. *)
Definition f64_mag (m : positive) (e : Z) : Q := (inject_Z (Zpos m) * pow2_Q e)%Q.

(** Round to nearest even sends the rational [d > 0] to the float
    [m * 2^e] ([bounded]): [d] lies strictly between the midpoints with
    the neighbouring floats, or on one of them when [m] is even.  The
    neighbour below is half as far when [m * 2^e] is a normal power of
    two.  This is the IEEE-754 contract of Python's [float(s)]. *)
Definition rounds_to (d : Q) (m : positive) (e : Z) : bool :=
  let v := f64_mag m e in
  let hi := (v + pow2_Q (e - 1))%Q in
  let lo := if Pos.eqb m (2 ^ 52) && (-1074 <? e)%Z then (v - pow2_Q (e - 2))%Q else (v - pow2_Q (e - 1))%Q in
  (Qltb lo d && Qltb d hi) || (Z.even (Zpos m) && (Qeq_bool d lo || Qeq_bool d hi)).

(** ** Python's [float()] of an exact decimal

    CPython converts a decimal string with David Gay's correctly rounded
    [strtod]: the nearest double, ties to even, an infinity past the largest
    double, zero below half the least subnormal.  [binade q] is
    [floor(log2 q)] for [q > 0], from the bit lengths of the numerator and
    the denominator. *)
Definition binade (q : Q) : Z :=
  let e0 := (Z.log2 (Qnum q) - Z.log2 (Zpos (Qden q)))%Z in
  if Qltb q (pow2_Q e0) then (e0 - 1)%Z else e0.

(** The rounding of [q > 0] with the sign [s]: the exponent [e] puts
    [q / 2^e] in [[2^52, 2^53)] (or lower at the least exponent [-1074]);
    the mantissa is that quotient rounded half to even, which may carry
    into [2^53]; past the largest exponent [971] the result is an
    infinity. *)
Definition f64_round_pos (s : bool) (q : Q) : spec_float :=
  let e := Z.max (binade q - 52) (-1074) in
  let m := round_half_even (q / pow2_Q e) in
  let '(m', e') := if (m =? 2 ^ 53)%Z then (2 ^ 52, e + 1)%Z else (m, e) in
  if (m' =? 0)%Z then S754_zero s
  else if (971 <? e')%Z then S754_infinity s
  else S754_finite s (Z.to_pos m') e'.

(** [float(s)] for a decimal [s] of exact value [q]. *)
Definition f64_of_Q (q : Q) : spec_float :=
  match Qcompare q 0 with
  | Eq => S754_zero false
  | Lt => f64_round_pos true (- q)
  | Gt => f64_round_pos false q
  end.

(** [q] is the value of a finite double. *)
Definition is_double (q : Q) : bool :=
  match f64_of_Q q with
  | S754_infinity _ | S754_nan => false
  | f => Qeq_bool (f64_to_Q f) q
  end.

(** [round_half_even x] is within a half of [x], and even on a tie. *)
Definition half_close (x : Q) (m : Z) : Prop :=
  (inject_Z m - (1 # 2) < x < inject_Z m + (1 # 2))%Q \/
  ((x == inject_Z m - (1 # 2) \/ x == inject_Z m + (1 # 2))%Q /\ Z.even m = true).

(** The distance below [m * 2^e] to the midpoint with the float below,
    in units of [2^e]. *)
Definition lo_gap (m : positive) (e : Z) : Q :=
  if Pos.eqb m (2 ^ 52) && (-1074 <? e)%Z then 1 # 4 else 1 # 2.

(** ** Lemmas *)

Lemma digits2_pos_spec m :
  (2 ^ (Zpos (digits2_pos m) - 1) <= Zpos m < 2 ^ Zpos (digits2_pos m))%Z.
Proof.
  induction m as [p IH|p IH|]; simpl; [| |lia];
    rewrite Pos2Z.inj_succ, Z.pow_succ_r by lia;
    replace (Z.succ (Zpos (digits2_pos p)) - 1)%Z with (Zpos (digits2_pos p)) by lia;
    replace (2 ^ Zpos (digits2_pos p))%Z with (2 * 2 ^ (Zpos (digits2_pos p) - 1))%Z in *
      by (rewrite <-Z.pow_succ_r by lia; f_equal; lia); lia.
Qed.

(** A float of SpecFloat's binary64: a 53-bit mantissa, and an exponent
    at least [-1074]; below [2^52] only at the least exponent. *)
Lemma bounded_cases m e :
  bounded 53 1024 m e = true ->
  (Zpos m < 2 ^ 53)%Z /\ ((2 ^ 52 <= Zpos m)%Z \/ e = (-1074)%Z) /\ (-1074 <= e)%Z.
Proof.
  unfold bounded, canonical_mantissa, fexp, emin. intros [Hc _]%andb_prop.
  apply Z.eqb_eq in Hc. pose proof (digits2_pos_spec m) as [Hlo Hhi].
  set (D := Zpos (digits2_pos m)) in *.
  destruct (Z.le_gt_cases (D + e - 53) (3 - 1024 - 53)) as [Hle|Hgt].
  - rewrite Z.max_r in Hc by lia. subst e.
    assert (HD : (D <= 53)%Z) by lia.
    assert (2 ^ D <= 2 ^ 53)%Z by (apply Z.pow_le_mono_r; lia). lia.
  - rewrite Z.max_l in Hc by lia. assert (D = 53)%Z by lia. subst D.
    rewrite H in Hlo, Hhi. simpl in Hlo. lia.
Qed.

Lemma pow2_Q_Qpower e : (pow2_Q e == (2 # 1) ^ e)%Q.
Proof.
  unfold pow2_Q. destruct (Z.leb_spec 0 e).
  - exact (Zpower_Qpower 2 e H).
  - replace e with (- (- e))%Z at 2 by lia. rewrite Qpower_opp.
    rewrite <-(Zpower_Qpower 2 (- e)) by lia.
    assert (Hp : (0 < 2 ^ (- e))%Z) by (apply Z.pow_pos_nonneg; lia).
    unfold Qinv, inject_Z. simpl. destruct (2 ^ (- e))%Z eqn:E; try lia. reflexivity.
Qed.

Lemma pow2_Q_pos e : (0 < pow2_Q e)%Q.
Proof.
  unfold pow2_Q. destruct (Z.leb_spec 0 e).
  - change 0%Q with (inject_Z 0). rewrite <-Zlt_Qlt. apply Z.pow_pos_nonneg; lia.
  - reflexivity.
Qed.

Lemma pow2_Q_pred e : (pow2_Q (e - 1) == pow2_Q e / 2)%Q.
Proof.
  rewrite !pow2_Q_Qpower. unfold Z.sub. rewrite Qpower_plus by discriminate. reflexivity.
Qed.

Lemma Qeq_bool_compat x x' y y' : (x == x')%Q -> (y == y')%Q -> Qeq_bool x y = Qeq_bool x' y'.
Proof.
  intros Hx Hy. destruct (Qeq_bool x y) eqn:E1, (Qeq_bool x' y') eqn:E2; try done; exfalso.
  - apply Qeq_bool_iff in E1. apply Qeq_bool_neq in E2. apply E2. by rewrite <-Hx, <-Hy.
  - apply Qeq_bool_iff in E2. apply Qeq_bool_neq in E1. apply E1. by rewrite Hx, Hy.
Qed.

Lemma rounds_to_Qeq d d' m e : (d == d')%Q -> rounds_to d m e = rounds_to d' m e.
Proof.
  intros H. unfold rounds_to. cbn zeta.
  rewrite (Qltb_proper _ _ (Qeq_refl _) d d' H), (Qltb_proper d d' H _ _ (Qeq_refl _)).
  by rewrite !(Qeq_bool_compat d d' _ _ H (Qeq_refl _)).
Qed.

#[export] Instance rounds_to_proper : Proper (Qeq ==> eq ==> eq ==> eq) rounds_to.
Proof. intros d d' Hd m ? <- e ? <-. by apply rounds_to_Qeq. Qed.

(** A decimal that rounds to a positive float is positive. *)
Lemma rounds_to_pos d m e : rounds_to d m e = true -> (0 < d)%Q.
Proof.
  unfold rounds_to. cbn zeta.
  set (P := pow2_Q e). assert (HP : (0 < P)%Q) by apply pow2_Q_pos.
  assert (H1 : (pow2_Q (e - 1) == P * (1 # 2))%Q) by apply pow2_Q_pred.
  assert (H2 : (pow2_Q (e - 2) == P * (1 # 4))%Q).
  { replace (e - 2)%Z with (e - 1 - 1)%Z by lia. rewrite pow2_Q_pred, H1. field. }
  assert (Hm : (1 <= inject_Z (Zpos m))%Q) by (change 1%Q with (inject_Z 1); rewrite <-Zle_Qle; lia).
  unfold f64_mag. fold P.
  assert (Hv : (P <= inject_Z (Zpos m) * P)%Q) by (rewrite <-(Qmult_1_l P) at 1; apply Qmult_le_compat_r; lra).
  set (P1 := pow2_Q (e - 1)) in *. set (P2 := pow2_Q (e - 2)) in *. set (v := (inject_Z (Zpos m) * P)%Q) in *.
  clearbody P1 P2 v.
  destruct (Pos.eqb m (2 ^ 52) && (-1074 <? e)%Z);
    intros H; apply orb_prop in H as [H|H]; apply andb_prop in H as [Ha Hb];
    [rewrite Qltb_true in Ha; lra | apply orb_prop in Hb as [Heq|Heq]; apply Qeq_bool_iff in Heq; lra
    |rewrite Qltb_true in Ha; lra | apply orb_prop in Hb as [Heq|Heq]; apply Qeq_bool_iff in Heq; lra].
Qed.

Lemma pow2_Q_add a b : (pow2_Q (a + b) == pow2_Q a * pow2_Q b)%Q.
Proof. rewrite !pow2_Q_Qpower. by apply Qpower_plus. Qed.

Lemma pow2_Q_Z k : (0 <= k)%Z -> (pow2_Q k == inject_Z (2 ^ k))%Q.
Proof. intros Hk. unfold pow2_Q. by rewrite (proj2 (Z.leb_le 0 k) Hk). Qed.

Lemma pow2_Q_neq0 e : ~ (pow2_Q e == 0)%Q.
Proof. pose proof (pow2_Q_pos e). lra. Qed.

Lemma pow2_Q_lt a b : (a < b)%Z -> (pow2_Q a < pow2_Q b)%Q.
Proof.
  intros Hab. replace b with (a + (b - a))%Z by lia.
  pose proof (pow2_Q_Z (b - a) ltac:(lia)) as E. rewrite pow2_Q_add, E.
  pose proof (pow2_Q_pos a).
  assert (H2 : (2 <= 2 ^ (b - a))%Z).
  { replace (b - a)%Z with (1 + (b - a - 1))%Z by lia. rewrite Z.pow_add_r by lia.
    pose proof (Z.pow_pos_nonneg 2 (b - a - 1)). lia. }
  assert (H2' : (2 <= inject_Z (2 ^ (b - a)))%Q) by (change 2%Q with (inject_Z 2); by rewrite <-Zle_Qle).
  nra.
Qed.

Lemma pow2_Q_le a b : (a <= b)%Z -> (pow2_Q a <= pow2_Q b)%Q.
Proof.
  intros Hab. destruct (Z.eq_dec a b) as [->|]; [apply Qle_refl|].
  apply Qlt_le_weak, pow2_Q_lt. lia.
Qed.

(** The binade [floor(log2 q)] of a positive rational. *)
Lemma binade_spec q : (0 < q)%Q -> (pow2_Q (binade q) <= q < pow2_Q (binade q + 1))%Q.
Proof.
  intros Hq.
  assert (HqD : (q * inject_Z (Zpos (Qden q)) == inject_Z (Qnum q))%Q).
  { destruct q as [n d]. unfold Qeq, Qmult, inject_Z. simpl. lia. }
  assert (Hn : (0 < Qnum q)%Z) by (destruct q; unfold Qlt in Hq; simpl in *; lia).
  unfold binade. set (n := Qnum q) in *. set (d := Qden q) in *. clearbody n d.
  pose proof (Z.log2_spec n Hn) as [Hn1 Hn2]. pose proof (Z.log2_spec (Zpos d) eq_refl) as [Hd1 Hd2].
  assert (Hln : (0 <= Z.log2 n)%Z) by apply Z.log2_nonneg.
  assert (Hld : (0 <= Z.log2 (Zpos d))%Z) by apply Z.log2_nonneg.
  set (ln := Z.log2 n) in *. set (ld := Z.log2 (Zpos d)) in *. set (e0 := (ln - ld)%Z).
  assert (HTB : (pow2_Q e0 * pow2_Q ld == pow2_Q ln)%Q) by (rewrite <-pow2_Q_add; f_equiv; lia).
  assert (HT1 : (pow2_Q (e0 - 1) * 2 == pow2_Q e0)%Q)
    by (rewrite pow2_Q_pred; pose proof (pow2_Q_pos e0); field).
  assert (HT2 : (pow2_Q (e0 - 1 + 1) == pow2_Q e0)%Q) by (f_equiv; lia).
  assert (HT3 : (pow2_Q (e0 + 1) == pow2_Q e0 * 2)%Q).
  { pose proof (pow2_Q_pred (e0 + 1)) as E. replace (e0 + 1 - 1)%Z with e0 in E by lia.
    rewrite E. field. }
  assert (HA1 : (pow2_Q ln <= inject_Z n)%Q) by (rewrite (pow2_Q_Z ln Hln), <-Zle_Qle; lia).
  assert (HA2 : (inject_Z n < pow2_Q ln * 2)%Q).
  { rewrite (pow2_Q_Z ln Hln). change 2%Q with (inject_Z 2). rewrite <-inject_Z_mult, <-Zlt_Qlt.
    rewrite Z.pow_succ_r in Hn2 by lia. lia. }
  assert (HB1 : (pow2_Q ld <= inject_Z (Zpos d))%Q) by (rewrite (pow2_Q_Z ld Hld), <-Zle_Qle; lia).
  assert (HB2 : (inject_Z (Zpos d) < pow2_Q ld * 2)%Q).
  { rewrite (pow2_Q_Z ld Hld). change 2%Q with (inject_Z 2). rewrite <-inject_Z_mult, <-Zlt_Qlt.
    rewrite Z.pow_succ_r in Hd2 by lia. lia. }
  pose proof (pow2_Q_pos e0) as HT. pose proof (pow2_Q_pos ld) as HB.
  fold e0. destruct (Qltb_spec q (pow2_Q e0)) as [Hc|Hc]; cbn iota; rewrite ?HT2, ?HT3;
  set (T := pow2_Q e0) in *; set (B := pow2_Q ld) in *; set (A := pow2_Q ln) in *;
  set (D := inject_Z (Zpos d)) in *; set (N := inject_Z n) in *;
  set (T1 := pow2_Q (e0 - 1)) in *; clearbody T T1 A B D N;
  assert (HD : (0 < D)%Q) by lra;
  assert (P1 : (T * B <= T * D)%Q) by (apply Qmult_le_l; lra);
  assert (P2 : (T * D < T * (B * 2))%Q) by (apply Qmult_lt_l; lra).
  - split; [|done]. destruct (Qlt_le_dec T1 q) as [|Hc']; [lra|]. exfalso.
    assert (q * D <= T1 * D)%Q by (apply Qmult_le_compat_r; lra).
    assert (T1 * D * 2 == T * D)%Q by (rewrite <-HT1; ring). nra.
  - split; [lra|]. destruct (Qlt_le_dec q (T * 2)) as [|Hc']; [done|]. exfalso.
    assert (T * 2 * D <= q * D)%Q by (apply Qmult_le_compat_r; lra). nra.
Qed.

Lemma binade_unique q k : (pow2_Q k <= q < pow2_Q (k + 1))%Q -> binade q = k.
Proof.
  intros [H1 H2]. pose proof (pow2_Q_pos k).
  destruct (binade_spec q ltac:(lra)) as [B1 B2].
  destruct (Z.lt_total (binade q) k) as [Hlt|[Heq|Hgt]]; [exfalso| done |exfalso].
  - pose proof (pow2_Q_le (binade q + 1) k ltac:(lia)). lra.
  - pose proof (pow2_Q_le (k + 1) (binade q) ltac:(lia)). lra.
Qed.

Lemma round_half_even_spec x : half_close x (round_half_even x).
Proof.
  unfold half_close, round_half_even.
  pose proof (Qfloor_le x) as Hl. pose proof (Qlt_floor x) as Hu.
  set (f := Qfloor x) in *. rewrite inject_Z_plus in Hu. change (inject_Z 1) with (1 # 1) in Hu.
  destruct (Qcompare_spec (x - inject_Z f) (1 # 2)) as [E|E|E].
  - destruct (Z.even f) eqn:Ef.
    + right. split; [right; lra|done].
    + right. rewrite inject_Z_plus. change (inject_Z 1) with (1 # 1). split; [left; lra|].
      rewrite Z.even_add, Ef. done.
  - left. lra.
  - left. rewrite inject_Z_plus. change (inject_Z 1) with (1 # 1). lra.
Qed.

Lemma round_half_even_unique x m : half_close x m -> round_half_even x = m.
Proof.
  pose proof (round_half_even_spec x) as H'. unfold half_close in *.
  set (m' := round_half_even x) in *. clearbody m'. intros H.
  assert (Hle : (m' <= m + 1 /\ m <= m' + 1)%Z).
  { rewrite !Zle_Qle, !inject_Z_plus. change (inject_Z 1) with (1 # 1).
    destruct H as [H|[[H|H] _]], H' as [H'|[[H'|H'] _]]; lra. }
  destruct (Z.lt_total m m') as [Hlt|[Heq|Hgt]]; [exfalso|done|exfalso].
  - assert (m' = m + 1)%Z as -> by lia. rewrite inject_Z_plus in H'. change (inject_Z 1) with (1 # 1) in H'.
    destruct H as [H|[[H|H] He]], H' as [H'|[[H'|H'] He']]; try lra.
    rewrite Z.even_add, He in He'. discriminate.
  - assert (m = m' + 1)%Z as -> by lia. rewrite inject_Z_plus in H. change (inject_Z 1) with (1 # 1) in H.
    destruct H as [H|[[H|H] He]], H' as [H'|[[H'|H'] He']]; try lra.
    rewrite Z.even_add, He' in He. discriminate.
Qed.

Lemma Qltb_mul_r a b P : (0 < P)%Q -> Qltb (a * P) (b * P) = Qltb a b.
Proof.
  intros HP. destruct (Qltb_spec a b) as [H|H], (Qltb_spec (a * P) (b * P)) as [H'|H']; try done; exfalso.
  - apply H'. by apply Qmult_lt_r.
  - apply H. by apply Qmult_lt_r in H'.
Qed.

Lemma Qeq_bool_mul_r a b P : (0 < P)%Q -> Qeq_bool (a * P) (b * P) = Qeq_bool a b.
Proof.
  intros HP. destruct (Qeq_bool a b) eqn:E1, (Qeq_bool (a * P) (b * P)) eqn:E2; try done; exfalso.
  - apply Qeq_bool_iff in E1. apply Qeq_bool_neq in E2. apply E2. by rewrite E1.
  - apply Qeq_bool_iff in E2. apply Qeq_bool_neq in E1. apply E1.
    apply (Qmult_inj_r _ _ P); [lra|done].
Qed.

(** [rounds_to] read on the scaled value [x = d / 2^e]. *)
Lemma rounds_to_scale x m e :
  rounds_to (x * pow2_Q e) m e =
  (Qltb (inject_Z (Zpos m) - lo_gap m e) x && Qltb x (inject_Z (Zpos m) + (1 # 2))) ||
  (Z.even (Zpos m) && (Qeq_bool x (inject_Z (Zpos m) - lo_gap m e) || Qeq_bool x (inject_Z (Zpos m) + (1 # 2)))).
Proof.
  unfold rounds_to, lo_gap, f64_mag. cbn zeta.
  set (P := pow2_Q e). assert (HP : (0 < P)%Q) by apply pow2_Q_pos.
  assert (H1 : (pow2_Q (e - 1) == P * (1 # 2))%Q) by apply pow2_Q_pred.
  assert (H2 : (pow2_Q (e - 2) == P * (1 # 4))%Q).
  { replace (e - 2)%Z with (e - 1 - 1)%Z by lia. rewrite pow2_Q_pred, H1. field. }
  set (M := inject_Z (Zpos m)).
  assert (Ehi : (M * P + pow2_Q (e - 1) == (M + (1 # 2)) * P)%Q) by (rewrite H1; ring).
  assert (Elo1 : (M * P - pow2_Q (e - 2) == (M - (1 # 4)) * P)%Q) by (rewrite H2; ring).
  assert (Elo2 : (M * P - pow2_Q (e - 1) == (M - (1 # 2)) * P)%Q) by (rewrite H1; ring).
  destruct (Pos.eqb m (2 ^ 52) && (-1074 <? e)%Z);
    rewrite ?Elo1, ?Elo2, Ehi, !Qltb_mul_r, !Qeq_bool_mul_r by done; done.
Qed.

Lemma bounded_intro m e :
  (Zpos m < 2 ^ 53)%Z -> ((2 ^ 52 <= Zpos m)%Z \/ e = (-1074)%Z) -> (-1074 <= e <= 971)%Z ->
  bounded 53 1024 m e = true.
Proof.
  intros Hm Hn He. unfold bounded, canonical_mantissa, fexp, emin.
  apply andb_true_intro. split; [|apply Z.leb_le; lia]. apply Z.eqb_eq.
  pose proof (digits2_pos_spec m) as [Hlo Hhi]. set (D := Zpos (digits2_pos m)) in *.
  assert (HD : (D <= 53)%Z).
  { destruct (Z.le_gt_cases D 53) as [|Hg]; [done|].
    pose proof (Z.pow_le_mono_r 2 53 (D - 1) ltac:(lia) ltac:(lia)). lia. }
  destruct Hn as [Hn|He0]; [|subst e].
  - assert (D = 53)%Z as ->; [|lia].
    destruct (Z.le_gt_cases 53 D) as [|Hl]; [lia|].
    pose proof (Z.pow_le_mono_r 2 D 52 ltac:(lia) ltac:(lia)). lia.
  - lia.
Qed.

Lemma rounds_to_intro x m e :
  (inject_Z (Zpos m) - lo_gap m e < x \/ (x == inject_Z (Zpos m) - lo_gap m e /\ Z.even (Zpos m) = true))%Q ->
  (x < inject_Z (Zpos m) + (1 # 2) \/ (x == inject_Z (Zpos m) + (1 # 2) /\ Z.even (Zpos m) = true))%Q ->
  rounds_to (x * pow2_Q e) m e = true.
Proof.
  rewrite rounds_to_scale. intros [Hl|[Hl Ev]] [Hh|[Hh Ev']].
  - apply orb_true_intro. left. apply andb_true_intro. by split; apply Qltb_true.
  - apply orb_true_intro. right. rewrite Ev'. apply Qeq_bool_iff in Hh. by rewrite Hh, orb_true_r.
  - apply orb_true_intro. right. rewrite Ev. by apply Qeq_bool_iff in Hl as ->.
  - apply orb_true_intro. right. rewrite Ev. by apply Qeq_bool_iff in Hl as ->.
Qed.

Lemma half_close_bounds x m a :
  half_close x m -> ((inject_Z a <= x)%Q -> (a <= m)%Z) /\ ((x < inject_Z a)%Q -> (m <= a)%Z).
Proof.
  intros H. split; intros Ha.
  - assert (a < m + 1)%Z; [|lia]. rewrite Zlt_Qlt, inject_Z_plus. change (inject_Z 1) with (1 # 1).
    destruct H as [H|[[H|H] _]]; lra.
  - assert (m < a + 1)%Z; [|lia]. rewrite Zlt_Qlt, inject_Z_plus. change (inject_Z 1) with (1 # 1).
    destruct H as [H|[[H|H] _]]; lra.
Qed.

(** The exponent chosen for [q > 0] scales it below [2^53], and to at least
    [2^52] unless the exponent is the least one. *)
Lemma round_pos_scaled q : (0 < q)%Q ->
  let e := Z.max (binade q - 52) (-1074) in
  (0 < q / pow2_Q e < inject_Z (2 ^ 53))%Q /\
  ((inject_Z (2 ^ 52) <= q / pow2_Q e)%Q \/ e = (-1074)%Z) /\ (q == q / pow2_Q e * pow2_Q e)%Q.
Proof.
  intros Hq e. pose proof (binade_spec q Hq) as [B1 B2].
  pose proof (pow2_Q_pos e) as HP. set (P := pow2_Q e) in *.
  assert (Hx : (q == q / P * P)%Q) by (field; lra).
  assert (H53 : (pow2_Q (binade q + 1) <= inject_Z (2 ^ 53) * P)%Q).
  { rewrite <-(pow2_Q_Z 53) by lia. unfold P. rewrite <-pow2_Q_add. apply pow2_Q_le. lia. }
  split_and!; [| |destruct (Z.max_spec (binade q - 52) (-1074)) as [[_ He]|[_ He]]|done].
  - apply Qlt_shift_div_l; lra.
  - apply Qlt_shift_div_r; lra.
  - by right.
  - left. apply Qle_shift_div_l; [done|]. rewrite <-(pow2_Q_Z 52) by lia. unfold P, e.
    rewrite He, <-pow2_Q_add. by replace (52 + (binade q - 52))%Z with (binade q) by lia.
Qed.

Lemma f64_round_pos_spec s q : (0 < q)%Q ->
  match f64_round_pos s q with
  | S754_zero s' => s' = s /\ (q <= pow2_Q (-1075))%Q
  | S754_infinity s' => s' = s /\ (pow2_Q 1024 - pow2_Q 970 <= q)%Q
  | S754_finite s' m e => s' = s /\ bounded 53 1024 m e = true /\ rounds_to q m e = true
  | S754_nan => False
  end.
Proof.
  intros Hq. unfold f64_round_pos.
  destruct (round_pos_scaled q Hq) as [[Hx0 Hx53] [NC Hx]].
  set (e := Z.max (binade q - 52) (-1074)) in *. pose proof (pow2_Q_pos e) as HP.
  assert (He : (-1074 <= e)%Z) by lia.
  set (x := (q / pow2_Q e)%Q) in *. set (P := pow2_Q e) in *.
  pose proof (round_half_even_spec x) as Hm. set (m := round_half_even x) in *. clearbody x m.
  pose proof (half_close_bounds x m 0 Hm) as [Hm0 _]. specialize (Hm0 ltac:(change (inject_Z 0) with 0%Q; lra)).
  pose proof (half_close_bounds x m (2 ^ 53) Hm) as [_ Hm53]. specialize (Hm53 Hx53).
  assert (Hmn : (2 ^ 52 <= m)%Z \/ e = (-1074)%Z) by
    (destruct NC as [NC|NC]; [left; by apply (half_close_bounds x m _ Hm)|by right]).
  destruct (Z.eqb_spec m (2 ^ 53)) as [E53|N53].
  - (* rounding up to [2^53] carries into the next binade *)
    subst m. cbn iota beta. destruct (Z.ltb_spec 971 (e + 1)) as [Ho|Ho]; cbn -[Z.pow pow2_Q].
    + split; [done|].
      assert (Hx' : (inject_Z (2 ^ 53) - (1 # 2) <= x)%Q) by (destruct Hm as [H|[[H|H] _]]; lra).
      assert (HK : (pow2_Q 971 <= P)%Q) by (apply pow2_Q_le; lia).
      assert (E : (pow2_Q 1024 - pow2_Q 970 == (inject_Z (2 ^ 53) - (1 # 2)) * pow2_Q 971)%Q)
        by (vm_compute; reflexivity).
      rewrite Hx, E. apply (Qle_trans _ ((inject_Z (2 ^ 53) - (1 # 2)) * P)).
      * apply Qmult_le_l; [vm_compute; done|done].
      * apply Qmult_le_compat_r; lra.
    + split_and!; [done|apply bounded_intro; simpl; lia|].
      assert (E : (q == x * (1 # 2) * pow2_Q (e + 1))%Q).
      { rewrite Hx. pose proof (pow2_Q_pred (e + 1)) as E. replace (e + 1 - 1)%Z with e in E by lia.
        fold P in E. rewrite E. field. }
      assert (Eg : lo_gap (Z.to_pos (2 ^ 52)) (e + 1) = 1 # 4).
      { unfold lo_gap. replace (-1074 <? e + 1)%Z with true by (symmetry; apply Z.ltb_lt; lia). reflexivity. }
      rewrite (rounds_to_Qeq _ _ _ _ E). unfold half_close in Hm. change (inject_Z (2 ^ 53)) with (inject_Z (2 ^ 52) * 2)%Q in Hm, Hx53.
      apply rounds_to_intro; rewrite ?Eg; change (inject_Z (Zpos (Z.to_pos (2 ^ 52)))) with (inject_Z (2 ^ 52));
        destruct Hm as [H|[[H|H] _]]; try (right; split; [lra|done]); left; lra.
  - cbn iota beta. destruct (Z.eqb_spec m 0) as [E0|N0].
    + subst m. split; [done|].
      destruct Hmn as [Hmn|Hmn]; [lia|]. rewrite Hx. unfold P. rewrite Hmn.
      replace (-1075)%Z with (-1074 - 1)%Z by lia. rewrite pow2_Q_pred.
      unfold half_close in Hm. change (inject_Z 0) with 0%Q in Hm.
      assert (Hh : (x <= 1 # 2)%Q) by (destruct Hm as [H|[[H|H] _]]; lra).
      pose proof (pow2_Q_pos (-1074)). set (R := pow2_Q (-1074)) in *. clearbody R.
      apply (Qle_trans _ ((1 # 2) * R)); [apply Qmult_le_compat_r; lra|]. rewrite Qmult_comm. apply Qle_refl.
    + destruct (Z.ltb_spec 971 e) as [Ho|Ho].
      * split; [done|]. destruct Hmn as [Hmn|Hmn]; [|lia]. destruct NC as [NC|NC]; [|lia].
        assert (HK : (pow2_Q 972 <= P)%Q) by (apply pow2_Q_le; lia).
        assert (E : (pow2_Q 1024 - pow2_Q 970 <= inject_Z (2 ^ 52) * pow2_Q 972)%Q)
          by (vm_compute; discriminate).
        rewrite Hx. apply (Qle_trans _ _ _ E). apply (Qle_trans _ (inject_Z (2 ^ 52) * P)).
        -- apply Qmult_le_l; [vm_compute; done|done].
        -- apply Qmult_le_compat_r; lra.
      * assert (Hmp : Zpos (Z.to_pos m) = m) by (apply Z2Pos.id; lia).
        split_and!; [done|apply bounded_intro; lia|].
        rewrite (rounds_to_Qeq _ _ _ _ Hx). fold P. apply rounds_to_intro; rewrite Hmp; unfold lo_gap.
        -- destruct (Pos.eqb (Z.to_pos m) (2 ^ 52) && (-1074 <? e)%Z) eqn:Eg.
           ++ apply andb_true_iff in Eg as [Eg1 Eg2]. apply Pos.eqb_eq in Eg1. apply Z.ltb_lt in Eg2.
              assert (m = 2 ^ 52)%Z as -> by (rewrite <-Hmp, Eg1; reflexivity).
              destruct NC as [NC|NC]; [|lia]. left. lra.
           ++ destruct Hm as [H|[[H|H] Ev]]; [left; lra|right; split; [lra|done]|left; lra].
        -- destruct Hm as [H|[[H|H] Ev]]; [left; lra|left; lra|right; split; [lra|done]].
Qed.

Lemma rounds_to_scale_inv x m e :
  rounds_to (x * pow2_Q e) m e = true ->
  (inject_Z (Zpos m) - lo_gap m e < x \/ (x == inject_Z (Zpos m) - lo_gap m e /\ Z.even (Zpos m) = true))%Q /\
  (x < inject_Z (Zpos m) + (1 # 2) \/ (x == inject_Z (Zpos m) + (1 # 2) /\ Z.even (Zpos m) = true))%Q.
Proof.
  rewrite rounds_to_scale. assert (Hg : (0 < lo_gap m e)%Q) by (unfold lo_gap; destruct (_ && _); done).
  intros [[H1 H2]%andb_prop|[Ev [H|H]%orb_prop]%andb_prop]%orb_prop.
  - apply Qltb_true in H1, H2. split; by left.
  - apply Qeq_bool_iff in H. split; [right; by split|left; lra].
  - apply Qeq_bool_iff in H. split; [left; lra|right; by split].
Qed.

(** A decimal that rounds to the float [(m, e)] is converted to it. *)
Lemma f64_round_pos_complete s d m e :
  bounded 53 1024 m e = true -> rounds_to d m e = true -> f64_round_pos s d = S754_finite s m e.
Proof.
  intros Hb Hr. pose proof (rounds_to_pos _ _ _ Hr) as Hd.
  pose proof (bounded_cases m e Hb) as [Hm53 [Hmn He]].
  assert (He971 : (e <= 971)%Z) by (unfold bounded in Hb; apply andb_prop in Hb as [_ Hb]; apply Z.leb_le in Hb; lia).
  pose proof (pow2_Q_pos e) as HP. set (x := (d / pow2_Q e)%Q).
  assert (Hx : (d == x * pow2_Q e)%Q) by (unfold x; field; lra).
  rewrite (rounds_to_Qeq _ _ _ _ Hx) in Hr. apply rounds_to_scale_inv in Hr as [Hlo Hhi].
  set (M := inject_Z (Zpos m)) in *.
  assert (HM53 : (M + 1 <= inject_Z (2 ^ 53))%Q) by (unfold M; change 1%Q with (inject_Z 1); rewrite <-inject_Z_plus, <-Zle_Qle; lia).
  assert (Hhc : half_close x (Zpos m)).
  { unfold half_close. fold M. assert (G : lo_gap m e = 1 # 4 \/ lo_gap m e = 1 # 2) by
      (unfold lo_gap; destruct (_ && _); [left|right]; reflexivity).
    destruct G as [G|G]; rewrite G in Hlo; destruct Hlo as [H|[H Ev]], Hhi as [H'|[H' Ev']];
      try (left; split; lra); right; split; try done; first [left; lra|right; lra]. }
  assert (H52 : (1 <= inject_Z (2 ^ 52))%Q) by (vm_compute; discriminate).
  assert (HP52 : (pow2_Q (e + 52) == inject_Z (2 ^ 52) * pow2_Q e)%Q)
    by (rewrite Z.add_comm, pow2_Q_add, (pow2_Q_Z 52) by lia; ring).
  unfold f64_round_pos.
  assert (Hend : Z.max (binade d - 52) (-1074) = e ->
    (let '(m', e') := if (round_half_even (d / pow2_Q (Z.max (binade d - 52) (-1074))) =? 2 ^ 53)%Z
                      then (2 ^ 52, Z.max (binade d - 52) (-1074) + 1)%Z
                      else (round_half_even (d / pow2_Q (Z.max (binade d - 52) (-1074))), Z.max (binade d - 52) (-1074)) in
     if (m' =? 0)%Z then S754_zero s else if (971 <? e')%Z then S754_infinity s else S754_finite s (Z.to_pos m') e')
    = S754_finite s m e).
  { intros E. rewrite E. fold x. rewrite (round_half_even_unique _ _ Hhc).
    replace (Zpos m =? 2 ^ 53)%Z with false by (symmetry; apply Z.eqb_neq; lia).
    replace (971 <? e)%Z with false by (symmetry; apply Z.ltb_ge; lia). reflexivity. }
  destruct (Qlt_le_dec x (inject_Z (2 ^ 52))) as [Hsmall|Hbig].
  - destruct (Pos.eqb m (2 ^ 52) && (-1074 <? e)%Z) eqn:Eg.
    + (* the lower half-interval of a power of two: rounded in the binade below *)
      apply andb_prop in Eg as [Eg1 Eg2]. apply Pos.eqb_eq in Eg1. apply Z.ltb_lt in Eg2. subst m. unfold M in *.
      unfold lo_gap in Hlo. rewrite Pos.eqb_refl, (proj2 (Z.ltb_lt _ _) Eg2) in Hlo. cbn [andb] in Hlo.
      change (inject_Z (Zpos (2 ^ 52))) with (inject_Z (2 ^ 52)) in Hlo.
      assert (Hb' : binade d = (e + 51)%Z).
      { apply binade_unique. rewrite Hx.
        assert (E1 : (pow2_Q (e + 51) == inject_Z (2 ^ 51) * pow2_Q e)%Q)
          by (rewrite Z.add_comm, pow2_Q_add, (pow2_Q_Z 51) by lia; ring).
        assert (E2 : (pow2_Q (e + 51 + 1) == inject_Z (2 ^ 52) * pow2_Q e)%Q)
          by (replace (e + 51 + 1)%Z with (52 + e)%Z by lia; rewrite pow2_Q_add, (pow2_Q_Z 52) by lia; ring).
        rewrite E1, E2. split; apply Qmult_le_compat_r || apply Qmult_lt_compat_r; try lra.
        assert (E3 : (inject_Z (2 ^ 51) == inject_Z (2 ^ 52) * (1 # 2))%Q) by (vm_compute; reflexivity).

        rewrite E3. destruct Hlo as [H|[H _]]; lra. }
      rewrite Hb'. replace (Z.max (e + 51 - 52) (-1074)) with (e - 1)%Z by lia.
      assert (Ex : (d / pow2_Q (e - 1) == x * 2)%Q) by (rewrite Hx, pow2_Q_pred; field; lra).
      rewrite (round_half_even_unique _ (2 ^ 53)).
      * rewrite Z.eqb_refl. cbn iota beta. change ((2 ^ 52 =? 0)%Z) with false. cbn iota.
        replace (e - 1 + 1)%Z with e by lia.
        replace (971 <? e)%Z with false by (symmetry; apply Z.ltb_ge; lia). reflexivity.
      * unfold half_close. rewrite Ex. change (inject_Z (2 ^ 53)) with (inject_Z (2 ^ 52) * 2)%Q.
        destruct Hlo as [H|[H _]]; [left; lra|right; split; [left; lra|reflexivity]].
    + (* a subnormal float: its exponent is the least one *)
      apply Hend. assert (He' : e = (-1074)%Z).
      { destruct Hmn as [Hmn|Hmn]; [|done]. destruct (Pos.eq_dec m (2 ^ 52)%positive) as [->|Hne].
        - rewrite Pos.eqb_refl in Eg. cbn [andb] in Eg. apply Z.ltb_ge in Eg. lia.
        - exfalso. assert (Zpos m <> 2 ^ 52)%Z by (intros E; apply Hne; lia).
          pose proof (half_close_bounds x (Zpos m) (2 ^ 52) Hhc) as [_ Hc]. specialize (Hc Hsmall). lia. }
      destruct (binade_spec d Hd) as [B1 _].
      assert (binade d < e + 52)%Z; [|lia].
      destruct (Z.lt_ge_cases (binade d) (e + 52)) as [|Hge]; [done|exfalso].
      pose proof (pow2_Q_le _ _ Hge). assert (d < inject_Z (2 ^ 52) * pow2_Q e)%Q; [|lra].
      rewrite Hx. by apply Qmult_lt_compat_r.
  - (* a normal float: the binade of [d] is the float's *)
    apply Hend. assert (Hb' : binade d = (e + 52)%Z); [|lia].
    apply binade_unique. rewrite Hx, HP52.
    assert (HP53 : (pow2_Q (e + 52 + 1) == inject_Z (2 ^ 53) * pow2_Q e)%Q)
      by (replace (e + 52 + 1)%Z with (53 + e)%Z by lia; rewrite pow2_Q_add, (pow2_Q_Z 53) by lia; ring).
    rewrite HP53. split; [apply Qmult_le_compat_r; lra|apply Qmult_lt_compat_r; [done|]].
    destruct Hhi as [H|[H _]]; lra.
Qed.

(** A value [z * 2^k] with [z] below [2^53], [k] at least [-1074] and no
    overflow is converted exactly. *)
Lemma f64_round_pos_exact s q z k :
  (q == inject_Z z * pow2_Q k)%Q -> (0 < z < 2 ^ 53)%Z -> (-1074 <= k)%Z -> (q <= pow2_Q 1023)%Q ->
  exists m e, f64_round_pos s q = S754_finite s m e /\ (f64_mag m e == q)%Q.
Proof.
  intros Hq Hz Hk Hmax. pose proof (pow2_Q_pos k) as HPk.
  assert (Hz' : (1 <= inject_Z z)%Q) by (change 1%Q with (inject_Z 1); rewrite <-Zle_Qle; lia).
  assert (Hpos : (0 < q)%Q) by (rewrite Hq; nra).
  destruct (binade_spec q Hpos) as [B1 B2].
  set (e := Z.max (binade q - 52) (-1074)).
  assert (Hek : (e <= k)%Z).
  { assert (binade q < k + 53)%Z; [|lia].
    destruct (Z.lt_ge_cases (binade q) (k + 53)) as [|Hge]; [done|exfalso].
    pose proof (pow2_Q_le _ _ Hge).
    assert (q < pow2_Q (k + 53))%Q; [|lra].
    rewrite Hq, Z.add_comm, pow2_Q_add, (pow2_Q_Z 53) by lia. apply Qmult_lt_compat_r; [done|].
    rewrite <-Zlt_Qlt; lia. }
  set (n := (z * 2 ^ (k - e))%Z).
  assert (Hn : (0 < n)%Z) by (unfold n; pose proof (Z.pow_pos_nonneg 2 (k - e)); lia).
  assert (Hx : (q / pow2_Q e == inject_Z n)%Q).
  { pose proof (pow2_Q_pos e). unfold n. rewrite inject_Z_mult, <-(pow2_Q_Z (k - e)) by lia.
    rewrite Hq. replace k with (k - e + e)%Z at 1 by lia. rewrite pow2_Q_add. field. lra. }
  assert (Hr : round_half_even (q / pow2_Q e) = n).
  { apply round_half_even_unique. left. rewrite Hx. lra. }
  assert (Hval : (inject_Z n * pow2_Q e == q)%Q) by (rewrite <-Hx; field; apply pow2_Q_neq0).
  assert (Hcap : forall j, (pow2_Q j <= q)%Q -> (j <= 1023)%Z).
  { intros j Hj. destruct (Z.le_gt_cases j 1023) as [|Hgt]; [done|exfalso].
    pose proof (pow2_Q_lt 1023 j Hgt). lra. }
  pose proof (Hcap _ B1) as Hb.
  unfold f64_round_pos. fold e. rewrite Hr. destruct (Z.eqb_spec n (2 ^ 53)) as [E53|N53].
  - cbn iota beta. change ((2 ^ 52 =? 0)%Z) with false. cbn iota.
    assert (Hm : (f64_mag (2 ^ 52) (e + 1) == q)%Q).
    { rewrite <-Hval, E53. unfold f64_mag. rewrite pow2_Q_add.
      change (inject_Z (Zpos (2 ^ 52))) with (inject_Z (2 ^ 52)). rewrite (pow2_Q_Z 1) by lia.
      change (inject_Z (2 ^ 53)) with (inject_Z (2 ^ 52) * inject_Z (2 ^ 1))%Q. ring. }
    assert (e + 53 <= 1023)%Z.
    { apply Hcap. rewrite <-Hval, E53, Z.add_comm, pow2_Q_add, (pow2_Q_Z 53) by lia. apply Qle_refl. }
    replace (971 <? e + 1)%Z with false by (symmetry; apply Z.ltb_ge; lia). eauto.
  - replace (n =? 0)%Z with false by (symmetry; apply Z.eqb_neq; lia).
    assert (Hm : (f64_mag (Z.to_pos n) e == q)%Q) by (unfold f64_mag; by rewrite Z2Pos.id by lia).
    replace (971 <? e)%Z with false by (symmetry; apply Z.ltb_ge; lia). eauto.
Qed.

Lemma f64_to_Q_finite s m e :
  (f64_to_Q (S754_finite s m e) == if s then - f64_mag m e else f64_mag m e)%Q.
Proof.
  assert (H : ((if (0 <=? e)%Z then inject_Z (Zpos m * 2 ^ e) else Qmake (Zpos m) (Z.to_pos (2 ^ (- e))))
               == f64_mag m e)%Q).
  { unfold f64_mag, pow2_Q. destruct (0 <=? e)%Z.
    - by rewrite inject_Z_mult.
    - unfold Qeq, Qmult, inject_Z. simpl. lia. }
  unfold f64_to_Q. destruct s; cbn zeta; by rewrite H.
Qed.

Lemma f64_mag_pos m e : (0 < f64_mag m e)%Q.
Proof.
  unfold f64_mag. pose proof (pow2_Q_pos e).
  assert (0 < inject_Z (Zpos m))%Q by (change 0%Q with (inject_Z 0); by rewrite <-Zlt_Qlt). nra.
Qed.

(** A float rounds to itself. *)
Lemma rounds_to_self m e : rounds_to (f64_mag m e) m e = true.
Proof.
  unfold f64_mag. apply rounds_to_intro; left; [|lra].
  unfold lo_gap. destruct (_ && _); lra.
Qed.

(** [float()] of a decimal that rounds to the finite float [(s, m, e)]. *)
Lemma f64_of_Q_complete d s m e :
  bounded 53 1024 m e = true -> rounds_to (Qabs d) m e = true -> (s = true <-> (d < 0)%Q) ->
  f64_of_Q d = S754_finite s m e.
Proof.
  intros Hb Hr Hs. pose proof (rounds_to_pos _ _ _ Hr) as Hd. unfold f64_of_Q.
  destruct (Qcompare_spec d 0) as [E|E|E].
  - rewrite E in Hd. discriminate.
  - rewrite Qabs_neg in Hr by lra. replace s with true by (symmetry; by apply Hs).
    by apply f64_round_pos_complete.
  - rewrite Qabs_pos in Hr by lra.
    replace s with false by (destruct s; [exfalso; assert (d < 0)%Q by (by apply Hs); lra|done]).
    by apply f64_round_pos_complete.
Qed.

(** [float()] of the value of a finite float is that float. *)
Lemma f64_of_Q_value s m e q :
  bounded 53 1024 m e = true -> (f64_to_Q (S754_finite s m e) == q)%Q -> f64_of_Q q = S754_finite s m e.
Proof.
  intros Hb Hq. rewrite f64_to_Q_finite in Hq. pose proof (f64_mag_pos m e).
  apply f64_of_Q_complete; [done| |]; destruct s; rewrite <-Hq.
  - rewrite Qabs_neg, Qopp_involutive by lra. apply rounds_to_self.
  - rewrite Qabs_pos by lra. apply rounds_to_self.
  - split; intros; [lra|done].
  - split; intros; [discriminate|lra].
Qed.

Lemma f64_of_Q_bounded q s m e : f64_of_Q q = S754_finite s m e -> bounded 53 1024 m e = true.
Proof.
  unfold f64_of_Q. intros E. destruct (Qcompare_spec q 0) as [Hq|Hq|Hq]; [discriminate| |];
    [pose proof (f64_round_pos_spec true (- q) ltac:(lra)) as H|pose proof (f64_round_pos_spec false q Hq) as H];
    rewrite E in H; by destruct H as [_ [Hb _]].
Qed.

(** A value [z * 2^k] with [z] below [2^53] in magnitude, [k] at least
    [-1074] and no overflow is a double. *)
Lemma is_double_scaled q z k :
  (q == inject_Z z * pow2_Q k)%Q -> z <> 0%Z -> (Z.abs z < 2 ^ 53)%Z -> (-1074 <= k)%Z ->
  (Qabs q <= pow2_Q 1023)%Q -> is_double q = true.
Proof.
  intros Hq Hz Hz53 Hk Hmax. pose proof (pow2_Q_pos k).
  assert (Ha : (Qabs q == inject_Z (Z.abs z) * pow2_Q k)%Q).
  { rewrite Hq, Qabs_Qmult, (Qabs_pos (pow2_Q k)) by lra. reflexivity. }
  assert (Hz' : (1 <= inject_Z (Z.abs z))%Q) by (change 1%Q with (inject_Z 1); rewrite <-Zle_Qle; lia).
  unfold is_double, f64_of_Q. destruct (Qcompare_spec q 0) as [E|E|E].
  - exfalso. rewrite E in Ha. change (Qabs 0) with 0%Q in Ha. nra.
  - rewrite Qabs_neg in Ha, Hmax by lra.
    destruct (f64_round_pos_exact true (- q) (Z.abs z) k Ha ltac:(lia) Hk Hmax) as (m & e & Hf & Hv). rewrite Hf.
    apply Qeq_bool_iff. rewrite f64_to_Q_finite, Hv. ring.
  - rewrite Qabs_pos in Ha, Hmax by lra.
    destruct (f64_round_pos_exact false q (Z.abs z) k Ha ltac:(lia) Hk Hmax) as (m & e & Hf & Hv). rewrite Hf.
    apply Qeq_bool_iff. by rewrite f64_to_Q_finite, Hv.
Qed.

Lemma is_double_finite s m e q :
  bounded 53 1024 m e = true -> (f64_to_Q (S754_finite s m e) == q)%Q -> is_double q = true.
Proof. intros Hb Hv. unfold is_double. rewrite (f64_of_Q_value s m e q Hb Hv). by apply Qeq_bool_iff. Qed.

Lemma is_double_zero q : (q == 0)%Q -> is_double q = true.
Proof.
  intros H. unfold is_double, f64_of_Q. destruct (Qcompare_spec q 0) as [E|E|E]; try lra.
  apply Qeq_bool_iff. by rewrite H.
Qed.

(** ** Theorems *)



Example f64_of_Q_samples :
  f64_of_Q (9 # 10) = S754_finite false 8106479329266893 (-53) /\
  f64_of_Q (inject_Z (10 ^ 400)) = S754_infinity false /\
  f64_of_Q (- Qmake 1 (Z.to_pos (2 ^ 1075))) = S754_zero true /\
  f64_of_Q (Qmake 3 (Z.to_pos (2 ^ 1076))) = S754_finite false 1 (-1074) /\
  is_double (1 # 10) = false /\ is_double lit_0_9 = true.
Proof. vm_compute. repeat split. Qed.
