(* ===== verification/PyFormat.v ===== *)
(** * PyFormat: the parts of Python's format mini-language the scripts use

    Both scripts print numbers through f-strings.  A float is its exact
    value (a [Q]), and a format rounds that value as CPython does: with the
    correctly rounded decimal digits, ties to even.
    - [pad_left w] is the field width of [{x:6d}] and [{s:>6}];
    - [fmt_fixed k] is [{x:.kf}];
    - [fmt_commas] is [{n:,}];
    - [fmt_g6] is [{x:.6g}];
    - [fmt_f64_fixed k] is [{x:.kf}] on a binary64 float, with its signed
      zero, infinities and NaN;
    - [py_repr] is [{x}] of a float, [repr(x)]: the shortest decimal that
      reads back as [x], the nearest one first ([repr_search]).
    [parse_decimal] reads back the decimal notation these formats print.
    It is the reference against which the formats are proved to round the
    value correctly ([fmt_fixed_correct]) and [repr] to read back
    ([py_repr_roundtrip]).

    A negative zero, which [Q] does not have, would print a [-] sign
    (e.g. [-0.00]); [fmt_f64_fixed] prints it.  A negative value that
    rounds to zero prints it too, and the model prints that case the same
    way. *)

From S2P Require Import Prelude Float64.
From Stdlib Require Import SpecFloat Qpower.
From stdpp Require Import pretty.

Local Open Scope string_scope.

(** A field of minimum width [w], right aligned. *)
Definition pad_left (w : nat) (s : string) : string :=
  string_of_list_ascii (repeat " "%char (w - String.length s)) ++ s.

(** [10^e] for an integer [e] of any sign. *)
Definition q_pow10 (e : Z) : Q :=
  if (0 <=? e)%Z then inject_Z (10 ^ e) else Qmake 1 (Z.to_pos (10 ^ (- e))).

(** ** [.kf] and [,] *)

(** Zeros on the left up to [k] characters, as [format(n, "0kd")]. *)
Definition zfill (k : nat) (s : string) : string :=
  string_of_list_ascii (repeat "0"%char (k - String.length s)) ++ s.

(** The digits of [m / 10^k] with [k] decimals. *)
Definition fixed_digits (k : nat) (m : N) : string :=
  match k with
  | O => pretty m
  | S _ => pretty (m / 10 ^ N.of_nat k)%N ++ "." ++ zfill k (pretty (m mod 10 ^ N.of_nat k)%N)
  end.

(** [f"{x:.kf}"]: the exact value times [10^k] rounded half to even, its
    magnitude printed with [k] decimals, and the sign of the value. *)
Definition fmt_fixed (k : nat) (q : Q) : string :=
  (if Qltb q 0 then "-" else EmptyString) ++
  fixed_digits k (Z.to_N (Z.abs (round_half_even (q * inject_Z (10 ^ Z.of_nat k))))).

(** [f"{x:.kf}"] on a float: the sign of a zero is printed, the
    infinities and NaN by name. *)
Definition fmt_f64_fixed (k : nat) (f : spec_float) : string :=
  match f with
  | S754_zero s => (if s then "-" else EmptyString) ++ fixed_digits k 0
  | S754_infinity s => if s then "-inf" else "inf"
  | S754_nan => "nan"
  | S754_finite _ _ _ => fmt_fixed k (f64_to_Q f)
  end.

(** A comma after every three digits, on the reversed digit list. *)
Fixpoint group3_rev (l : list ascii) : list ascii :=
  match l with
  | a :: b :: c :: ((_ :: _) as r) => a :: b :: c :: ","%char :: group3_rev r
  | _ => l
  end.

(** [f"{n:,}"]: the digits of [n] grouped by three from the right. *)
Definition fmt_commas (n : Z) : string :=
  (if (n <? 0)%Z then "-" else EmptyString) ++
  string_of_list_ascii (rev (group3_rev (rev (list_ascii_of_string (pretty (Z.to_N (Z.abs n))))))).

(** ** Reading a decimal back

    The reference reading of the printed notation: an optional [-], digits,
    an optional [.] with digits, an optional [e] with a signed exponent. *)

Definition digit_val (c : ascii) : option N :=
  let n := nat_of_ascii c in
  if (48 <=? n)%nat && (n <=? 57)%nat then Some (N.of_nat (n - 48)) else None.

Fixpoint digits_value_acc (acc : N) (l : list ascii) : option N :=
  match l with
  | [] => Some acc
  | c :: r => match digit_val c with Some d => digits_value_acc (10 * acc + d)%N r | None => None end
  end.

(** The value of a non-empty digit string. *)
Definition digits_value (l : list ascii) : option N :=
  match l with [] => None | _ => digits_value_acc 0 l end.

(** The part before the first [c], and the part after it if there is one. *)
Fixpoint split_on (c : ascii) (l : list ascii) : list ascii * option (list ascii) :=
  match l with
  | [] => ([], None)
  | d :: r => if ascii_dec d c then ([], Some r) else let '(a, b) := split_on c r in (d :: a, b)
  end.

Definition parse_unsigned (l : list ascii) : option Q :=
  let '(ip, fp) := split_on "." l in
  match digits_value ip, fp with
  | Some i, None => Some (inject_Z (Z.of_N i))
  | Some i, Some f =>
      match digits_value f with
      | Some v => Some (inject_Z (Z.of_N i) + inject_Z (Z.of_N v) / inject_Z (10 ^ Z.of_nat (length f)))%Q
      | None => None
      end
  | None, _ => None
  end.

Definition parse_exp (l : list ascii) : option Z :=
  match l with
  | c :: r =>
      if ascii_dec c "+" then option_map Z.of_N (digits_value r)
      else if ascii_dec c "-" then option_map (λ n, (- Z.of_N n)%Z) (digits_value r)
      else option_map Z.of_N (digits_value l)
  | [] => None
  end.

(** The sign, and the characters after it. *)
Definition split_sign (l : list ascii) : bool * list ascii :=
  match l with c :: r => if ascii_dec c "-" then (true, r) else (false, l) | [] => (false, []) end.

Definition parse_decimal (s : string) : option Q :=
  let '(neg, l) := split_sign (list_ascii_of_string s) in
  let '(m, e) := split_on "e" l in
  match parse_unsigned m, option_map parse_exp e with
  | Some v, None => Some (if neg then - v else v)%Q
  | Some v, Some (Some x) => Some ((if neg then - v else v) * q_pow10 x)%Q
  | _, _ => None
  end.

(** Reference reading of a digit string grouped by threes, from the right. *)
Fixpoint parse_groups_rev (l : list ascii) : option N :=
  match l with
  | a :: b :: c :: s :: r =>
      if ascii_dec s "," then
        match digits_value [c; b; a], parse_groups_rev r with
        | Some v, Some w => Some (1000 * w + v)%N
        | _, _ => None
        end
      else None
  | _ => digits_value (rev l)
  end.

Definition parse_commas (s : string) : option Z :=
  let '(neg, l) := split_sign (list_ascii_of_string s) in
  option_map (λ v, if neg then (- Z.of_N v)%Z else Z.of_N v) (parse_groups_rev (rev l)).

(** The characters of a digit string. *)
Definition all_digits (l : list ascii) : Prop := forall c, In c l -> is_Some (digit_val c).

(** ** [.6g] *)

(** The decimal exponent of a positive rational, [floor(log10 a)]: the
    difference of the digit counts of numerator and denominator is it or
    one more. *)
Definition dec_exp (a : Q) : Z :=
  let e0 := (Z.of_nat (String.length (pretty (Z.to_N (Qnum a))))
             - Z.of_nat (String.length (pretty (Npos (Qden a)))))%Z in
  if Qltb a (q_pow10 e0) then (e0 - 1)%Z else e0.

Fixpoint strip_zeros_rev (l : list ascii) : list ascii :=
  match l with "0"%char :: r => strip_zeros_rev r | _ => l end.

(** The digits without their trailing zeros. *)
Definition strip_zeros (l : list ascii) : list ascii := rev (strip_zeros_rev (rev l)).

(** The exponent of the [e] notation: a sign and at least two digits. *)
Definition exp_digits (x : Z) : string :=
  (if (x <? 0)%Z then "-" else "+") ++
  (if (Z.abs x <? 10)%Z then "0" else EmptyString) ++ pretty (Z.to_N (Z.abs x)).

(** [f"{v:.6g}"]: the exact value rounded to six significant digits, ties
    to even; fixed notation for a decimal exponent in [-4 .. 5], the [e]
    notation otherwise, trailing zeros and a bare point removed.  (A
    negative zero, which [Q] does not have, would print ["-0"].) *)
Definition fmt_g6 (q : Q) : string :=
  if Qeq_bool q 0 then "0" else
  let a := Qabs q in
  let e := dec_exp a in
  let m0 := round_half_even (a * q_pow10 (5 - e)) in
  let '(m, x) := if (m0 =? 10 ^ 6)%Z then (10 ^ 5, e + 1)%Z else (m0, e) in
  let ds := list_ascii_of_string (pretty (Z.to_N m)) in
  let frac_part (l : list ascii) :=
    match strip_zeros l with [] => EmptyString | f => "." ++ string_of_list_ascii f end in
  (if Qltb q 0 then "-" else EmptyString) ++
  if (-4 <=? x)%Z && (x <? 6)%Z then
    if (0 <=? x)%Z then string_of_list_ascii (take (Z.to_nat x + 1) ds) ++ frac_part (drop (Z.to_nat x + 1) ds)
    else "0." ++ string_of_list_ascii (repeat "0"%char (Z.to_nat (- x - 1)) ++ strip_zeros ds)
  else string_of_list_ascii (take 1 ds) ++ frac_part (drop 1 ds) ++ "e" ++ exp_digits x.

(** ** [repr] of a float

    [repr(x)] (and [f"{x}"]) prints the shortest decimal that reads back
    as [x], and among those the nearest to [x]: with [d] significant
    digits the candidates are the two [d]-digit decimals around [x], the
    nearer first (ties to even); the search goes up from one digit. *)

(** The scale [k] ([d] digits are [x * 10^k] rounded) and the two
    candidates, nearer first. *)
Definition repr_candidates (a : Q) (d : nat) : Z * list Z :=
  let k := (Z.of_nat d - 1 - dec_exp a)%Z in
  let x := (a * q_pow10 k)%Q in
  let c := round_half_even x in
  let c' := if Qeq_bool x (inject_Z c) then c else if Qltb x (inject_Z c) then (c - 1)%Z else (c + 1)%Z in
  (k, [c; c']).

(** The shortest candidate that rounds back to [m * 2^e], from [d] digits
    on, within [fuel] more digits: the mantissa [c] and the scale [k] of
    the decimal [c / 10^k]. *)
Fixpoint repr_search (m : positive) (e : Z) (d : nat) (fuel : nat) : option (Z * Z) :=
  match fuel with
  | O => None
  | S fuel' =>
      let '(k, cs) := repr_candidates (f64_mag m e) d in
      match List.find (λ c, rounds_to (inject_Z c / q_pow10 k) m e) cs with
      | Some c => Some (c, k)
      | None => repr_search m e (S d) fuel'
      end
  end.

(** The digits [ds] (no trailing zero) of the value [0.ds * 10^decpt]:
    fixed notation for [-4 <= decpt - 1 < 16], with at least one digit
    after the point; the [e] notation otherwise. *)
Definition repr_format (ds : list ascii) (decpt : Z) : string :=
  let n := Z.of_nat (length ds) in
  if (-4 <=? decpt - 1)%Z && (decpt - 1 <? 16)%Z then
    if (decpt <=? 0)%Z then "0." ++ string_of_list_ascii (repeat "0"%char (Z.to_nat (- decpt)) ++ ds)
    else if (decpt <? n)%Z then
      string_of_list_ascii (take (Z.to_nat decpt) ds) ++ "." ++ string_of_list_ascii (drop (Z.to_nat decpt) ds)
    else string_of_list_ascii (ds ++ repeat "0"%char (Z.to_nat (decpt - n))) ++ ".0"
  else
    string_of_list_ascii (take 1 ds) ++
    (if (1 <? n)%Z then "." ++ string_of_list_ascii (drop 1 ds) else EmptyString) ++
    "e" ++ exp_digits (decpt - 1).

(** [repr(x)]; seventeen digits always suffice ([repr_search_17]). *)
Definition py_repr (f : spec_float) : string :=
  match f with
  | S754_zero s => if s then "-0.0" else "0.0"
  | S754_infinity s => if s then "-inf" else "inf"
  | S754_nan => "nan"
  | S754_finite s m e =>
      match repr_search m e 1 17 with
      | Some (c, k) =>
          let digits := list_ascii_of_string (pretty (Z.to_N c)) in
          (if s then "-" else EmptyString) ++
          repr_format (strip_zeros digits) (Z.of_nat (length digits) - k)
      | None => EmptyString
      end
  end.

(** ** Lemmas on decimal digits and the [.6g] formatter

    The decimal digits [pretty] prints for a positive number, the
    exponent [dec_exp] chooses, and the printing of integers. *)

Section Digits.
Local Open Scope Z_scope.

Lemma pretty_N_go_digits x s : (0 < x)%N ->
  exists d : nat, (1 <= d)%nat /\ String.length (pretty_N_go x s) = (d + String.length s)%nat /\
    10 ^ (Z.of_nat d - 1) <= Z.of_N x < 10 ^ Z.of_nat d.
Proof.
  revert s. induction (N.lt_wf_0 x) as [x _ IH]; intros s Hx.
  rewrite pretty_N_go_step by done.
  destruct (decide (x < 10)%N) as [Hlt|Hge].
  - exists 1%nat. rewrite N.div_small by done. rewrite pretty_N_go_0. simpl. lia.
  - destruct (IH (x / 10)%N) with (s := String (pretty_N_char (x mod 10)) s) as (d & Hd & Hlen & Hlo & Hhi).
    + apply N.div_lt; lia.
    + apply N.div_str_pos; lia.
    + exists (S d). rewrite Hlen. simpl. split; [lia|]. split; [lia|].
      rewrite N2Z.inj_div in Hlo, Hhi.
      pose proof (Z.div_mod (Z.of_N x) 10 ltac:(lia)). pose proof (Z.mod_pos_bound (Z.of_N x) 10 ltac:(lia)).
      replace (Z.of_nat (S d) - 1) with (Z.of_nat d) by lia.
      rewrite Nat2Z.inj_succ, Z.pow_succ_r by lia.
      replace (10 ^ Z.of_nat d) with (10 * 10 ^ (Z.of_nat d - 1)) in * by
        (rewrite <- Z.pow_succ_r by lia; f_equal; lia).
      nia.
Qed.
(** A positive number has [d] decimal digits exactly when it lies in
    [[10^(d-1), 10^d)]. *)
Lemma pretty_N_digits x : (0 < x)%N ->
  (1 <= String.length (pretty x))%nat /\ 10 ^ (Z.of_nat (String.length (pretty x)) - 1) <= Z.of_N x < 10 ^ Z.of_nat (String.length (pretty x)).
Proof.
  intros Hx. unfold pretty, pretty_N. rewrite decide_False by lia.
  destruct (pretty_N_go_digits x EmptyString Hx) as (d & ? & -> & H). simpl. rewrite Nat.add_0_r. lia.
Qed.

Lemma list_ascii_of_string_app s t :
  list_ascii_of_string (s ++ t) = (list_ascii_of_string s ++ list_ascii_of_string t)%list.
Proof. induction s as [|c s IH]; [done|]. simpl. f_equal. exact IH. Qed.

Lemma pretty_N_go_app x s :
  list_ascii_of_string (pretty_N_go x s)
  = (list_ascii_of_string (pretty_N_go x EmptyString) ++ list_ascii_of_string s)%list.
Proof.
  revert s. induction (N.lt_wf_0 x) as [x _ IH]; intros s.
  destruct (decide (x = 0%N)) as [->|Hx]; [done|].
  rewrite !(pretty_N_go_step x) by lia.
  assert (Hd : (x `div` 10 < x)%N) by (apply N.div_lt; lia).
  rewrite (IH _ Hd (String _ s)), (IH _ Hd (String _ EmptyString)), <-app_assoc. done.
Qed.

(** Multiplying by [10^k] appends [k] zeros to the digits. *)
Lemma pretty_N_mul_pow10 x k : (0 < x)%N ->
  list_ascii_of_string (pretty (x * 10 ^ N.of_nat k)%N)
  = (list_ascii_of_string (pretty x) ++ repeat "0"%char k)%list.
Proof.
  intros Hx. induction k as [|k IH].
  - by rewrite N.mul_1_r, app_nil_r.
  - assert (Hy : (0 < x * 10 ^ N.of_nat k)%N) by (apply N.mul_pos_pos; [done|apply N.neq_0_lt_0, N.pow_nonzero; lia]).
    replace (x * 10 ^ N.of_nat (S k))%N with (x * 10 ^ N.of_nat k * 10)%N
      by (rewrite Nat2N.inj_succ, N.pow_succ_r; [ring|lia]).
    cbn [repeat].
    rewrite repeat_cons, app_assoc, <-IH.
    unfold pretty, pretty_N. rewrite !decide_False by lia.
    rewrite pretty_N_go_step by lia.
    rewrite N.div_mul, N.Div0.mod_mul by lia. rewrite pretty_N_go_app. done.
Qed.
Lemma round_half_even_Z z : round_half_even (inject_Z z) = z.
Proof.
  unfold round_half_even. rewrite Qfloor_Z.
  replace (inject_Z z - inject_Z z)%Q with (0 # 1) by (unfold Qminus, Qplus, Qopp, inject_Z; simpl; f_equal; lia).
  done.
Qed.

Lemma strip_zeros_rev_zeros k l : strip_zeros_rev (repeat "0"%char k ++ l)%list = strip_zeros_rev l.
Proof. induction k; done. Qed.

Lemma strip_zeros_zeros k : strip_zeros (repeat "0"%char k) = [].
Proof.
  unfold strip_zeros. rewrite rev_repeat.
  rewrite <-(app_nil_r (repeat _ k)), strip_zeros_rev_zeros. done.
Qed.

Lemma pow10_split a b : 0 <= a -> 0 <= b -> 10 ^ (a + b) = 10 ^ a * 10 ^ b.
Proof. intros. by apply Z.pow_add_r. Qed.

(** [10^c = 10^a * 10^b] as a hypothesis, for [c = a + b] with [a], [b]
    non-negative. *)
Ltac pow10_eq c a b :=
  let E := fresh "E" in
  assert (E : 10 ^ c = 10 ^ a * 10 ^ b) by (rewrite <- pow10_split by lia; f_equal; lia).
Lemma q_pow10_le e n D : (q_pow10 e <= n # D)%Q <->
  (if 0 <=? e then 10 ^ e * Zpos D <= n else Zpos D <= n * 10 ^ (- e)).
Proof.
  unfold q_pow10, Qle. destruct (Z.leb_spec 0 e); simpl; [lia|].
  rewrite Z2Pos.id by (apply Z.pow_pos_nonneg; lia). lia.
Qed.
Lemma q_pow10_lt e n D : (n # D < q_pow10 e)%Q <->
  (if 0 <=? e then n < 10 ^ e * Zpos D else n * 10 ^ (- e) < Zpos D).
Proof.
  unfold q_pow10, Qlt. destruct (Z.leb_spec 0 e); simpl; [lia|].
  rewrite Z2Pos.id by (apply Z.pow_pos_nonneg; lia). lia.
Qed.
(** [dec_exp] is the decimal exponent: [10^e <= a < 10^(e+1)]. *)
Lemma dec_exp_spec a : (0 < a)%Q ->
  (q_pow10 (dec_exp a) <= a /\ a < q_pow10 (dec_exp a + 1))%Q.
Proof.
  destruct a as [n D]. unfold Qlt; simpl. intros Hn.
  assert (Hdn := pretty_N_digits (Z.to_N n) ltac:(lia)).
  assert (Hdd := pretty_N_digits (Npos D) ltac:(lia)).
  rewrite Z2N.id in Hdn by lia. simpl in Hdd.
  destruct Hdn as [Hdn1 Hdn], Hdd as [Hdd1 Hdd].
  unfold dec_exp; simpl.
  set (dn := Z.of_nat (String.length (pretty (Z.to_N n)))) in *.
  set (dd := Z.of_nat (String.length (pretty (Npos D)))) in *.
  assert (Hp : forall k, 0 <= k -> 0 < 10 ^ k) by (intros; apply Z.pow_pos_nonneg; lia).
  assert (B1 : (q_pow10 (dn - dd - 1) <= n # D)%Q).
  { apply q_pow10_le. destruct (Z.leb_spec 0 (dn - dd - 1)).
    - pow10_eq (dn - 1) (dn - dd - 1) dd. pose proof (Hp (dn - dd - 1)). nia.
    - pow10_eq dd (dn - 1) (- (dn - dd - 1)). pose proof (Hp (- (dn - dd - 1))). nia. }
  assert (B2 : (n # D < q_pow10 (dn - dd + 1))%Q).
  { apply q_pow10_lt. destruct (Z.leb_spec 0 (dn - dd + 1)).
    - pow10_eq dn (dn - dd + 1) (dd - 1). pose proof (Hp (dn - dd + 1)). nia.
    - pow10_eq (dd - 1) dn (- (dn - dd + 1)). pose proof (Hp (- (dn - dd + 1))). nia. }
  destruct (Qltb_spec (n # D) (q_pow10 (dn - dd))).
  - replace (dn - dd - 1 + 1) with (dn - dd) by lia. done.
  - split; [by apply Qnot_lt_le|exact B2].
Qed.

Lemma dec_exp_pos p :
  dec_exp (inject_Z (Zpos p)) = (Z.of_nat (String.length (pretty (Npos p))) - 1)%Z.
Proof.
  pose proof (pretty_N_digits (Npos p) ltac:(lia)) as (Hd1 & Hlo & Hhi).
  unfold dec_exp. simpl Qnum. simpl Qden. change (String.length (pretty 1%N)) with 1%nat.
  change (Z.to_N (Zpos p)) with (Npos p).
  replace (Qltb _ _) with false; [lia|symmetry; apply Qltb_false].
  unfold q_pow10. rewrite (proj2 (Z.leb_le _ _)) by lia.
  unfold inject_Z, Qle. simpl. lia.
Qed.

Lemma string_app_nil_r s : s ++ EmptyString = s.
Proof. induction s as [|c s IH]; [done|]. change (String c (s ++ EmptyString) = String c s). by rewrite IH. Qed.

Lemma length_list_ascii_of_string s : length (list_ascii_of_string s) = String.length s.
Proof. induction s as [|c s IH]; [done|]. simpl. f_equal. exact IH. Qed.

Lemma q_pow10_nonneg k : 0 <= k -> q_pow10 k = inject_Z (10 ^ k).
Proof. intros. unfold q_pow10. by rewrite (proj2 (Z.leb_le _ _)). Qed.

(** A non-zero value whose magnitude is an integer below [10^6] prints
    as its sign and its digits: no point, no exponent. *)
Lemma fmt_g6_abs_pos q p :
  Qabs q = inject_Z (Zpos p) -> Zpos p < 10 ^ 6 ->
  fmt_g6 q = (if Qltb q 0 then "-" else EmptyString) ++ pretty (Npos p).
Proof.
  intros Ha Hp.
  pose proof (pretty_N_digits (Npos p) ltac:(lia)) as (Hd1 & Hlo & Hhi).
  set (dn := String.length (pretty (Npos p))) in *. simpl in Hlo, Hhi.
  assert (Hd6 : (dn <= 6)%nat).
  { destruct (Nat.le_gt_cases dn 6) as [|Hgt]; [done|].
    pose proof (Z.pow_le_mono_r 10 6 (Z.of_nat dn - 1) ltac:(lia) ltac:(lia)). lia. }
  assert (Hq : Qeq_bool q 0 = false).
  { apply not_true_iff_false. intros E%Qeq_bool_eq.
    assert (E' : (Qabs q == 0)%Q) by (rewrite E; done).
    rewrite Ha in E'. unfold Qeq in E'. simpl in E'. lia. }
  unfold fmt_g6. rewrite Hq, Ha, dec_exp_pos. fold dn.
  replace (5 - (Z.of_nat dn - 1)) with (Z.of_nat (6 - dn)) by lia.
  rewrite q_pow10_nonneg by lia.
  rewrite <-inject_Z_mult, round_half_even_Z.
  pow10_eq 6 (Z.of_nat dn) (Z.of_nat (6 - dn)).
  assert (Hpos : 0 < 10 ^ Z.of_nat (6 - dn)) by (apply Z.pow_pos_nonneg; lia).
  rewrite (proj2 (Z.eqb_neq _ _)) by nia.
  replace (Z.to_N (Zpos p * 10 ^ Z.of_nat (6 - dn))) with (Npos p * 10 ^ N.of_nat (6 - dn))%N
    by (apply N2Z.inj; rewrite Z2N.id by lia; rewrite N2Z.inj_mul, N2Z.inj_pow, nat_N_Z; done).
  rewrite pretty_N_mul_pow10 by lia.
  rewrite (proj2 (Z.leb_le (-4) _)), (proj2 (Z.ltb_lt _ 6)), (proj2 (Z.leb_le 0 _)) by lia. simpl andb.
  replace (Z.to_nat (Z.of_nat dn - 1) + 1)%nat with (length (list_ascii_of_string (pretty (Npos p))))
    by (rewrite length_list_ascii_of_string; fold dn; lia).
  rewrite take_app_length, drop_app_length, strip_zeros_zeros, string_of_list_ascii_of_string.
  by rewrite string_app_nil_r.
Qed.

End Digits.

(** ** Lemmas on the fixed and grouped formats *)

Lemma digit_val_char d : (d < 10)%N -> digit_val (pretty_N_char d) = Some d.
Proof.
  intros Hd. assert (d = 0 \/ d = 1 \/ d = 2 \/ d = 3 \/ d = 4 \/ d = 5 \/ d = 6 \/ d = 7 \/ d = 8 \/ d = 9)%N as H by lia.
  repeat destruct H as [->|H]; try reflexivity. subst. reflexivity.
Qed.

Lemma digits_value_acc_app acc l l' :
  digits_value_acc acc (l ++ l') = match digits_value_acc acc l with Some a => digits_value_acc a l' | None => None end.
Proof.
  revert acc. induction l as [|c l IH]; intros acc; [done|]. simpl. destruct (digit_val c); [apply IH|done].
Qed.

Lemma digits_value_go x : digits_value_acc 0 (list_ascii_of_string (pretty_N_go x EmptyString)) = Some x.
Proof.
  induction (N.lt_wf_0 x) as [x _ IH].
  destruct (decide (x = 0%N)) as [->|Hx]; [done|].
  rewrite pretty_N_go_step, pretty_N_go_app by lia.
  rewrite digits_value_acc_app, IH by (apply N.div_lt; lia). simpl.
  rewrite digit_val_char by (apply N.mod_lt; lia). simpl. f_equal.
  pose proof (N.div_mod x 10). lia.
Qed.

Lemma pretty_N_nonempty (x : N) : list_ascii_of_string (pretty x) <> [].
Proof.
  unfold pretty, pretty_N. case_decide; [done|].
  rewrite pretty_N_go_step, pretty_N_go_app by lia. destruct (list_ascii_of_string _); done.
Qed.

Lemma digits_value_pretty (x : N) : digits_value (list_ascii_of_string (pretty x)) = Some x.
Proof.
  pose proof (pretty_N_nonempty x) as Hne. unfold digits_value.
  destruct (list_ascii_of_string (pretty x)) eqn:E; [done|]. rewrite <-E.
  unfold pretty, pretty_N in *. case_decide; [by subst|]. apply digits_value_go.
Qed.

Lemma digits_value_acc_chars acc l a :
  digits_value_acc acc l = Some a -> forall c, In c l -> is_Some (digit_val c).
Proof.
  revert acc. induction l as [|d l IH]; intros acc H c Hc; [done|]. simpl in H.
  destruct (digit_val d) eqn:E; [|done]. destruct Hc as [<-|Hc]; [by eexists|]. eapply IH; eauto.
Qed.

Lemma pretty_N_chars (x : N) c : In c (list_ascii_of_string (pretty x)) -> is_Some (digit_val c).
Proof.
  pose proof (digits_value_pretty x) as H. unfold digits_value in H.
  destruct (list_ascii_of_string (pretty x)); [done|]. by eapply digits_value_acc_chars.
Qed.

Lemma split_on_none c l : (forall d, In d l -> d <> c) -> split_on c l = (l, None).
Proof.
  induction l as [|d l IH]; intros H; [done|]. simpl.
  destruct (ascii_dec d c); [by destruct (H d (or_introl eq_refl))|].
  rewrite IH by (intros; apply H; by right). done.
Qed.

Lemma split_on_app c l r : (forall d, In d l -> d <> c) -> split_on c (l ++ c :: r) = (l, Some r).
Proof.
  induction l as [|d l IH]; intros H; simpl.
  - by destruct (ascii_dec c c).
  - destruct (ascii_dec d c); [by destruct (H d (or_introl eq_refl))|].
    rewrite IH by (intros; apply H; by right). done.
Qed.

(** Characters that are digits are neither [.], [e] nor [-]. *)
Lemma digit_not_sep c : is_Some (digit_val c) -> c <> "."%char /\ c <> "e"%char /\ c <> "-"%char.
Proof. intros [d Hd]. split_and!; intros ->; discriminate. Qed.

Lemma digits_value_acc_zeros n l :
  digits_value_acc 0 (repeat "0"%char n ++ l) = digits_value_acc 0 l.
Proof. induction n; done. Qed.

Lemma list_ascii_of_zfill k s :
  list_ascii_of_string (zfill k s) = (repeat "0"%char (k - String.length s) ++ list_ascii_of_string s)%list.
Proof. unfold zfill. by rewrite list_ascii_of_string_app, list_ascii_of_string_of_list_ascii. Qed.

Lemma digits_value_ne l : l <> [] -> digits_value l = digits_value_acc 0 l.
Proof. by destruct l. Qed.

Lemma pretty_N_length_le (y : N) k : (y < 10 ^ N.of_nat k)%N -> (1 <= k)%nat ->
  (String.length (pretty y) <= k)%nat.
Proof.
  intros Hy Hk. destruct (decide (y = 0%N)) as [->|Hy0]; [change (String.length (pretty 0%N)) with 1%nat; lia|].
  pose proof (pretty_N_digits y ltac:(lia)) as (_ & Hlo & _).
  apply N2Z.inj_lt in Hy. rewrite N2Z.inj_pow, nat_N_Z in Hy.
  destruct (Nat.le_gt_cases (String.length (pretty y)) k) as [|Hgt]; [done|].
  assert (Hm : (10 ^ Z.of_nat k <= 10 ^ (Z.of_nat (String.length (pretty y)) - 1))%Z)
    by (apply Z.pow_le_mono_r; lia).
  change (Z.of_N 10) with 10%Z in Hy. lia.
Qed.

Lemma pretty_not_sep (x : N) c : In c (list_ascii_of_string (pretty x)) ->
  c <> "."%char /\ c <> "e"%char /\ c <> "-"%char.
Proof. intros Hc. by apply digit_not_sep, (pretty_N_chars x). Qed.

Lemma parse_unsigned_int (a : N) :
  parse_unsigned (list_ascii_of_string (pretty a)) = Some (inject_Z (Z.of_N a)).
Proof.
  unfold parse_unsigned. rewrite split_on_none by (intros d Hd; apply (pretty_not_sep a d Hd)).
  by rewrite digits_value_pretty.
Qed.

Lemma parse_unsigned_point (a b : N) k : (1 <= k)%nat -> (String.length (pretty b) <= k)%nat ->
  parse_unsigned (list_ascii_of_string (pretty a) ++ "."%char :: list_ascii_of_string (zfill k (pretty b)))
  = Some (inject_Z (Z.of_N a) + inject_Z (Z.of_N b) / inject_Z (10 ^ Z.of_nat k))%Q.
Proof.
  intros Hk Hb. unfold parse_unsigned.
  rewrite split_on_app by (intros d Hd; apply (pretty_not_sep a d Hd)).
  rewrite digits_value_pretty, list_ascii_of_zfill.
  pose proof (pretty_N_nonempty b) as Hne.
  rewrite digits_value_ne by (destruct (list_ascii_of_string (pretty b)), (k - _)%nat; done).
  rewrite digits_value_acc_zeros, <-digits_value_ne, digits_value_pretty by done.
  rewrite length_app, repeat_length, length_list_ascii_of_string.
  by replace (k - String.length (pretty b) + String.length (pretty b))%nat with k by lia.
Qed.

Lemma split_sign_app (b : bool) l :
  (forall c, In c l -> c <> "-"%char) ->
  split_sign (list_ascii_of_string (if b then "-" else EmptyString) ++ l) = (b, l).
Proof.
  intros Hl. destruct b; [done|]. destruct l as [|c l]; [done|]. simpl.
  destruct (ascii_dec c "-"); [by destruct (Hl c (or_introl eq_refl))|done].
Qed.

Lemma parse_decimal_signed (b : bool) l :
  (forall c, In c l -> c <> "e"%char /\ c <> "-"%char) ->
  parse_decimal ((if b then "-" else EmptyString) ++ string_of_list_ascii l)
  = option_map (λ v, if b then (- v)%Q else v) (parse_unsigned l).
Proof.
  intros Hl. unfold parse_decimal.
  rewrite list_ascii_of_string_app, list_ascii_of_string_of_list_ascii.
  rewrite split_sign_app, split_on_none by (intros d Hd; apply (Hl d Hd)).
  by destruct (parse_unsigned l).
Qed.

Lemma Qabs_div_pos x P : (0 < P)%Q -> (Qabs (x / P) == Qabs x / P)%Q.
Proof.
  intros HP. unfold Qdiv. rewrite Qabs_Qmult. apply Qmult_comp; [reflexivity|].
  apply Qabs_pos. apply Qlt_le_weak, Qinv_lt_0_compat, HP.
Qed.

(** The rounded integer has the sign of the value. *)
Lemma round_half_even_sign q :
  ((q < 0)%Q -> (round_half_even q <= 0)%Z) /\ ((0 <= q)%Q -> (0 <= round_half_even q)%Z).
Proof.
  pose proof (round_half_even_close q) as Hc. split; intros Hq.
  - destruct (Z.le_gt_cases (round_half_even q) 0) as [|Hgt]; [done|].
    assert (H1 : (1 <= inject_Z (round_half_even q))%Q) by (change 1%Q with (inject_Z 1); rewrite <-Zle_Qle; lia).
    apply Qabs_Qle_condition in Hc. lra.
  - destruct (Z.le_gt_cases 0 (round_half_even q)) as [|Hlt]; [done|].
    assert (H1 : (inject_Z (round_half_even q) <= -1)%Q) by (change (-1)%Q with (inject_Z (-1)); rewrite <-Zle_Qle; lia).
    apply Qabs_Qle_condition in Hc. lra.
Qed.

Lemma fixed_digits_value k (m : N) : exists v,
  parse_unsigned (list_ascii_of_string (fixed_digits k m)) = Some v /\
  (v == inject_Z (Z.of_N m) / inject_Z (10 ^ Z.of_nat k))%Q /\
  forall c, In c (list_ascii_of_string (fixed_digits k m)) -> c <> "e"%char /\ c <> "-"%char.
Proof.
  destruct k as [|k'].
  - exists (inject_Z (Z.of_N m)). simpl fixed_digits. rewrite parse_unsigned_int. split_and!; [done| |].
    + simpl. unfold Qdiv. rewrite Qmult_1_r. reflexivity.
    + intros c Hc. pose proof (pretty_not_sep m c Hc). tauto.
  - set (k := S k'). set (P := (10 ^ N.of_nat k)%N).
    assert (HP : (0 < P)%N) by (apply N.neq_0_lt_0, N.pow_nonzero; lia).
    assert (Hb : (String.length (pretty (m mod P)%N) <= k)%nat)
      by (apply pretty_N_length_le; [apply N.mod_lt; lia|lia]).
    simpl fixed_digits. fold k P.
    rewrite !list_ascii_of_string_app. change (list_ascii_of_string ".") with ["."%char].
    change ((["."%char] ++ ?l)%list) with ("."%char :: l).
    eexists. rewrite parse_unsigned_point by (done || lia). split_and!; [done| |].
    + pose proof (N.div_mod m P ltac:(lia)) as Hdm.
      assert (HZ : Z.of_N m = (Z.of_N P * Z.of_N (m / P) + Z.of_N (m mod P))%Z)
        by (rewrite <-N2Z.inj_mul, <-N2Z.inj_add; congruence).
      replace (10 ^ Z.of_nat k)%Z with (Z.of_N P) by (subst P; rewrite N2Z.inj_pow, nat_N_Z; done).
      rewrite HZ, inject_Z_plus, inject_Z_mult. field.
      intros E. unfold Qeq in E. simpl in E.
      clear -HP E. clearbody P. lia.
    + intros c [Hc|[<-|Hc]]%in_app_or.
      * pose proof (pretty_not_sep _ c Hc). tauto.
      * done.
      * rewrite list_ascii_of_zfill in Hc. apply in_app_or in Hc as [Hc|Hc].
        -- apply repeat_spec in Hc as ->. done.
        -- pose proof (pretty_not_sep _ c Hc). tauto.
Qed.

Lemma digits_value_acc_shift acc l :
  digits_value_acc acc l = option_map (λ v, acc * 10 ^ N.of_nat (length l) + v)%N (digits_value_acc 0 l).
Proof.
  revert acc. induction l as [|c l IH]; intros acc; simpl; [f_equal; lia|].
  destruct (digit_val c) as [d|]; [|done]. rewrite (IH (10 * acc + d)%N), (IH (10 * 0 + d)%N).
  destruct (digits_value_acc 0 l); [|done]. simpl. f_equal.
  rewrite Nat2N.inj_succ, N.pow_succ_r'. lia.
Qed.

Lemma parse_groups_rev_group3 l :
  (forall c, In c l -> is_Some (digit_val c)) -> parse_groups_rev (group3_rev l) = digits_value (rev l).
Proof.
  induction l as [l IH] using (induction_ltof1 _ (@length _)). intros Hl.
  destruct l as [|a [|b [|c [|x r]]]]; try reflexivity.
  change (group3_rev (a :: b :: c :: x :: r)) with (a :: b :: c :: ","%char :: group3_rev (x :: r)).
  cbn [parse_groups_rev]. destruct (ascii_dec "," ","); [|done].
  rewrite IH; [|unfold ltof; simpl; lia|intros d Hd; apply Hl; simpl; tauto].
  destruct (Hl a) as [va Ha]; [simpl; tauto|]. destruct (Hl b) as [vb Hb]; [simpl; tauto|].
  destruct (Hl c) as [vc Hc]; [simpl; tauto|].
  cbn [rev]. rewrite !digits_value_ne by (done || (intros E; by apply app_eq_nil in E as [_ ?])).
  rewrite !digits_value_acc_app.
  simpl. rewrite Ha, Hb, Hc. simpl.
  destruct (digits_value_acc 0 (rev r)) as [w|]; simpl; [|done].
  destruct (digit_val x); simpl; [|done]. rewrite ?Hc, ?Hb, ?Ha. f_equal. lia.
Qed.

Lemma group3_rev_chars l c : In c (group3_rev l) -> In c l \/ c = ","%char.
Proof.
  induction l as [l IH] using (induction_ltof1 _ (@length _)).
  destruct l as [|a [|b [|d [|x r]]]]; try (intros; by left).
  change (group3_rev (a :: b :: d :: x :: r)) with (a :: b :: d :: ","%char :: group3_rev (x :: r)).
  intros [<-|[<-|[<-|[<-|Hc]]]]; simpl; try tauto.
  destruct (IH (x :: r)) as [H|H]; [unfold ltof; simpl; lia|done|simpl in H; tauto|tauto].
Qed.

(** ** Theorems *)


(** [{n:,}] prints the integer in groups of three digits from the
    right: read back group by group it gives the integer again. *)
Theorem fmt_commas_roundtrip n : parse_commas (fmt_commas n) = Some n.
Proof.
  unfold fmt_commas, parse_commas.
  set (ds := list_ascii_of_string (pretty (Z.to_N (Z.abs n)))).
  assert (Hds : forall c, In c ds -> is_Some (digit_val c)) by apply pretty_N_chars.
  rewrite list_ascii_of_string_app, list_ascii_of_string_of_list_ascii, split_sign_app.
  - rewrite rev_involutive, parse_groups_rev_group3.
    + rewrite rev_involutive. unfold ds. rewrite digits_value_pretty. simpl.
      rewrite Z2N.id by lia. destruct (Z.ltb_spec n 0); f_equal; lia.
    + intros c Hc. apply Hds, in_rev, Hc.
  - intros c Hc. apply in_rev, group3_rev_chars in Hc as [Hc| ->]; [|done].
    apply in_rev, Hds in Hc. by apply digit_not_sep.
Qed.

(** A coordinate that is an integer of magnitude below [10^6] is
    written into the polyhedron source exactly, as Python's [str] of the
    integer prints it: [.6g] adds no point, no exponent and no rounding. *)
Theorem fmt_g6_integer n : (Z.abs n < 10 ^ 6)%Z -> fmt_g6 (inject_Z n) = pretty n.
Proof.
  intros Hn. destruct n as [|p|p]; [reflexivity| |].
  - rewrite (fmt_g6_abs_pos _ p) by (done || lia).
    replace (Qltb _ _) with false by (symmetry; apply Qltb_false; unfold Qle; simpl; lia). done.
  - rewrite (fmt_g6_abs_pos _ p) by (done || lia).
    replace (Qltb _ _) with true by (symmetry; apply Qltb_true; unfold Qlt; simpl; lia). done.
Qed.

(** ** [repr] *)

Lemma q_pow10_Qpower e : (q_pow10 e == (10 # 1) ^ e)%Q.
Proof.
  unfold q_pow10. destruct (Z.leb_spec 0 e).
  - exact (Zpower_Qpower 10 e H).
  - replace e with (- (- e))%Z at 2 by lia. rewrite Qpower_opp.
    rewrite <-(Zpower_Qpower 10 (- e)) by lia.
    assert (Hp : (0 < 10 ^ (- e))%Z) by (apply Z.pow_pos_nonneg; lia).
    unfold Qinv, inject_Z. simpl. destruct (10 ^ (- e))%Z eqn:E; try lia. reflexivity.
Qed.

Lemma q_pow10_pos e : (0 < q_pow10 e)%Q.
Proof.
  unfold q_pow10. destruct (Z.leb_spec 0 e).
  - change 0%Q with (inject_Z 0). rewrite <-Zlt_Qlt. apply Z.pow_pos_nonneg; lia.
  - reflexivity.
Qed.

(** Rounding [x * T] to an integer and dividing by [T] moves [x] by at
    most half of [1 / T]. *)
Lemma round_scaled_close x T : (0 < T)%Q ->
  (Qabs (inject_Z (round_half_even (x * T)) / T - x) <= (1 # 2) / T)%Q.
Proof.
  intros HT. pose proof (round_half_even_close (x * T)) as Hc.
  setoid_replace (inject_Z (round_half_even (x * T)) / T - x)%Q
    with (- (x * T - inject_Z (round_half_even (x * T))) / T)%Q using relation Qeq by (field; lra).
  rewrite Qabs_div_pos, Qabs_opp by done.
  apply Qmult_le_compat_r; [done|]. apply Qlt_le_weak, Qinv_lt_0_compat, HT.
Qed.

(** Seventeen significant digits always round back: the nearest
    17-digit decimal to a float lies strictly inside its rounding
    interval, because [2^53 < 10^16]. *)
Lemma repr_17_rounds m e :
  bounded 53 1024 m e = true ->
  rounds_to (inject_Z (round_half_even (f64_mag m e * q_pow10 (16 - dec_exp (f64_mag m e))))
               / q_pow10 (16 - dec_exp (f64_mag m e))) m e = true.
Proof.
  intros Hb. destruct (bounded_cases m e Hb) as (Hm53 & Hcase & He).
  set (a := f64_mag m e). set (dec := dec_exp a). set (T := q_pow10 (16 - dec)).
  set (P := pow2_Q e).
  assert (HP : (0 < P)%Q) by apply pow2_Q_pos.
  assert (HT : (0 < T)%Q) by apply q_pow10_pos.
  assert (Ha : (a == inject_Z (Zpos m) * P)%Q) by reflexivity.
  assert (Ha0 : (0 < a)%Q).
  { rewrite Ha. apply Qmult_lt_0_compat; [|done]. change 0%Q with (inject_Z 0). rewrite <-Zlt_Qlt. lia. }
  destruct (dec_exp_spec a Ha0) as [Hdec _]. fold dec in Hdec.
  (* [1 / T = 10^dec / 10^16 <= a / 10^16] *)
  assert (HTi : (/ T <= a * (1 # 10000000000000000))%Q).
  { unfold T. rewrite !q_pow10_Qpower in *. rewrite <-Qpower_opp.
    replace (- (16 - dec))%Z with (dec + -16)%Z by lia. rewrite Qpower_plus by discriminate.
    apply Qmult_le_compat_r; [exact Hdec|]. discriminate. }
  pose proof (round_scaled_close a T HT) as Hc.
  set (d := (inject_Z (round_half_even (a * T)) / T)%Q) in *.
  apply Qabs_Qle_condition in Hc. unfold Qdiv in Hc.
  assert (Hm : (inject_Z (Zpos m) < inject_Z (2 ^ 53))%Q) by (rewrite <-Zlt_Qlt; lia).
  assert (Hlt : (a < 9007199254740992 * P)%Q).
  { rewrite Ha. apply Qmult_lt_r; [done|exact Hm]. }
  assert (H1 : (pow2_Q (e - 1) == P * (1 # 2))%Q) by apply pow2_Q_pred.
  assert (H2 : (pow2_Q (e - 2) == P * (1 # 4))%Q).
  { replace (e - 2)%Z with (e - 1 - 1)%Z by lia. rewrite pow2_Q_pred, H1. field. }
  unfold rounds_to. fold a. fold P.
  set (Ti := (/ T)%Q) in *. set (P1 := pow2_Q (e - 1)) in *. set (P2 := pow2_Q (e - 2)) in *.
  clearbody d T dec a P Ti P1 P2.
  destruct (Pos.eqb_spec m (2 ^ 52)) as [->|Hne];
    [assert (Ha' : (a == 4503599627370496 * P)%Q) by exact Ha|];
  destruct (Z.ltb_spec (-1074) e); simpl andb;
  apply orb_true_intro; left; apply andb_true_intro; rewrite !Qltb_true; split; lra.
Qed.

(** What the search returns rounds back to the float. *)
Lemma repr_search_sound m e d fuel c k :
  repr_search m e d fuel = Some (c, k) -> rounds_to (inject_Z c / q_pow10 k) m e = true.
Proof.
  revert d. induction fuel as [|fuel IH]; intros d H; [discriminate|]. cbn [repr_search] in H.
  destruct (repr_candidates (f64_mag m e) d) as [k' cs].
  destruct (List.find (λ c, rounds_to (inject_Z c / q_pow10 k') m e) cs) as [c'|] eqn:Ef; [|exact (IH _ H)].
  injection H as <- <-. exact (proj2 (find_some _ _ Ef)).
Qed.

(** The search succeeds as soon as the nearest decimal of some length
    within its fuel rounds back. *)
Lemma repr_search_some m e d fuel j :
  (j < fuel)%nat ->
  rounds_to (inject_Z (round_half_even (f64_mag m e * q_pow10 (Z.of_nat (d + j) - 1 - dec_exp (f64_mag m e))))
             / q_pow10 (Z.of_nat (d + j) - 1 - dec_exp (f64_mag m e))) m e = true ->
  is_Some (repr_search m e d fuel).
Proof.
  revert d j. induction fuel as [|fuel IH]; intros d j Hj Hr; [lia|]. cbn [repr_search].
  destruct j as [|j].
  - rewrite Nat.add_0_r in Hr. unfold repr_candidates. cbn [List.find]. rewrite Hr. by eexists.
  - destruct (repr_candidates (f64_mag m e) d) as [k cs].
    destruct (List.find (λ c, rounds_to (inject_Z c / q_pow10 k) m e) cs); [by eexists|].
    apply (IH (S d) j); [lia|]. by replace (S d + j)%nat with (d + S j)%nat by lia.
Qed.


(** ** Reading [repr] back *)

Lemma digits_value_split l1 l2 v :
  digits_value_acc 0 (l1 ++ l2) = Some v ->
  exists a b, digits_value_acc 0 l1 = Some a /\ digits_value_acc 0 l2 = Some b /\
              v = (a * 10 ^ N.of_nat (length l2) + b)%N.
Proof.
  rewrite digits_value_acc_app. destruct (digits_value_acc 0 l1) as [a|] eqn:E1; [|done].
  rewrite digits_value_acc_shift. destruct (digits_value_acc 0 l2) as [b|]; [|done].
  intros [= <-]. eauto.
Qed.

Lemma digits_value_zeros n : digits_value_acc 0 (repeat "0"%char n) = Some 0%N.
Proof. rewrite <-(app_nil_r (repeat _ n)), digits_value_acc_zeros. done. Qed.

Lemma all_digits_not_sep l : all_digits l -> forall c, In c l -> c <> "."%char /\ c <> "e"%char /\ c <> "-"%char.
Proof. intros H c Hc. apply digit_not_sep, H, Hc. Qed.

(** Reading [l1.l2] and [l]. *)
Lemma parse_unsigned_point_l l1 l2 a b :
  l1 <> [] -> l2 <> [] -> all_digits l1 ->
  digits_value_acc 0 l1 = Some a -> digits_value_acc 0 l2 = Some b ->
  parse_unsigned (l1 ++ "."%char :: l2) = Some (inject_Z (Z.of_N a) + inject_Z (Z.of_N b) / inject_Z (10 ^ Z.of_nat (length l2)))%Q.
Proof.
  intros H1 H2 Hd Ha Hb. unfold parse_unsigned.
  rewrite split_on_app by (intros d Hdd; apply (all_digits_not_sep l1 Hd d Hdd)).
  rewrite !digits_value_ne, Ha, Hb by done. done.
Qed.

Lemma parse_unsigned_int_l l a :
  l <> [] -> all_digits l -> digits_value_acc 0 l = Some a -> parse_unsigned l = Some (inject_Z (Z.of_N a)).
Proof.
  intros H1 Hd Ha. unfold parse_unsigned.
  rewrite split_on_none by (intros d Hdd; apply (all_digits_not_sep l Hd d Hdd)).
  rewrite digits_value_ne, Ha by done. done.
Qed.

Lemma parse_exp_digits x : parse_exp (list_ascii_of_string (exp_digits x)) = Some x.
Proof.
  unfold exp_digits. rewrite !list_ascii_of_string_app.
  assert (Hv : digits_value (list_ascii_of_string ((if (Z.abs x <? 10)%Z then "0" else EmptyString) ++ pretty (Z.to_N (Z.abs x))))
               = Some (Z.to_N (Z.abs x))).
  { rewrite list_ascii_of_string_app. pose proof (pretty_N_nonempty (Z.to_N (Z.abs x))) as Hne.
    rewrite digits_value_ne.
    - destruct (Z.abs x <? 10)%Z; [change (list_ascii_of_string "0") with (repeat "0"%char 1);
        rewrite digits_value_acc_zeros|]; rewrite <-digits_value_ne by done; apply digits_value_pretty.
    - destruct (Z.abs x <? 10)%Z, (list_ascii_of_string (pretty _)); done. }
  rewrite list_ascii_of_string_app in Hv.
  destruct (Z.ltb_spec x 0); simpl; rewrite Hv; simpl; f_equal; lia.
Qed.

Lemma strip_zeros_rev_cons c l :
  strip_zeros_rev (c :: l) = if ascii_dec c "0" then strip_zeros_rev l else c :: l.
Proof. destruct c as [[] [] [] [] [] [] [] []]; reflexivity. Qed.

Lemma strip_zeros_rev_spec l : exists z, l = (repeat "0"%char z ++ strip_zeros_rev l)%list.
Proof.
  induction l as [|c l [z Hz]]; [by exists 0%nat|]. rewrite strip_zeros_rev_cons.
  destruct (ascii_dec c "0") as [->|_]; [exists (S z); simpl; by rewrite <-Hz|by exists 0%nat].
Qed.

(** The digits are their stripped form followed by zeros. *)
Lemma strip_zeros_split l : exists z, l = (strip_zeros l ++ repeat "0"%char z)%list.
Proof.
  destruct (strip_zeros_rev_spec (rev l)) as [z Hz]. exists z. unfold strip_zeros.
  apply (f_equal (@rev _)) in Hz. by rewrite rev_involutive, rev_app_distr, rev_repeat in Hz.
Qed.

Lemma string_of_list_ascii_app l1 l2 :
  string_of_list_ascii (l1 ++ l2) = string_of_list_ascii l1 ++ string_of_list_ascii l2.
Proof. induction l1 as [|c l1 IH]; simpl; [done|by rewrite IH]. Qed.

Lemma split_sign_head (b : bool) l :
  head l <> Some "-"%char ->
  split_sign (list_ascii_of_string (if b then "-" else EmptyString) ++ l) = (b, l).
Proof.
  intros Hl. destruct b; [done|]. destruct l as [|c l]; [done|]. simpl.
  destruct (ascii_dec c "-") as [->|]; [done|done].
Qed.

Lemma parse_decimal_exp (b : bool) l xs x :
  head l <> Some "-"%char -> (forall c, In c l -> c <> "e"%char) -> parse_exp xs = Some x ->
  parse_decimal ((if b then "-" else EmptyString) ++ string_of_list_ascii (l ++ "e"%char :: xs))
  = option_map (λ v, ((if b then - v else v) * q_pow10 x)%Q) (parse_unsigned l).
Proof.
  intros Hh Hl Hx. unfold parse_decimal.
  rewrite list_ascii_of_string_app, list_ascii_of_string_of_list_ascii.
  rewrite split_sign_head by (destruct l; [done|exact Hh]).
  rewrite split_on_app by exact Hl. simpl. rewrite Hx. by destruct (parse_unsigned l).
Qed.

Lemma q_pow10_add a b : (q_pow10 (a + b) == q_pow10 a * q_pow10 b)%Q.
Proof. rewrite !q_pow10_Qpower. apply Qpower_plus. discriminate. Qed.

Lemma q_pow10_opp a : (/ q_pow10 a == q_pow10 (- a))%Q.
Proof. rewrite !q_pow10_Qpower. symmetry. apply Qpower_opp. Qed.

Lemma inject_pow10 k : (0 <= k)%Z -> (inject_Z (10 ^ k) == q_pow10 k)%Q.
Proof. intros Hk. by rewrite q_pow10_nonneg. Qed.

Lemma div_pow10 (v t : Z) : (0 <= t)%Z -> (inject_Z v / inject_Z (10 ^ t) == inject_Z v * q_pow10 (- t))%Q.
Proof. intros Ht. unfold Qdiv. rewrite inject_pow10, q_pow10_opp by done. reflexivity. Qed.

Lemma all_digits_app l1 l2 : all_digits (l1 ++ l2) <-> all_digits l1 /\ all_digits l2.
Proof.
  unfold all_digits. setoid_rewrite in_app_iff. split; [intros H; split; intros; apply H; auto|].
  intros [H1 H2] c [Hc|Hc]; auto.
Qed.

Lemma all_digits_zeros n : all_digits (repeat "0"%char n).
Proof. intros c Hc. apply repeat_spec in Hc. subst. by eexists. Qed.

Lemma q_pow10_neq0 k : ~ (q_pow10 k == 0)%Q.
Proof. apply Qnot_eq_sym, Qlt_not_eq, q_pow10_pos. Qed.

(** [d.ddd * 10^(decpt - 1)] is [dddd * 10^(decpt - n)]. *)
Lemma shift_point_value (x y : Z) (t : nat) decpt :
  ((inject_Z x + inject_Z y / inject_Z (10 ^ Z.of_nat t)) * q_pow10 (decpt - 1)
   == inject_Z (x * 10 ^ Z.of_nat t + y) * q_pow10 (decpt - Z.of_nat (S t)))%Q.
Proof.
  rewrite div_pow10 by lia. rewrite inject_Z_plus, inject_Z_mult, inject_pow10 by lia.
  replace (decpt - 1)%Z with (decpt - Z.of_nat (S t) + Z.of_nat t)%Z by lia.
  rewrite q_pow10_add, <-q_pow10_opp. field. apply q_pow10_neq0.
Qed.

Section ReadBack.
Variables (b : bool) (ds : list ascii) (v : N).
Hypotheses (Hne : ds <> []) (Hds : all_digits ds) (Hv : digits_value_acc 0 ds = Some v).

Local Abbreviation V decpt := (inject_Z (Z.of_N v) * q_pow10 (decpt - Z.of_nat (length ds)))%Q.
Local Abbreviation signed q := (if b then - q else q)%Q.

Lemma signed_comp (x y : Q) : (x == y)%Q -> (signed x == signed y)%Q.
Proof. intros H. destruct b; [by rewrite H|exact H]. Qed.

Lemma signed_mult (x y : Q) : ((if b then - x else x) * y == signed (x * y))%Q.
Proof. destruct b; ring. Qed.

Lemma no_sep_point l1 l2 : all_digits l1 -> all_digits l2 ->
  forall c, In c (l1 ++ "."%char :: l2) -> c <> "e"%char /\ c <> "-"%char.
Proof.
  intros H1 H2 c [Hc|[<-|Hc]]%in_app_iff; [| done |];
    [destruct (all_digits_not_sep l1 H1 c Hc)|destruct (all_digits_not_sep l2 H2 c Hc)]; tauto.
Qed.

(** [0.000ddd]. *)
Lemma read_small decpt : (decpt <= 0)%Z ->
  exists q, parse_decimal ((if b then "-" else EmptyString) ++
    ("0." ++ string_of_list_ascii (repeat "0"%char (Z.to_nat (- decpt)) ++ ds))) = Some q /\ (q == signed (V decpt))%Q.
Proof.
  intros Hd. set (X := (repeat "0"%char (Z.to_nat (- decpt)) ++ ds)%list).
  change ("0." ++ string_of_list_ascii X) with (string_of_list_ascii (["0"%char] ++ "."%char :: X)).
  assert (HX : all_digits X) by (apply all_digits_app; split; [apply all_digits_zeros|done]).
  rewrite parse_decimal_signed by (apply no_sep_point; [intros c [<-|[]]; by eexists|done]).
  rewrite (parse_unsigned_point_l ["0"%char] X 0 v); try done.
  - eexists. split; [reflexivity|]. apply signed_comp.
    unfold X. rewrite length_app, repeat_length, Nat2Z.inj_add, Z2Nat.id by lia.
    rewrite div_pow10 by lia. replace (- (- decpt + Z.of_nat (length ds)))%Z with (decpt - Z.of_nat (length ds))%Z by lia.
    simpl. ring.
  - by destruct ds, (Z.to_nat (- decpt)).
  - intros c [<-|[]]. by eexists.
  - unfold X. by rewrite digits_value_acc_zeros.
Qed.

(** [ddd.ddd]. *)
Lemma read_point decpt : (0 < decpt < Z.of_nat (length ds))%Z ->
  exists q, parse_decimal ((if b then "-" else EmptyString) ++
    (string_of_list_ascii (take (Z.to_nat decpt) ds) ++ "." ++ string_of_list_ascii (drop (Z.to_nat decpt) ds)))
    = Some q /\ (q == signed (V decpt))%Q.
Proof.
  intros Hd. set (d := Z.to_nat decpt).
  pose proof Hds as Hds'. rewrite <-(take_drop d ds) in Hv, Hds'.
  destruct (digits_value_split _ _ _ Hv) as (x & y & Hx & Hy & Hxy).
  apply all_digits_app in Hds' as [Ht Hdr].
  assert (Hlt : length (take d ds) = d) by (rewrite length_take; lia).
  assert (Hld : length (drop d ds) = (length ds - d)%nat) by apply length_drop.
  replace (string_of_list_ascii (take d ds) ++ "." ++ string_of_list_ascii (drop d ds))
    with (string_of_list_ascii (take d ds ++ "."%char :: drop d ds)) by (rewrite string_of_list_ascii_app; reflexivity).
  rewrite parse_decimal_signed by (by apply no_sep_point).
  rewrite (parse_unsigned_point_l _ _ x y); try done; [| intros E; rewrite E in Hlt; simpl in Hlt; lia
                                                      | intros E; rewrite E in Hld; simpl in Hld; lia].
  eexists. split; [reflexivity|]. apply signed_comp. rewrite Hxy, Hld.
  replace (decpt - Z.of_nat (length ds))%Z with (- Z.of_nat (length ds - d))%Z by lia.
  rewrite N2Z.inj_add, N2Z.inj_mul, N2Z.inj_pow, nat_N_Z, inject_Z_plus, inject_Z_mult.
  change (Z.of_N 10) with 10%Z. rewrite div_pow10, <-q_pow10_opp, inject_pow10 by lia.
  field. apply Qnot_eq_sym, Qlt_not_eq, q_pow10_pos.
Qed.

(** [ddd000.0]. *)
Lemma read_int decpt : (Z.of_nat (length ds) <= decpt)%Z ->
  exists q, parse_decimal ((if b then "-" else EmptyString) ++
    (string_of_list_ascii (ds ++ repeat "0"%char (Z.to_nat (decpt - Z.of_nat (length ds)))) ++ ".0"))
    = Some q /\ (q == signed (V decpt))%Q.
Proof.
  intros Hd. set (z := Z.to_nat (decpt - Z.of_nat (length ds))).
  set (X := (ds ++ repeat "0"%char z)%list).
  replace (string_of_list_ascii X ++ ".0") with (string_of_list_ascii (X ++ "."%char :: ["0"%char]))
    by (rewrite string_of_list_ascii_app; reflexivity).
  assert (HX : all_digits X) by (apply all_digits_app; split; [done|apply all_digits_zeros]).
  rewrite parse_decimal_signed by (apply no_sep_point; [done|intros c [<-|[]]; by eexists]).
  rewrite (parse_unsigned_point_l X ["0"%char] (v * 10 ^ N.of_nat z)%N 0);
    try done; try (unfold X; by destruct ds); [|].
  - eexists. split; [reflexivity|]. apply signed_comp.
    rewrite N2Z.inj_mul, N2Z.inj_pow, nat_N_Z, inject_Z_mult. change (Z.of_N 10) with 10%Z.
    unfold z. rewrite Z2Nat.id, (q_pow10_nonneg (decpt - _)) by lia.
    setoid_replace (inject_Z 0 / inject_Z (10 ^ Z.of_nat 1))%Q with 0%Q using relation Qeq by reflexivity. ring.
  - unfold X. rewrite digits_value_acc_app, Hv, digits_value_acc_shift, digits_value_zeros. simpl.
    by rewrite N.add_0_r, repeat_length.
Qed.

(** [d.ddde+XX]. *)
Lemma read_exp decpt :
  exists q, parse_decimal ((if b then "-" else EmptyString) ++
    (string_of_list_ascii (take 1 ds) ++
     (if (1 <? Z.of_nat (length ds))%Z then "." ++ string_of_list_ascii (drop 1 ds) else EmptyString) ++
     "e" ++ exp_digits (decpt - 1)))
    = Some q /\ (q == signed (V decpt))%Q.
Proof.
  destruct ds as [|d0 r] eqn:Eds; [done|]. subst ds. cbn [take drop length]. rewrite take_0, drop_0.
  pose proof Hds as Hds'. change (d0 :: r) with ([d0] ++ r)%list in Hds', Hv.
  apply all_digits_app in Hds' as [H0 Hr].
  destruct (digits_value_split _ _ _ Hv) as (x & y & Hx & Hy & Hxy).
  assert (Hh : forall l, head ([d0] ++ l)%list <> Some "-"%char).
  { intros l [= E]. destruct (all_digits_not_sep [d0] H0 d0 (or_introl eq_refl)) as (_ & _ & ?). done. }
  assert (He0 : d0 <> "e"%char) by apply (all_digits_not_sep [d0] H0 d0 (or_introl eq_refl)).
  destruct (Z.ltb_spec 1 (Z.of_nat (S (length r)))) as [Hn|Hn].
  - replace (string_of_list_ascii [d0] ++ ("." ++ string_of_list_ascii r) ++ "e" ++ exp_digits (decpt - 1))
      with (string_of_list_ascii (([d0] ++ "."%char :: r) ++ "e"%char :: list_ascii_of_string (exp_digits (decpt - 1))))
      by (rewrite !string_of_list_ascii_app; cbn [string_of_list_ascii]; rewrite string_of_list_ascii_of_string; reflexivity).
    rewrite (parse_decimal_exp b _ _ (decpt - 1)), (parse_unsigned_point_l [d0] r x y); try done;
      try apply parse_exp_digits; try (intros c Hc; apply (no_sep_point [d0] r H0 Hr c Hc));
      try (intros ->; simpl in Hn; lia).
    eexists. split; [reflexivity|]. rewrite signed_mult. apply signed_comp. rewrite Hxy.
    rewrite N2Z.inj_add, N2Z.inj_mul, N2Z.inj_pow, nat_N_Z. apply shift_point_value.
  - destruct r as [|]; [|simpl in Hn; lia].
    replace (string_of_list_ascii [d0] ++ EmptyString ++ "e" ++ exp_digits (decpt - 1))
      with (string_of_list_ascii ([d0] ++ "e"%char :: list_ascii_of_string (exp_digits (decpt - 1))))
      by (rewrite !string_of_list_ascii_app; cbn [string_of_list_ascii]; rewrite string_of_list_ascii_of_string; reflexivity).
    rewrite (parse_decimal_exp b _ _ (decpt - 1)), (parse_unsigned_int_l [d0] x); try done;
      try apply parse_exp_digits; try (intros c [<-|[]]; done); try apply (Hh []).
    simpl in Hy. injection Hy as <-. assert (v = x) as -> by (simpl in Hxy; lia).
    eexists. split; [reflexivity|].
    rewrite signed_mult. apply signed_comp. simpl length.
    replace (decpt - Z.of_nat 1)%Z with (decpt - 1)%Z by lia. reflexivity.
Qed.
End ReadBack.

Lemma repr_format_read (b : bool) ds decpt v :
  ds <> [] -> all_digits ds -> digits_value_acc 0 ds = Some v ->
  exists q, parse_decimal ((if b then "-" else EmptyString) ++ repr_format ds decpt) = Some q /\
    (q == if b then - (inject_Z (Z.of_N v) * q_pow10 (decpt - Z.of_nat (length ds)))
          else inject_Z (Z.of_N v) * q_pow10 (decpt - Z.of_nat (length ds)))%Q.
Proof.
  intros Hne Hds Hv. unfold repr_format. cbn zeta.
  destruct ((-4 <=? decpt - 1) && (decpt - 1 <? 16))%Z; [|by apply read_exp].
  destruct (Z.leb_spec decpt 0); [by apply read_small|].
  destruct (Z.ltb_spec decpt (Z.of_nat (length ds))); [apply read_point; auto; lia|apply read_int; auto; lia].
Qed.

Lemma pretty_all_digits (x : N) : all_digits (list_ascii_of_string (pretty x)).
Proof. intros c Hc. by apply (pretty_N_chars x). Qed.

(** The mantissa of a decimal that rounds to a float is positive. *)
Lemma rounds_to_mantissa_pos c k m e : rounds_to (inject_Z c / q_pow10 k) m e = true -> (0 < c)%Z.
Proof.
  intros Hr. pose proof (rounds_to_pos _ _ _ Hr) as Hpos. pose proof (q_pow10_pos k) as Hk.
  destruct (Z.lt_ge_cases 0 c) as [|Hc0]; [done|]. exfalso.
  assert (Hc' : (inject_Z c <= 0)%Q) by (change 0%Q with (inject_Z 0); rewrite <-Zle_Qle; lia).
  apply (Qmult_le_compat_r _ _ (/ q_pow10 k)) in Hc'; [|apply Qlt_le_weak, Qinv_lt_0_compat, Hk].
  unfold Qdiv in Hpos. set (Qi := (/ q_pow10 k)%Q) in *. lra.
Qed.

(** The digits of a positive integer: the digits [py_repr] keeps, with
    their value [a], followed by [z] zeros. *)
Lemma pretty_strip_zeros (c : Z) : (0 < c)%Z ->
  let digits := list_ascii_of_string (pretty (Z.to_N c)) in
  exists a z, digits_value_acc 0 (strip_zeros digits) = Some a /\ Z.to_N c = (a * 10 ^ N.of_nat z)%N /\
    length digits = (length (strip_zeros digits) + z)%nat /\
    strip_zeros digits <> [] /\ all_digits (strip_zeros digits).
Proof.
  intros Hc digits. destruct (strip_zeros_split digits) as [z Hz].
  pose proof (digits_value_pretty (Z.to_N c)) as Hdv. fold digits in Hdv.
  rewrite digits_value_ne in Hdv by apply pretty_N_nonempty. rewrite Hz in Hdv.
  destruct (digits_value_split _ _ _ Hdv) as (a & y & Ha & Hy & Hay).
  rewrite digits_value_zeros in Hy. injection Hy as <-. rewrite repeat_length, N.add_0_r in Hay.
  exists a, z. split_and!; [done|done| | |].
  - rewrite Hz at 1. by rewrite length_app, repeat_length.
  - intros E. rewrite E in Ha. injection Ha as <-. lia.
  - intros x Hx. apply (pretty_all_digits (Z.to_N c)). change (In x digits). rewrite Hz. apply in_app_iff. by left.
Qed.


(** ** Witnesses *)

(** [.2f], [.0f] and [,] as CPython prints them: the double nearest
    [2.675] lies below it and prints [2.67], [0.125] is a tie rounded to
    even, [-0.001] keeps its sign, [2.5] rounds to the even [2]. *)
Example fmt_fixed_samples :
  map (fmt_fixed 2) [3011782250804019 # 1125899906842624; -1152921504606847 # 1152921504606846976;
                     12345 # 10; 1 # 8; 944473296573929 # 9444732965739290427392]%Q
  = ["2.67"; "-0.00"; "1234.50"; "0.12"; "0.00"] /\
  fmt_fixed 0 (5 # 2) = "2" /\ fmt_fixed 0 (-2 # 5) = "-0".
Proof. vm_compute. repeat split. Qed.

Example fmt_commas_samples :
  map fmt_commas [1234567; -1000; 999; 0]%Z = ["1,234,567"; "-1,000"; "999"; "0"].
Proof. vm_compute. reflexivity. Qed.

(** [.6g] at the bounds of the integer case and on fractions, as Python
    prints them. *)
Example fmt_g6_samples :
  map fmt_g6 [inject_Z 1000000; inject_Z 999999; (1 # 3)%Q; (1234 # 100000000)%Q; (-1 # 2)%Q]
  = ["1e+06"; "999999"; "0.333333"; "1.234e-05"; "-0.5"].
Proof. vm_compute. reflexivity. Qed.

Lemma fmt_g6_integer_witness :
  (Z.abs (-123456) < 10 ^ 6)%Z /\ fmt_g6 (inject_Z (-123456)) = pretty (-123456)%Z.
Proof. split; [vm_compute; reflexivity|]. apply fmt_g6_integer. vm_compute. reflexivity. Defined.


(** [repr] of floats as CPython prints them: the shortest digits, fixed
    notation up to [1e16], the exponent with its sign and two digits, the
    subnormal [5e-324] and the largest finite double. *)
Example py_repr_samples :
  map (λ me : Z * Z, py_repr (S754_finite false (Z.to_pos me.1) me.2))
    [(7205759403792794, -56); (5404319552844595, -54); (4503599627370496, -51); (5000000000000000, 1);
     (5902958103587057, -69); (8687443681197687, -46); (1, -1074); (9007199254740991, 971);
     (5404319552844596, -54)]%Z
  = ["0.1"; "0.3"; "2.0"; "1e+16"; "1e-05"; "123.456"; "5e-324"; "1.7976931348623157e+308";
     "0.30000000000000004"].
Proof. vm_compute. reflexivity. Qed.

