(* ===== verification/Mesh.v ===== *)
(** * Mesh: the data shapes of analyze-stl.py

    The script keeps a triangle as the tuple [(normal, v1, v2, v3)] of
    three-float tuples (lines 25-26, 37-41); here they are the records
    [triangle] and [vec3], polymorphic in the coordinate type so that the
    binary reader can produce raw float32 words, the loaders Python floats
    ([pyfloat]) and the analyses exact rationals.  [all_verts] is the
    comprehension of line 189; [tri_double] says that every finite float
    of a triangle is the value of a double. *)

From S2P Require Import Prelude Float64.

Record vec3 (A : Type) := Vec3 { vx : A; vy : A; vz : A }.
Arguments Vec3 {A} _ _ _.
Arguments vx {A} _.
Arguments vy {A} _.
Arguments vz {A} _.

Record triangle (A : Type) := Tri { normal : vec3 A; v1 : vec3 A; v2 : vec3 A; v3 : vec3 A }.
Arguments Tri {A} _ _ _ _.
Arguments normal {A} _.
Arguments v1 {A} _.
Arguments v2 {A} _.
Arguments v3 {A} _.

Definition vec3_map {A B} (f : A -> B) (v : vec3 A) : vec3 B :=
  Vec3 (f (vx v)) (f (vy v)) (f (vz v)).

Definition tri_map {A B} (f : A -> B) (t : triangle A) : triangle B :=
  Tri (vec3_map f (normal t)) (vec3_map f (v1 t)) (vec3_map f (v2 t)) (vec3_map f (v3 t)).

(** A Python float as a loader produces it: [struct.unpack("<f")] and
    [float()] can both return infinities and NaN. *)
Inductive pyfloat := PFin (q : Q) | PInf (neg : bool) | PNaN.

(** [t[1:]]: the three vertices of a triangle. *)
Definition tri_verts {A} (t : triangle A) : list (vec3 A) := [v1 t; v2 t; v3 t].

(** [all_verts = [v for t in triangles for v in t[1:]]] (line 189). *)
Definition all_verts {A} (ts : list (triangle A)) : list (vec3 A) :=
  flat_map tri_verts ts.

(** The finite meshes, on which the analyses are modelled; a value is
    kept in lowest terms ([Qred] changes its representation only). *)
Definition pf_finite (p : pyfloat) : option Q :=
  match p with PFin q => Some (Qred q) | _ => None end.

Definition vec3_finite (v : vec3 pyfloat) : option (vec3 Q) :=
  x ← pf_finite (vx v); y ← pf_finite (vy v); z ← pf_finite (vz v); Some (Vec3 x y z).

Definition tri_finite (t : triangle pyfloat) : option (triangle Q) :=
  n ← vec3_finite (normal t); a ← vec3_finite (v1 t); b ← vec3_finite (v2 t);
  c ← vec3_finite (v3 t); Some (Tri n a b c).

Definition finite_mesh (ts : list (triangle pyfloat)) : option (list (triangle Q)) :=
  mapM tri_finite ts.

(** The type of a Python float: a finite one holds the value of a
    binary64 double. *)
Definition pf_double (p : pyfloat) : bool :=
  match p with PFin q => is_double q | _ => true end.

Definition vec_double (v : vec3 pyfloat) : bool :=
  pf_double (vx v) && pf_double (vy v) && pf_double (vz v).

Definition tri_double (t : triangle pyfloat) : bool :=
  vec_double (normal t) && vec_double (v1 t) && vec_double (v2 t) && vec_double (v3 t).

(** ** Lemmas *)

Lemma length_all_verts {A} (ts : list (triangle A)) :
  length (all_verts ts) = 3 * length ts.
Proof. induction ts; simpl; lia. Qed.

Lemma in_all_verts {A} (ts : list (triangle A)) v :
  In v (all_verts ts) <-> exists t, In t ts /\ In v (tri_verts t).
Proof. apply in_flat_map. Qed.

Lemma tri_vert_in_all {A} (ts : list (triangle A)) t v :
  In t ts -> In v (tri_verts t) -> In v (all_verts ts).
Proof. intros. apply in_all_verts. eauto. Qed.

Lemma finite_mesh_length ts ms : finite_mesh ts = Some ms -> length ms = length ts.
Proof.
  unfold finite_mesh. intros H. symmetry. eapply Forall2_length.
  apply mapM_Some_1 in H. exact H.
Qed.

#[export] Hint Resolve tri_vert_in_all : stl.
