(* ===== verification/StlBinary.v ===== *)
(** * StlBinary: [read_binary_stl] (analyze-stl.py lines 24-43)

    The file is a byte list.  [f_read n] is [f.read(n)]: at most [n] bytes,
    fewer at the end of the file.  The triangle count is a little-endian
    [uint32] ([struct.unpack("<I")], which raises [struct.error] when the
    file had fewer than four bytes left); each record is 50 bytes holding
    twelve little-endian IEEE-754 binary32 floats and a two-byte attribute
    ([struct.unpack("<12fH")]); a short record ends the loop ([break]).
    [write_binary_stl] writes the format (spec, section 6), so that the
    round trip can be stated. *)

From S2P Require Import Prelude Float64 Mesh.

Local Open Scope Z_scope.

(** ** Bytes and words *)

Definition byte_val (b : Byte.byte) : Z := Z.of_N (Byte.to_N b).

(** Little-endian value of a byte string, as [struct.unpack("<I")]. *)
Fixpoint le_combine (l : list Byte.byte) : Z :=
  match l with
  | [] => 0
  | b :: t => byte_val b + 256 * le_combine t
  end.

(** [f.read(n)] on the rest of the file: the bytes read and what is left. *)
Definition f_read {A} (n : nat) (l : list A) : list A * list A := (take n l, drop n l).

(** ** IEEE-754 binary32 decoding of [struct.unpack("<f")]

    Bit 31 is the sign, bits 23-30 the biased exponent, bits 0-22 the
    fraction.  Exponent 255 encodes the infinities (fraction 0) and NaN;
    exponent 0 the subnormals [frac * 2^-149]; otherwise the value is
    [(2^23 + frac) * 2^(exp - 150)].  Python widens the float to a double,
    which is exact. *)

Definition pow2_scale (m e : Z) : Q :=
  Qred (if 0 <=? e then inject_Z (m * 2 ^ e) else Qmake m (Z.to_pos (2 ^ (- e)))).

Definition f32_decode (w : Z) : pyfloat :=
  let sign := Z.testbit w 31 in
  let expo := Z.land (Z.shiftr w 23) 255 in
  let frac := Z.land w (Z.ones 23) in
  if expo =? 255 then (if frac =? 0 then PInf sign else PNaN)
  else
    let mag := if expo =? 0 then pow2_scale frac (-149)
               else pow2_scale (frac + 2 ^ 23) (expo - 150) in
    PFin (if sign then Qopp mag else mag).

(** The [i]-th float of a record, [vals[i]]. *)
Definition f32_at (rec : list Byte.byte) (i : nat) : pyfloat :=
  f32_decode (le_combine (take 4 (drop (4 * i) rec))).

(** [vals = struct.unpack("<12fH", data)] and the tuples built from it
    (lines 36-41); the attribute [vals[12]] is not used. *)
Definition unpack_record (rec : list Byte.byte) : triangle pyfloat :=
  let v := f32_at rec in
  Tri (Vec3 (v 0%nat) (v 1%nat) (v 2%nat)) (Vec3 (v 3%nat) (v 4%nat) (v 5%nat))
      (Vec3 (v 6%nat) (v 7%nat) (v 8%nat)) (Vec3 (v 9%nat) (v 10%nat) (v 11%nat)).

(** The loop of lines 32-41: [num] iterations at most, each reading 50
    bytes and stopping at a short read.  [fuel] bounds the recursion;
    [read_binary_stl] passes one more than the byte count. *)
Fixpoint read_records (fuel : nat) (num : N) (data : list Byte.byte) : list (triangle pyfloat) :=
  match fuel with
  | O => []
  | S fuel' =>
      match num with
      | N0 => []
      | Npos _ =>
          let '(rec, rest) := f_read 50 data in
          if (length rec <? 50)%nat then []
          else unpack_record rec :: read_records fuel' (N.pred num) rest
      end
  end.

(** [read_binary_stl]: the header, the count, the records. *)
Definition read_binary_stl (data : list Byte.byte)
    : result (list Byte.byte * list (triangle pyfloat)) :=
  let '(header, rest) := f_read 80 data in
  let '(cnt, rest') := f_read 4 rest in
  if (length cnt =? 4)%nat
  then Ok (header, read_records (S (length rest')) (Z.to_N (le_combine cnt)) rest')
  else Raise StructError.

(** ** The writer of the format *)

Definition byte_of_Z (z : Z) : Byte.byte :=
  match Byte.of_N (Z.to_N (z mod 256)) with Some b => b | None => Byte.x00 end.

Fixpoint le_split (n : nat) (w : Z) : list Byte.byte :=
  match n with
  | O => []
  | S n' => byte_of_Z w :: le_split n' (w / 256)
  end.

Definition tri_words (t : triangle Z) : list Z :=
  [vx (normal t); vy (normal t); vz (normal t); vx (v1 t); vy (v1 t); vz (v1 t);
   vx (v2 t); vy (v2 t); vz (v2 t); vx (v3 t); vy (v3 t); vz (v3 t)].

Definition pack_record (t : triangle Z) : list Byte.byte :=
  concat (map (le_split 4) (tri_words t)) ++ [Byte.x00; Byte.x00].

(** A file whose count field says [count] and which holds the records of
    [ts]. *)
Definition write_binary_stl (header : list Byte.byte) (count : Z) (ts : list (triangle Z)) :=
  header ++ le_split 4 count ++ concat (map pack_record ts).

(** A triangle all of whose twelve words fit in 32 bits. *)
Definition words_ok (t : triangle Z) : Prop := Forall (λ w, 0 <= w < 2 ^ 32) (tri_words t).

(** ** Lemmas on bytes and words *)

Lemma byte_val_range b : 0 <= byte_val b < 256.
Proof. unfold byte_val. pose proof (Byte.to_N_bounded b). lia. Qed.

Lemma byte_val_of_Z z : byte_val (byte_of_Z z) = z mod 256.
Proof.
  unfold byte_of_Z, byte_val. pose proof (Z.mod_pos_bound z 256 ltac:(lia)).
  destruct (Byte.of_N _) eqn:E.
  - apply Byte.to_of_N in E. rewrite E. lia.
  - apply Byte.of_N_None_iff in E. lia.
Qed.

Lemma length_le_split n w : length (le_split n w) = n.
Proof. revert w. induction n; simpl; auto. Qed.

Lemma le_combine_split n w : le_combine (le_split n w) = w mod 256 ^ Z.of_nat n.
Proof.
  revert w. induction n as [|n IH]; intros w; simpl le_split; simpl le_combine.
  - by rewrite Z.mod_1_r.
  - rewrite IH, byte_val_of_Z, Nat2Z.inj_succ, Z.pow_succ_r by lia.
    rewrite (Z.rem_mul_r w 256 (256 ^ Z.of_nat n)) by lia. lia.
Qed.

Lemma le_combine_range l : 0 <= le_combine l < 256 ^ Z.of_nat (length l).
Proof.
  induction l as [|b l IH]; simpl le_combine; simpl length; [simpl; lia|].
  rewrite Nat2Z.inj_succ, Z.pow_succ_r by lia. pose proof (byte_val_range b). nia.
Qed.

Lemma le_split_word w : 0 <= w < 2 ^ 32 -> le_combine (le_split 4 w) = w.
Proof. intros. rewrite le_combine_split. apply Z.mod_small. simpl. lia. Qed.

(** The [i]-th 4-byte chunk of a run of packed words. *)
Lemma take_drop_words (ws : list Z) (r : list Byte.byte) i w :
  ws !! i = Some w ->
  take 4 (drop (4 * i) (concat (map (le_split 4) ws) ++ r)) = le_split 4 w.
Proof.
  revert i. induction ws as [|w' ws IH]; intros i Hi; [done|].
  destruct i as [|i]; simpl in Hi.
  - injection Hi as <-. rewrite Nat.mul_0_r, drop_0. cbn [map concat].
    rewrite <-app_assoc.
    by rewrite take_app_length' by (by rewrite length_le_split).
  - replace (4 * S i)%nat with (4 + 4 * i)%nat by lia. cbn [map concat].
    rewrite <-app_assoc, <-drop_drop.
    rewrite drop_app_length' by (by rewrite length_le_split). by apply IH.
Qed.

(** The twelve words of a packed record decode to the triangle's floats. *)
Lemma unpack_pack_record t rest :
  Forall (λ w, 0 <= w < 2 ^ 32) (tri_words t) ->
  unpack_record (pack_record t ++ rest) = tri_map f32_decode t.
Proof.
  intros Hw. unfold pack_record. rewrite <-app_assoc.
  assert (Hat : forall i, (i < 12)%nat ->
            f32_at (concat (map (le_split 4) (tri_words t)) ++ [Byte.x00; Byte.x00] ++ rest) i
            = f32_decode (nth i (tri_words t) 0)).
  { intros i Hi. destruct (lookup_lt_is_Some_2 (tri_words t) i) as [w Hwi]; [done|].
    unfold f32_at. rewrite (take_drop_words _ _ i w Hwi).
    rewrite (nth_lookup_Some _ _ _ _ Hwi).
    rewrite le_split_word; [done|]. rewrite Forall_lookup in Hw. eauto. }
  unfold unpack_record, tri_map, vec3_map.
  rewrite !Hat by lia. reflexivity.
Qed.

Lemma length_pack_record t : length (pack_record t) = 50%nat.
Proof.
  unfold pack_record. rewrite length_app. destruct t as [[] [] [] []]. reflexivity.
Qed.

Lemma f_read_app {A} (l r : list A) n : length l = n -> f_read n (l ++ r) = (l, r).
Proof. intros <-. unfold f_read. by rewrite take_app_length, drop_app_length. Qed.

Lemma length_concat_pack ts : length (concat (map pack_record ts)) = (50 * length ts)%nat.
Proof.
  induction ts as [|t ts IH]; [done|]. cbn [map concat].
  rewrite length_app, length_pack_record, IH. simpl. lia.
Qed.

Lemma N_to_nat_pos p : N.to_nat (Npos p) = S (N.to_nat (N.pred (Npos p))).
Proof. lia. Qed.

(** The loop on packed records followed by fewer than 50 stray bytes. *)
Lemma read_records_packed fuel n ts tail :
  Forall words_ok ts -> (length tail < 50)%nat -> (length ts < fuel)%nat ->
  read_records fuel n (concat (map pack_record ts) ++ tail)
  = map (tri_map f32_decode) (take (N.to_nat n) ts).
Proof.
  revert fuel n. induction ts as [|t ts IH]; intros fuel n Hok Htail Hfuel;
    destruct fuel as [|fuel]; try (simpl in Hfuel; lia); cbn [read_records].
  - destruct n; [done|]. cbn [map concat app]. unfold f_read.
    rewrite take_ge by lia. destruct (Nat.ltb_spec (length tail) 50); [|lia].
    by rewrite take_nil.
  - destruct n as [|p]; [done|]. inversion Hok as [|? ? Ht Hts]; subst.
    cbn [map concat]. rewrite <-app_assoc, f_read_app by apply length_pack_record.
    rewrite length_pack_record. simpl (50 <? 50)%nat. cbv iota.
    rewrite <-(app_nil_r (pack_record t)) at 1.
    rewrite unpack_pack_record by done. rewrite IH by (simpl in Hfuel; auto with lia).
    by rewrite N_to_nat_pos.
Qed.

(** The binary reader on a file made of an 80-byte header, a count field
    and whole records, cut anywhere inside a further record: it returns
    the header and the first [count] records, each decoded. *)
Lemma read_binary_stl_file header count ts tail :
  length header = 80%nat -> 0 <= count < 2 ^ 32 -> Forall words_ok ts ->
  (length tail < 50)%nat ->
  read_binary_stl (write_binary_stl header count ts ++ tail)
  = Ok (header, map (tri_map f32_decode) (take (Z.to_nat count) ts)).
Proof.
  intros Hh Hc Hok Ht. unfold read_binary_stl, write_binary_stl.
  rewrite <-!app_assoc, f_read_app by done.
  rewrite f_read_app by apply length_le_split.
  rewrite length_le_split. simpl (4 =? 4)%nat. cbv iota.
  rewrite le_split_word by done.
  rewrite read_records_packed; [by rewrite Z_N_nat|done|done|].
  rewrite length_app, length_concat_pack. lia.
Qed.

(** (C1) The round trip: [N] triangles written in the binary format with
    their count read back as the same [N] triangles, in order, each
    coordinate the float32 its word encodes. *)
Theorem read_binary_stl_roundtrip header ts :
  length header = 80%nat -> (Z.of_nat (length ts) < 2 ^ 32) -> Forall words_ok ts ->
  read_binary_stl (write_binary_stl header (Z.of_nat (length ts)) ts)
  = Ok (header, map (tri_map f32_decode) ts).
Proof.
  intros Hh Hn Hok. rewrite <-(app_nil_r (write_binary_stl _ _ _)).
  rewrite read_binary_stl_file by (simpl; lia || done).
  by rewrite Nat2Z.id, take_ge by lia.
Qed.

(** (C2) The tolerant read: when the count field promises more records
    than the file holds and the file ends inside a record, the reader
    returns every whole record and no error. *)
Theorem read_binary_stl_truncated header count ts tail :
  length header = 80%nat -> Z.of_nat (length ts) <= count < 2 ^ 32 -> Forall words_ok ts ->
  (length tail < 50)%nat ->
  read_binary_stl (write_binary_stl header count ts ++ tail)
  = Ok (header, map (tri_map f32_decode) ts).
Proof.
  intros Hh Hc Hok Ht. rewrite read_binary_stl_file by (lia || done).
  by rewrite take_ge by lia.
Qed.

(** (C4) A file shorter than 84 bytes has no complete count field:
    [struct.unpack("<I")] raises. *)
Theorem read_binary_stl_short data :
  (length data < 84)%nat -> read_binary_stl data = Raise StructError.
Proof.
  intros H. unfold read_binary_stl, f_read.
  rewrite length_take, length_drop.
  destruct (Nat.eqb_spec (4 `min` (length data - 80)) 4); [lia|done].
Qed.

Lemma div50_step l : (50 <= l)%nat -> (l / 50 = S ((l - 50) / 50))%nat.
Proof.
  intros H. replace l with (1 * 50 + (l - 50))%nat at 1 by lia.
  rewrite Nat.div_add_l by lia. lia.
Qed.

Lemma div50_lt l : (l / 50 < S l)%nat.
Proof. pose proof (Nat.Div0.div_le_upper_bound l 50 l ltac:(lia)). lia. Qed.

(** The loop reads [min(num, len(data) // 50)] records once the fuel
    exceeds [len(data) // 50]: the fuel never stops it early. *)
Lemma read_records_length fuel n data :
  (length data / 50 < fuel)%nat ->
  length (read_records fuel n data) = (N.to_nat n `min` (length data / 50))%nat.
Proof.
  revert n data. induction fuel as [|fuel IH]; intros n data Hf; [lia|].
  cbn [read_records]. destruct n as [|p]; [done|]. unfold f_read.
  rewrite length_take.
  destruct (Nat.ltb_spec (50 `min` length data) 50) as [Hs|Hs].
  - simpl length. rewrite Nat.div_small by lia. lia.
  - simpl length. rewrite (div50_step (length data)) in Hf |- * by lia.
    rewrite IH, length_drop; [|rewrite length_drop; lia].
    rewrite N_to_nat_pos. lia.
Qed.

(** (C3) The number of triangles [read_binary_stl] returns on any file of
    at least 84 bytes: the count field, capped by the number of whole
    50-byte records after the header. *)
Theorem read_binary_stl_count data :
  (84 <= length data)%nat ->
  exists hdr tris, read_binary_stl data = Ok (hdr, tris) /\
    length tris = (Z.to_nat (le_combine (take 4 (drop 80 data)))
                   `min` ((length data - 84) / 50))%nat.
Proof.
  intros H. unfold read_binary_stl, f_read.
  rewrite length_take, length_drop.
  destruct (Nat.eqb_spec (4 `min` (length data - 80)) 4); [|lia].
  eexists _, _. split; [reflexivity|].
  rewrite read_records_length; rewrite !length_drop; [|apply div50_lt].
  rewrite Z_N_nat. do 2 f_equal. lia.
Qed.

(** ** Witnesses *)

(** A triangle with unit normal (0, 0, 1) and vertices at the origin,
    (1, 0, 0) and (0, 1, 0); 1065353216 = 0x3F800000 encodes 1.0f. *)
Definition sample_tri : triangle Z :=
  Tri (Vec3 0 0 1065353216) (Vec3 0 0 0) (Vec3 1065353216 0 0) (Vec3 0 1065353216 0).

Definition sample_header : list Byte.byte := repeat Byte.x20 80.

Lemma sample_tri_ok : words_ok sample_tri.
Proof.
  apply Forall_forall. intros w Hw. cbv [tri_words sample_tri vx vy vz normal v1 v2 v3] in Hw.
  apply list_elem_of_In in Hw. repeat destruct Hw as [<-|Hw]; try lia. destruct Hw.
Qed.

Lemma read_binary_stl_roundtrip_witness :
  read_binary_stl (write_binary_stl sample_header 2 [sample_tri; sample_tri])
  = Ok (sample_header, map (tri_map f32_decode) [sample_tri; sample_tri]).
Proof.
  apply (read_binary_stl_roundtrip sample_header [sample_tri; sample_tri]);
    [reflexivity|simpl; lia|repeat (apply List.Forall_cons; [apply sample_tri_ok|]); apply List.Forall_nil].
Defined.

Lemma read_binary_stl_truncated_witness :
  read_binary_stl (write_binary_stl sample_header 5 [sample_tri; sample_tri] ++ [Byte.x01; Byte.x02])
  = Ok (sample_header, map (tri_map f32_decode) [sample_tri; sample_tri]).
Proof.
  apply (read_binary_stl_truncated sample_header 5 [sample_tri; sample_tri]);
    [reflexivity|simpl; lia|repeat (apply List.Forall_cons; [apply sample_tri_ok|]); apply List.Forall_nil|simpl; lia].
Defined.

Lemma read_binary_stl_short_witness : read_binary_stl sample_header = Raise StructError.
Proof. apply read_binary_stl_short. vm_compute. lia. Defined.

Lemma read_binary_stl_count_witness :
  exists hdr tris, read_binary_stl (write_binary_stl sample_header 7 [sample_tri] ++ [Byte.x00]) = Ok (hdr, tris) /\
    length tris = 1%nat.
Proof.
  destruct (read_binary_stl_count (write_binary_stl sample_header 7 [sample_tri] ++ [Byte.x00]))
    as (hdr & tris & H & L); [vm_compute; lia|].
  exists hdr, tris. split; [exact H|]. rewrite L. vm_compute. reflexivity.
Defined.

(** Sample decodings: 0x3F800000 is 1.0 and 0xBF800000 is -1.0; the
    exponent 255 gives the infinities and NaN; word 1 is the smallest
    subnormal, 2^-149. *)
Example f32_decode_samples :
  f32_decode 1065353216 = PFin 1 /\ f32_decode 3212836864 = PFin (-1) /\
  f32_decode 2139095040 = PInf false /\ f32_decode 4286578688 = PInf true /\
  f32_decode 2143289344 = PNaN /\ f32_decode 1 = PFin (1 # 713623846352979940529142984724747568191373312).
Proof. vm_compute. repeat split. Qed.

(** [m * 2^e] on the grid of multiples of [2^-149]. *)
Lemma pow2_scale_grid m e :
  (-149 <= e)%Z -> (pow2_scale m e == Qmake (m * 2 ^ (e + 149)) (Z.to_pos (2 ^ 149)))%Q.
Proof.
  intros He. unfold pow2_scale. rewrite Qred_correct. unfold Qeq. simpl Qnum. simpl Qden.
  destruct (Z.leb_spec 0 e).
  - simpl. rewrite Z.pow_add_r by lia. lia.
  - simpl. rewrite Z2Pos.id by (apply Z.pow_pos_nonneg; lia).
    replace (2 ^ 149)%Z with (2 ^ (e + 149) * 2 ^ (- e))%Z at 1 by (rewrite <-Z.pow_add_r by lia; f_equal; lia).
    lia.
Qed.

Lemma f32_fields w :
  (0 <= Z.land (Z.shiftr w 23) 255 <= 255)%Z /\ (0 <= Z.land w (Z.ones 23) < 2 ^ 23)%Z.
Proof.
  change 255%Z with (Z.ones 8). rewrite !Z.land_ones by lia.
  split; [pose proof (Z.mod_pos_bound (Z.shiftr w 23) (2 ^ 8)) | pose proof (Z.mod_pos_bound w (2 ^ 23))];
    change (Z.ones 8) with (2 ^ 8 - 1)%Z; lia.
Qed.

Lemma pow2_scale_pow2 m e : (pow2_scale m e == inject_Z m * pow2_Q e)%Q.
Proof.
  unfold pow2_scale, pow2_Q. rewrite Qred_correct. destruct (0 <=? e)%Z.
  - by rewrite inject_Z_mult.
  - unfold Qeq, Qmult, inject_Z. simpl. lia.
Qed.

(** A float32 widens exactly to a double: every finite value of
    [struct.unpack("<f")] is a binary64 value. *)
Lemma f32_decode_double w : pf_double (f32_decode w) = true.
Proof.
  destruct (f32_fields w) as [He Hf]. unfold f32_decode.
  set (expo := Z.land (Z.shiftr w 23) 255) in *. set (frac := Z.land w (Z.ones 23)) in *.
  destruct (Z.eqb_spec expo 255) as [E|E]; [by destruct (frac =? 0)|]. cbn [pf_double].
  assert (Hm : exists m e, ((if expo =? 0 then pow2_scale frac (-149)
                             else pow2_scale (frac + 2 ^ 23) (expo - 150)) == inject_Z m * pow2_Q e)%Q /\
                 (0 <= m < 2 ^ 24)%Z /\ (-149 <= e <= 104)%Z).
  { destruct (Z.eqb_spec expo 0).
    - exists frac, (-149)%Z. rewrite pow2_scale_pow2. split; [reflexivity|lia].
    - exists (frac + 2 ^ 23)%Z, (expo - 150)%Z. rewrite pow2_scale_pow2. split; [reflexivity|lia]. }
  destruct Hm as (m & e & Hv & Hm & He').
  set (mag := if expo =? 0 then _ else _) in *.
  pose proof (pow2_Q_pos e) as HP.
  assert (HM : (0 <= inject_Z m <= pow2_Q 24)%Q).
  { rewrite (pow2_Q_Z 24) by lia. change 0%Q with (inject_Z 0). rewrite <-!Zle_Qle. lia. }
  assert (Hbound : (inject_Z m * pow2_Q e <= pow2_Q 1023)%Q).
  { pose proof (pow2_Q_le e 104 ltac:(lia)). pose proof (pow2_Q_le 128 1023 ltac:(lia)).
    assert (E128 : (pow2_Q 128 == pow2_Q 24 * pow2_Q 104)%Q) by (rewrite <-pow2_Q_add; reflexivity).
    pose proof (pow2_Q_pos 24). nra. }
  destruct (Z.eq_dec m 0) as [->|Hm0].
  - apply is_double_zero. destruct (Z.testbit w 31); rewrite Hv; ring.
  - apply (is_double_scaled _ (if Z.testbit w 31 then - m else m) e);
      [destruct (Z.testbit w 31); rewrite Hv; [rewrite inject_Z_opp; ring|reflexivity]
      |destruct (Z.testbit w 31); lia|destruct (Z.testbit w 31); lia|lia|].
    destruct (Z.testbit w 31); rewrite ?Qabs_opp, Hv, Qabs_pos by nra; done.
Qed.

Lemma unpack_record_double rec : tri_double (unpack_record rec) = true.
Proof. unfold tri_double, vec_double, unpack_record, f32_at. cbn [normal v1 v2 v3 vx vy vz]. by rewrite !f32_decode_double. Qed.

Lemma read_records_double fuel n data : forallb tri_double (read_records fuel n data) = true.
Proof.
  revert n data. induction fuel as [|fuel IH]; intros n data; cbn [read_records]; [done|].
  destruct n; [done|]. destruct (f_read 50 data) as [rec rest].
  destruct (length rec <? 50)%nat; [done|]. cbn [forallb]. by rewrite unpack_record_double, IH.
Qed.

(** The triangles [read_binary_stl] returns hold doubles only. *)
Lemma read_binary_stl_double data h ts : read_binary_stl data = Ok (h, ts) -> forallb tri_double ts = true.
Proof.
  unfold read_binary_stl. destruct (f_read 80 data) as [header rest], (f_read 4 rest) as [cnt rest'].
  destruct (length cnt =? 4)%nat; [intros [= _ <-]; exact (read_records_double (S (length rest')) (Z.to_N (le_combine cnt)) rest')|discriminate].
Qed.

