(* ===== verification/StlText.v ===== *)
(** * StlText: [read_ascii_stl] (analyze-stl.py lines 53-75)

    The file is read in text mode ([open(filepath, "r")]), whose universal
    newlines turn ["\r\n"], ["\r"] and ["\n"] into line ends; [readlines]
    returns the lines, and every use strips them.  Each line is stripped
    ([str.strip]) and dispatched on its prefix; a [facet normal] or
    [vertex] line is split on white space ([str.split]) and three of its
    tokens converted with [float()], which raises [ValueError] on a bad
    token, while a missing token raises [IndexError].  The parser keeps the
    current normal, the vertex accumulator and the triangle list: this is
    the state [text_state], and [text_step] is one iteration of the loop. *)

From S2P Require Import Prelude Float64 Mesh.
From Stdlib Require Import SpecFloat.

Local Open Scope string_scope.

(** ** Characters and lines *)

(** [str.isspace] on an ASCII character: tab, line feed, vertical tab,
    form feed, carriage return, the separators 0x1C-0x1F, and space. *)
Definition py_isspace (c : ascii) : bool :=
  let n := nat_of_ascii c in (Nat.leb 9 n && Nat.leb n 13) || (Nat.leb 28 n && Nat.leb n 32).

(** [f.readlines()] in universal-newline mode, each line without its
    terminator.  [cur] is the current line, reversed. *)
Fixpoint readlines_acc (cur : list ascii) (s : string) : list string :=
  match s with
  | EmptyString => match cur with [] => [] | _ => [string_of_list_ascii (rev cur)] end
  | String c rest =>
      if Ascii.eqb c "010"%char then string_of_list_ascii (rev cur) :: readlines_acc [] rest
      else if Ascii.eqb c "013"%char then
        string_of_list_ascii (rev cur) ::
          match rest with
          | String c' rest' => if Ascii.eqb c' "010"%char then readlines_acc [] rest'
                               else readlines_acc [] rest
          | EmptyString => []
          end
      else readlines_acc (c :: cur) rest
  end.

Definition py_readlines (s : string) : list string := readlines_acc [] s.

Fixpoint lstrip_ws (s : string) : string :=
  match s with
  | String c rest => if py_isspace c then lstrip_ws rest else s
  | EmptyString => EmptyString
  end.

Definition rev_string (s : string) : string :=
  string_of_list_ascii (rev (list_ascii_of_string s)).

(** [str.strip()]: white space removed at both ends. *)
Definition py_strip (s : string) : string := rev_string (lstrip_ws (rev_string (lstrip_ws s))).

(** [str.split()] with no separator: the maximal runs of non-space
    characters.  [cur] is the current run, reversed. *)
Fixpoint split_acc (cur : list ascii) (s : string) : list string :=
  match s with
  | EmptyString => match cur with [] => [] | _ => [string_of_list_ascii (rev cur)] end
  | String c rest =>
      if py_isspace c then
        match cur with
        | [] => split_acc [] rest
        | _ => string_of_list_ascii (rev cur) :: split_acc [] rest
        end
      else split_acc (c :: cur) rest
  end.

Definition py_split (s : string) : list string := split_acc [] s.

(** [parts[i]]. *)
Definition py_index {A} (l : list A) (i : nat) : result A :=
  match l !! i with Some x => Ok x | None => Raise IndexError end.

(** ** Python's [float()] on a token

    The grammar of the Python reference: an optional sign, then
    [inf], [infinity] or [nan] in any letter case, or a decimal number
    [digitpart ["." [digitpart]] | "." digitpart] with an optional
    exponent [("e" | "E") [sign] digitpart]; a [digitpart] is a run of
    digits in which single underscores may separate digits.  The decimal's
    exact value is then rounded to the nearest double, ties to even
    ([f64_of_Q]): [1e400] gives [inf], [1e-400] gives [0.0]. *)

Definition digit_val (c : ascii) : option Z :=
  let n := nat_of_ascii c in if Nat.leb 48 n && Nat.leb n 57 then Some (Z.of_nat (n - 48)) else None.

(** The digits after the first one: [(value, count, rest)]. *)
Fixpoint digits_acc (acc : Z) (k : nat) (s : string) : Z * nat * string :=
  match s with
  | String c rest =>
      match digit_val c with
      | Some d => digits_acc (acc * 10 + d)%Z (S k) rest
      | None =>
          if Ascii.eqb c "_"%char then
            match rest with
            | String c' rest' =>
                match digit_val c' with
                | Some d => digits_acc (acc * 10 + d)%Z (S k) rest'
                | None => (acc, k, s)
                end
            | EmptyString => (acc, k, s)
            end
          else (acc, k, s)
      end
  | EmptyString => (acc, k, s)
  end.

Definition digitpart (s : string) : option (Z * nat * string) :=
  match s with
  | String c rest => match digit_val c with Some d => Some (digits_acc d 1 rest) | None => None end
  | EmptyString => None
  end.

Definition sign_of (s : string) : bool * string :=
  match s with
  | String c rest => if Ascii.eqb c "-"%char then (true, rest)
                     else if Ascii.eqb c "+"%char then (false, rest) else (false, s)
  | EmptyString => (false, s)
  end.

(** The exponent part, which must end the token. *)
Definition exponent_part (s : string) : option Z :=
  match s with
  | EmptyString => Some 0%Z
  | String c rest =>
      if Ascii.eqb c "e"%char || Ascii.eqb c "E"%char then
        let '(neg, r) := sign_of rest in
        match digitpart r with
        | Some (v, _, EmptyString) => Some (if neg then (- v)%Z else v)
        | _ => None
        end
      else None
  end.

Definition scale10 (m : Z) (e : Z) : Q :=
  Qred (if (0 <=? e)%Z then inject_Z (m * 10 ^ e) else Qmake m (Z.to_pos (10 ^ (- e)))).

(** The mantissa digits, the number of them after the point, and the
    exponent give the value [mant * 10^(exp - k)]. *)
Definition finish_number (mant : Z) (k : nat) (r : string) : option Q :=
  match exponent_part r with
  | Some e => Some (scale10 mant (e - Z.of_nat k))
  | None => None
  end.

Definition parse_decimal (s : string) : option Q :=
  match digitpart s with
  | Some (iv, _, r1) =>
      match r1 with
      | String c r =>
          if Ascii.eqb c "."%char then
            match digitpart r with
            | Some (fv, k, r2) => finish_number (iv * 10 ^ Z.of_nat k + fv) k r2
            | None => finish_number iv 0 r
            end
          else finish_number iv 0 r1
      | EmptyString => finish_number iv 0 r1
      end
  | None =>
      match s with
      | String c r =>
          if Ascii.eqb c "."%char then
            match digitpart r with
            | Some (fv, k, r2) => finish_number fv k r2
            | None => None
            end
          else None
      | EmptyString => None
      end
  end.

Definition ascii_lower (c : ascii) : ascii :=
  let n := nat_of_ascii c in if Nat.leb 65 n && Nat.leb n 90 then ascii_of_nat (n + 32) else c.

Definition lower (s : string) : string := string_of_list_ascii (map ascii_lower (list_ascii_of_string s)).

(** The float [float()] returns for a decimal of exact value [q]; the
    value is kept in lowest terms. *)
Definition double_of_decimal (q : Q) : pyfloat :=
  match f64_of_Q q with
  | S754_infinity neg => PInf neg
  | S754_nan => PNaN
  | f => PFin (Qred (f64_to_Q f))
  end.

Definition parse_float (s : string) : option pyfloat :=
  let '(neg, r) := sign_of s in
  let lr := lower r in
  if String.eqb lr "inf" || String.eqb lr "infinity" then Some (PInf neg)
  else if String.eqb lr "nan" then Some PNaN
  else match parse_decimal r with
       | Some q => Some (double_of_decimal (if neg then Qopp q else q))
       | None => None
       end.

(** [float(tok)]: [ValueError] on a token outside the grammar. *)
Definition py_float (s : string) : result pyfloat :=
  match parse_float s with Some f => Ok f | None => Raise ValueError end.

(** ** The parser's loop *)

(** [(float(parts[i]), float(parts[i+1]), float(parts[i+2]))], evaluated
    left to right. *)
Definition float3 (parts : list string) (i : nat) : result (vec3 pyfloat) :=
  x ← py_index parts i ≫= py_float;
  y ← py_index parts (S i) ≫= py_float;
  z ← py_index parts (S (S i)) ≫= py_float;
  Ok (Vec3 x y z).

Record text_state := TextState {
  ts_normal : option (vec3 pyfloat);
  ts_verts : list (vec3 pyfloat);
  ts_tris : list (triangle pyfloat)
}.

Definition text_init : text_state := TextState None [] [].

(** One iteration of [for line in lines] (lines 64-73). *)
Definition text_step (st : text_state) (raw : string) : result text_state :=
  let line := py_strip raw in
  if String.prefix "facet normal" line then
    n ← float3 (py_split line) 2;
    Ok (TextState (Some n) [] (ts_tris st))
  else if String.prefix "vertex" line then
    v ← float3 (py_split line) 1;
    Ok (TextState (ts_normal st) (ts_verts st ++ [v]) (ts_tris st))
  else if String.prefix "endfacet" line then
    match ts_normal st, ts_verts st with
    | Some n, [a; b; c] => Ok (TextState (Some n) [a; b; c] (ts_tris st ++ [Tri n a b c]))
    | _, _ => Ok st
    end
  else Ok st.

Fixpoint run_lines (st : text_state) (lines : list string) : result text_state :=
  match lines with
  | [] => Ok st
  | l :: ls => st' ← text_step st l; run_lines st' ls
  end.

(** [read_ascii_stl] on the decoded text: the stripped first line as the
    header, and the triangles. *)
Definition read_ascii_stl (text : string) : result (string * list (triangle pyfloat)) :=
  let lines := py_readlines text in
  let header := match lines with [] => EmptyString | l :: _ => py_strip l end in
  st ← run_lines text_init lines;
  Ok (header, ts_tris st).

(** ** Lines built from tokens *)

(** A token of [str.split()]: non-empty, no white space. *)
Definition is_token (s : string) : bool :=
  negb (String.eqb s EmptyString) && forallb (λ c, negb (py_isspace c)) (list_ascii_of_string s).

(** [kw x y z], words separated by single spaces, as an exporter writes a
    [facet normal] or [vertex] line. *)
Definition vec_line (kw x y z : string) : string :=
  kw ++ " " ++ x ++ " " ++ y ++ " " ++ z.

(** The lines of a well-formed facet block; [n], [a], [b], [c] hold the
    three tokens of the normal and of each vertex. *)
Definition facet_lines (n a b c : string * string * string) : list string :=
  let '(nx, ny, nz) := n in let '(ax, ay, az) := a in
  let '(bx, by_, bz) := b in let '(cx, cy, cz) := c in
  [vec_line "facet normal" nx ny nz; "outer loop"; vec_line "vertex" ax ay az;
   vec_line "vertex" bx by_ bz; vec_line "vertex" cx cy cz; "endloop"; "endfacet"]%list.

(** Three tokens that [float()] reads as the vector [v]. *)
Definition tokens_of (t : string * string * string) (v : vec3 pyfloat) : Prop :=
  let '(x, y, z) := t in
  is_token x = true /\ is_token y = true /\ is_token z = true /\
  py_float x = Ok (vx v) /\ py_float y = Ok (vy v) /\ py_float z = Ok (vz v).

Definition nonspace_head (s : string) : bool :=
  match s with String c _ => negb (py_isspace c) | EmptyString => false end.

(** A facet block with only two [vertex] lines. *)
Definition facet_lines2 (n a b : string * string * string) : list string :=
  let '(nx, ny, nz) := n in let '(ax, ay, az) := a in let '(bx, by_, bz) := b in
  [vec_line "facet normal" nx ny nz; "outer loop"; vec_line "vertex" ax ay az;
   vec_line "vertex" bx by_ bz; "endloop"; "endfacet"]%list.

Definition count_endfacet (ls : list string) : nat :=
  length (List.filter (λ l, String.prefix "endfacet" (py_strip l)) ls).

(** Every float the parser holds is a double. *)
Definition st_double (st : text_state) : bool :=
  match ts_normal st with Some n => vec_double n | None => true end &&
  forallb vec_double (ts_verts st) && forallb tri_double (ts_tris st).

(** ** String lemmas *)

Lemma split_acc_app_space cur s t :
  split_acc cur (s ++ String " " t) = (split_acc cur s ++ split_acc [] t)%list.
Proof.
  revert cur. induction s as [|c s IH]; intros cur; simpl.
  - by destruct cur.
  - destruct (py_isspace c); [destruct cur|]; rewrite ?IH; done.
Qed.

Lemma py_split_app_space s t : py_split (s ++ String " " t) = (py_split s ++ py_split t)%list.
Proof. apply split_acc_app_space. Qed.

Lemma is_token_cons c s :
  is_token (String c s) = negb (py_isspace c) && forallb (λ c, negb (py_isspace c)) (list_ascii_of_string s).
Proof. reflexivity. Qed.

Lemma split_acc_word cur s :
  forallb (λ c, negb (py_isspace c)) (list_ascii_of_string s) = true ->
  cur <> [] \/ s <> EmptyString ->
  split_acc cur s = [string_of_list_ascii (rev cur ++ list_ascii_of_string s)%list].
Proof.
  revert cur. induction s as [|c s IH]; intros cur H Hne; simpl in *.
  - destruct cur; [by destruct Hne|]. by rewrite app_nil_r.
  - apply andb_prop in H as [Hc Hs]. destruct (py_isspace c); [discriminate|].
    rewrite IH by (auto || (left; discriminate)). simpl. by rewrite <-app_assoc.
Qed.

Lemma py_split_token s : is_token s = true -> py_split s = [s].
Proof.
  intros H. destruct s as [|c s]; [discriminate|].
  unfold py_split. rewrite split_acc_word by (apply andb_prop in H; tauto || (right; discriminate)).
  simpl. by rewrite string_of_list_ascii_of_string.
Qed.

Lemma prefix_app p s : String.prefix p (p ++ s) = true.
Proof.
  induction p as [|c p IH]; simpl; [by destruct s|].
  destruct (ascii_dec c c); [done|congruence].
Qed.

Lemma py_split_app_sp s t : py_split (s ++ " " ++ t) = (py_split s ++ py_split t)%list.
Proof. apply split_acc_app_space. Qed.

Lemma list_ascii_app s t :
  list_ascii_of_string (s ++ t) = (list_ascii_of_string s ++ list_ascii_of_string t)%list.
Proof. induction s; simpl; congruence. Qed.

Lemma rev_string_involutive s : rev_string (rev_string s) = s.
Proof.
  unfold rev_string. by rewrite list_ascii_of_string_of_list_ascii, rev_involutive,
    string_of_list_ascii_of_string.
Qed.

Lemma string_of_list_app l1 l2 :
  string_of_list_ascii (l1 ++ l2)%list = string_of_list_ascii l1 ++ string_of_list_ascii l2.
Proof. induction l1; simpl; congruence. Qed.

Lemma rev_string_app s t : rev_string (s ++ t) = rev_string t ++ rev_string s.
Proof. unfold rev_string. by rewrite list_ascii_app, rev_app_distr, string_of_list_app. Qed.

Lemma string_app_assoc s t u : s ++ (t ++ u) = (s ++ t) ++ u.
Proof. induction s; simpl; congruence. Qed.

Lemma lstrip_nonspace s : nonspace_head s = true -> lstrip_ws s = s.
Proof. destruct s as [|c s]; simpl; [done|]. by destruct (py_isspace c). Qed.

(** [str.strip] leaves a line alone when its first and last characters
    are not white space. *)
Lemma py_strip_id s :
  nonspace_head s = true -> nonspace_head (rev_string s) = true -> py_strip s = s.
Proof.
  intros H1 H2. unfold py_strip. rewrite (lstrip_nonspace s H1), (lstrip_nonspace _ H2).
  apply rev_string_involutive.
Qed.

Lemma token_last s : is_token s = true -> nonspace_head (rev_string s) = true.
Proof.
  intros H. unfold is_token in H. apply andb_prop in H as [Hne Hall].
  unfold rev_string. destruct (rev (list_ascii_of_string s)) as [|c r] eqn:E.
  - apply (f_equal (@rev _)) in E. rewrite rev_involutive in E. by destruct s.
  - simpl. apply forallb_forall with (x := c) in Hall; [exact Hall|].
    apply in_rev. rewrite E. by left.
Qed.

Lemma nonspace_head_app s t : nonspace_head s = true -> nonspace_head (s ++ t) = true.
Proof. by destruct s. Qed.

(** A [vec_line] of tokens is its own [strip()], and [split()] gives back
    the keyword's words and the three tokens. *)
Lemma py_strip_vec_line kw x y z :
  nonspace_head kw = true -> is_token z = true -> py_strip (vec_line kw x y z) = vec_line kw x y z.
Proof.
  intros Hk Hz. apply py_strip_id; [by apply nonspace_head_app|].
  unfold vec_line. rewrite !string_app_assoc, rev_string_app.
  by apply nonspace_head_app, token_last.
Qed.

Lemma float3_tokens pre i x y z v :
  length pre = i -> tokens_of (x, y, z) v -> float3 (pre ++ [x; y; z])%list i = Ok v.
Proof.
  intros <- (_ & _ & _ & Hx & Hy & Hz). induction pre as [|p pre IH]; [|exact IH].
  unfold float3, py_index. simpl. rewrite Hx, Hy, Hz. by destruct v.
Qed.

Lemma split_vec_line kw x y z :
  is_token x = true -> is_token y = true -> is_token z = true ->
  py_split (vec_line kw x y z) = (py_split kw ++ [x; y; z])%list.
Proof.
  intros Hx Hy Hz. unfold vec_line.
  by rewrite !py_split_app_sp, (py_split_token x), (py_split_token y), (py_split_token z).
Qed.

Lemma step_facet_normal st x y z v :
  tokens_of (x, y, z) v ->
  text_step st (vec_line "facet normal" x y z) = Ok (TextState (Some v) [] (ts_tris st)).
Proof.
  intros Hv. pose proof Hv as (Hx & Hy & Hz & _).
  unfold text_step. rewrite py_strip_vec_line, split_vec_line by done.
  unfold vec_line at 1. rewrite prefix_app.
  change (py_split "facet normal") with ["facet"; "normal"].
  by rewrite (float3_tokens _ _ x y z v).
Qed.

Lemma step_vertex st x y z v :
  tokens_of (x, y, z) v ->
  text_step st (vec_line "vertex" x y z)
  = Ok (TextState (ts_normal st) (ts_verts st ++ [v]) (ts_tris st)).
Proof.
  intros Hv. pose proof Hv as (Hx & Hy & Hz & _).
  unfold text_step. rewrite py_strip_vec_line, split_vec_line by done.
  unfold vec_line at 1 2. rewrite prefix_app. simpl String.prefix.
  change (py_split "vertex") with ["vertex"]. cbv iota.
  by rewrite (float3_tokens _ _ x y z v).
Qed.

(** A line that starts with none of the three directives changes nothing. *)
Lemma step_ignored st l :
  String.prefix "facet normal" (py_strip l) = false ->
  String.prefix "vertex" (py_strip l) = false ->
  String.prefix "endfacet" (py_strip l) = false -> text_step st l = Ok st.
Proof. intros H1 H2 H3. unfold text_step. by rewrite H1, H2, H3. Qed.

Lemma step_endfacet st n a b c :
  ts_normal st = Some n -> ts_verts st = [a; b; c] ->
  text_step st "endfacet" = Ok (TextState (Some n) [a; b; c] (ts_tris st ++ [Tri n a b c])).
Proof. intros Hn Hv. unfold text_step. simpl. by rewrite Hn, Hv. Qed.

Lemma run_lines_app st l1 l2 :
  run_lines st (l1 ++ l2) = (st' ← run_lines st l1; run_lines st' l2).
Proof.
  revert st. induction l1 as [|l l1 IH]; intros st; simpl; [done|].
  destruct (text_step st l); simpl; auto.
Qed.

Lemma facet_block_steps st tn ta tb tc n a b c :
  tokens_of tn n -> tokens_of ta a -> tokens_of tb b -> tokens_of tc c ->
  run_lines st (facet_lines tn ta tb tc)
  = Ok (TextState (Some n) [a; b; c] (ts_tris st ++ [Tri n a b c])).
Proof.
  destruct tn as [[nx ny] nz], ta as [[ax ay] az], tb as [[bx by_] bz], tc as [[cx cy] cz].
  intros Hn Ha Hb Hc. unfold facet_lines. cbn [run_lines].
  rewrite (step_facet_normal _ _ _ _ _ Hn). cbn [mbind result_bind].
  rewrite step_ignored by reflexivity. cbn [mbind result_bind].
  rewrite (step_vertex _ _ _ _ _ Ha). cbn [mbind result_bind ts_normal ts_verts ts_tris].
  rewrite (step_vertex _ _ _ _ _ Hb). cbn [mbind result_bind ts_normal ts_verts ts_tris].
  rewrite (step_vertex _ _ _ _ _ Hc). cbn [mbind result_bind ts_normal ts_verts ts_tris].
  rewrite step_ignored by reflexivity. cbn [mbind result_bind].
  by rewrite (step_endfacet _ n a b c).
Qed.

(** (C8) A well-formed facet block, whatever the state before it, appends
    exactly its triangle and leaves its normal and vertices as the current
    ones. *)
Theorem run_facet_block st tn ta tb tc n a b c :
  tokens_of tn n -> tokens_of ta a -> tokens_of tb b -> tokens_of tc c ->
  run_lines st (facet_lines tn ta tb tc)
  = Ok (TextState (Some n) [a; b; c] (ts_tris st ++ [Tri n a b c])).
Proof. apply facet_block_steps. Qed.

(** (C9) A facet block with two vertices produces no triangle and raises
    nothing: the malformed facet is dropped silently. *)
Theorem run_facet_two_vertices st tn ta tb n a b :
  tokens_of tn n -> tokens_of ta a -> tokens_of tb b ->
  run_lines st (facet_lines2 tn ta tb) = Ok (TextState (Some n) [a; b] (ts_tris st)).
Proof.
  destruct tn as [[nx ny] nz], ta as [[ax ay] az], tb as [[bx by_] bz].
  intros Hn Ha Hb. unfold facet_lines2. cbn [run_lines].
  rewrite (step_facet_normal _ _ _ _ _ Hn). cbn [mbind result_bind].
  rewrite step_ignored by reflexivity. cbn [mbind result_bind].
  rewrite (step_vertex _ _ _ _ _ Ha). cbn [mbind result_bind ts_normal ts_verts ts_tris].
  rewrite (step_vertex _ _ _ _ _ Hb). cbn [mbind result_bind ts_normal ts_verts ts_tris].
  rewrite step_ignored by reflexivity. cbn [mbind result_bind].
  reflexivity.
Qed.

(** (C10) The parser does not reset its accumulator at [endfacet]: a second
    [endfacet] line after a facet appends the same triangle again. *)
Theorem run_repeated_endfacet st tn ta tb tc n a b c :
  tokens_of tn n -> tokens_of ta a -> tokens_of tb b -> tokens_of tc c ->
  run_lines st (facet_lines tn ta tb tc ++ ["endfacet"])
  = Ok (TextState (Some n) [a; b; c] (ts_tris st ++ [Tri n a b c; Tri n a b c])).
Proof.
  intros Hn Ha Hb Hc. rewrite run_lines_app, (facet_block_steps _ _ _ _ _ n a b c) by done.
  cbn [mbind result_bind run_lines].
  rewrite (step_endfacet _ n a b c) by done. cbn [mbind result_bind ts_tris].
  by rewrite <-app_assoc.
Qed.

(** (C11) A [facet normal] line with two components raises [IndexError]
    ([parts[4]] does not exist): the whole read fails instead of dropping
    the facet. *)
Theorem step_short_normal st x y fx fy :
  is_token x = true -> is_token y = true -> py_float x = Ok fx -> py_float y = Ok fy ->
  text_step st ("facet normal" ++ " " ++ x ++ " " ++ y) = Raise IndexError.
Proof.
  intros Hx Hy Hfx Hfy. unfold text_step.
  rewrite py_strip_id.
  2: { apply nonspace_head_app. reflexivity. }
  2: { rewrite !string_app_assoc, rev_string_app. by apply nonspace_head_app, token_last. }
  rewrite prefix_app, !py_split_app_sp, (py_split_token x), (py_split_token y) by done.
  unfold float3, py_index. simpl. by rewrite Hfx, Hfy.
Qed.

Lemma step_tris st l st' :
  text_step st l = Ok st' ->
  exists new, ts_tris st' = (ts_tris st ++ new)%list /\
    (length new <= if String.prefix "endfacet" (py_strip l) then 1 else 0)%nat.
Proof.
  assert (Hnone : forall s : list (triangle pyfloat), exists new, s = (s ++ new)%list /\
            (length new <= if String.prefix "endfacet" (py_strip l) then 1 else 0)%nat).
  { intros s. exists []. rewrite app_nil_r. split; [done|]. case_match; simpl; lia. }
  unfold text_step.
  destruct (String.prefix "facet normal" _);
    [intros (v & _ & [= <-])%result_bind_eq_ok; apply Hnone|].
  destruct (String.prefix "vertex" _);
    [intros (v & _ & [= <-])%result_bind_eq_ok; apply Hnone|].
  destruct (String.prefix "endfacet" (py_strip l)) eqn:E; [|intros [= <-]; apply Hnone].
  destruct (ts_normal st) as [n|], (ts_verts st) as [|a [|b [|c [|]]]];
    intros [= <-]; try apply Hnone.
  eexists [_]. simpl. split; [done|lia].
Qed.

(** (C12) Invariant of the loop: the triangle list only grows at its end,
    and by at most one triangle per [endfacet] line. *)
Theorem run_lines_tris st ls st' :
  run_lines st ls = Ok st' ->
  exists new, ts_tris st' = (ts_tris st ++ new)%list /\ (length new <= count_endfacet ls)%nat.
Proof.
  revert st. induction ls as [|l ls IH]; intros st H; simpl in H.
  - injection H as <-. exists []. by rewrite app_nil_r.
  - apply result_bind_eq_ok in H as (s1 & Hs1 & Hrest).
    destruct (step_tris _ _ _ Hs1) as (n1 & E1 & L1).
    destruct (IH _ Hrest) as (n2 & E2 & L2).
    exists (n1 ++ n2)%list. rewrite E2, E1, app_assoc. split; [done|].
    unfold count_endfacet in *. rewrite length_app. simpl List.filter.
    destruct (String.prefix "endfacet" (py_strip l)); simpl length; lia.
Qed.

(** ** The floats [float()] returns are doubles *)

Lemma double_of_decimal_double q : pf_double (double_of_decimal q) = true.
Proof.
  unfold double_of_decimal. destruct (f64_of_Q q) as [s|s| |s m e] eqn:E; try done; cbn [pf_double].
  apply (is_double_finite s m e); [exact (f64_of_Q_bounded q s m e E)|]. symmetry. apply Qred_correct.
Qed.

Lemma py_float_double s p : py_float s = Ok p -> pf_double p = true.
Proof.
  unfold py_float, parse_float. destruct (sign_of s) as [neg r].
  destruct (String.eqb _ "inf" || _); [by intros [= <-]|].
  destruct (String.eqb _ "nan"); [by intros [= <-]|].
  destruct (parse_decimal r); [intros [= <-]; apply double_of_decimal_double|discriminate].
Qed.

Lemma float3_double parts i v : float3 parts i = Ok v -> vec_double v = true.
Proof.
  unfold float3.
  intros (x & (a & _ & Hx)%result_bind_eq_ok & (y & (b & _ & Hy)%result_bind_eq_ok &
    (z & (c & _ & Hz)%result_bind_eq_ok & [= <-])%result_bind_eq_ok)%result_bind_eq_ok)%result_bind_eq_ok.
  unfold vec_double. simpl. by rewrite (py_float_double _ _ Hx), (py_float_double _ _ Hy), (py_float_double _ _ Hz).
Qed.

Lemma text_step_double st l st' : st_double st = true -> text_step st l = Ok st' -> st_double st' = true.
Proof.
  unfold st_double. intros H. apply andb_prop in H as [H Ht]. apply andb_prop in H as [Hn Hv].
  unfold text_step.
  destruct (String.prefix "facet normal" _).
  { intros (n & Hf%float3_double & [= <-])%result_bind_eq_ok. simpl. by rewrite Hf, Ht. }
  destruct (String.prefix "vertex" _).
  { intros (v & Hf%float3_double & [= <-])%result_bind_eq_ok. simpl.
    by rewrite Hn, forallb_app, Hv, Ht; simpl; rewrite Hf. }
  destruct (String.prefix "endfacet" _); [|intros [= <-]; by rewrite Hn, Hv, Ht].
  destruct (ts_normal st) as [n|] eqn:En, (ts_verts st) as [|a [|b [|c [|]]]] eqn:Ev;
    intros [= <-]; rewrite ?En, ?Ev, ?Hn, ?Hv, ?Ht; try done.
  simpl in Hv |- *. rewrite forallb_app, Ht, Hn. simpl. unfold tri_double. simpl.
  rewrite !andb_true_r in Hv |- *. apply andb_prop in Hv as [-> [-> ->]%andb_prop]. by rewrite Hn.
Qed.

Lemma run_lines_double st ls st' : st_double st = true -> run_lines st ls = Ok st' -> st_double st' = true.
Proof.
  revert st. induction ls as [|l ls IH]; intros st Hst H; simpl in H.
  - by injection H as <-.
  - apply result_bind_eq_ok in H as (s1 & Hs1 & Hrest). exact (IH _ (text_step_double _ _ _ Hst Hs1) Hrest).
Qed.

(** The triangles [read_ascii_stl] returns hold doubles only. *)
Lemma read_ascii_stl_double text h ts :
  read_ascii_stl text = Ok (h, ts) -> forallb tri_double ts = true.
Proof.
  unfold read_ascii_stl. intros (st & Hst & [= _ <-])%result_bind_eq_ok.
  apply run_lines_double in Hst; [|done]. unfold st_double in Hst. by apply andb_prop in Hst as [_ ->].
Qed.

(** ** Witnesses *)

Definition tk_n : string * string * string := ("0", "0", "1").
Definition tk_a : string * string * string := ("0", "0", "0").
Definition tk_b : string * string * string := ("1.5", "0", "0").
Definition tk_c : string * string * string := ("0", "2e0", "-0.0").
Definition pv (x y z : Q) : vec3 pyfloat := Vec3 (PFin x) (PFin y) (PFin z).

Lemma run_facet_block_witness :
  run_lines text_init (facet_lines tk_n tk_a tk_b tk_c)
  = Ok (TextState (Some (pv 0 0 1)) [pv 0 0 0; pv (3 # 2) 0 0; pv 0 2 0]
          [Tri (pv 0 0 1) (pv 0 0 0) (pv (3 # 2) 0 0) (pv 0 2 0)]).
Proof. apply run_facet_block; vm_compute; repeat split. Defined.

Lemma run_facet_two_vertices_witness :
  run_lines text_init (facet_lines2 tk_n tk_a tk_b)
  = Ok (TextState (Some (pv 0 0 1)) [pv 0 0 0; pv (3 # 2) 0 0] []).
Proof. apply run_facet_two_vertices; vm_compute; repeat split. Defined.

Lemma run_repeated_endfacet_witness :
  run_lines text_init (facet_lines tk_n tk_a tk_b tk_c ++ ["endfacet"])
  = Ok (TextState (Some (pv 0 0 1)) [pv 0 0 0; pv (3 # 2) 0 0; pv 0 2 0]
          [Tri (pv 0 0 1) (pv 0 0 0) (pv (3 # 2) 0 0) (pv 0 2 0);
           Tri (pv 0 0 1) (pv 0 0 0) (pv (3 # 2) 0 0) (pv 0 2 0)]).
Proof. apply run_repeated_endfacet; vm_compute; repeat split. Defined.

Lemma step_short_normal_witness :
  text_step text_init ("facet normal" ++ " " ++ "0" ++ " " ++ "1") = Raise IndexError.
Proof. apply (step_short_normal _ _ _ (PFin 0) (PFin 1)); vm_compute; reflexivity. Defined.

Lemma run_lines_tris_witness :
  exists new, ts_tris (TextState (Some (pv 0 0 1)) [pv 0 0 0; pv (3 # 2) 0 0; pv 0 2 0]
                  [Tri (pv 0 0 1) (pv 0 0 0) (pv (3 # 2) 0 0) (pv 0 2 0)])
              = (ts_tris text_init ++ new)%list /\
    (length new <= count_endfacet (facet_lines tk_n tk_a tk_b tk_c))%nat.
Proof. apply (run_lines_tris text_init (facet_lines tk_n tk_a tk_b tk_c)). vm_compute. reflexivity. Defined.
