(* ===== verification/StlLoader.v ===== *)
(** * StlLoader: format detection and dispatch (analyze-stl.py lines 46-50, 177-186)

    [is_ascii_stl] reads the first 80 bytes, strips leading white space
    with [bytes.lstrip()] (which knows only the six ASCII white-space
    bytes), and answers text when they start with [b"solid"] and hold no
    NUL byte.  [analyze] then calls [read_ascii_stl] on the text of the file
    or [read_binary_stl] on its bytes, and stops on an empty triangle list. *)

From S2P Require Import Prelude Mesh StlBinary StlText.

(** [bytes.isspace] on one byte: tab, line feed, vertical tab, form feed,
    carriage return and space. *)
Definition byte_isspace (b : Byte.byte) : bool :=
  let n := Byte.to_nat b in (Nat.leb 9 n && Nat.leb n 13) || Nat.eqb n 32.

Fixpoint lstrip_bytes (l : list Byte.byte) : list Byte.byte :=
  match l with
  | b :: r => if byte_isspace b then lstrip_bytes r else l
  | [] => []
  end.

Fixpoint bytes_prefix (p l : list Byte.byte) : bool :=
  match p, l with
  | [], _ => true
  | b :: p', c :: l' => Byte.eqb b c && bytes_prefix p' l'
  | _ :: _, [] => false
  end.

Definition is_nul (b : Byte.byte) : bool := (Byte.to_N b =? 0)%N.

Definition solid_bytes : list Byte.byte := list_byte_of_string "solid".

(** [start = f.read(80).lstrip()]; [start.startswith(b"solid") and
    b"\x00" not in start]. *)
Definition is_ascii_stl (data : list Byte.byte) : bool :=
  let start := lstrip_bytes (take 80 data) in
  bytes_prefix solid_bytes start && negb (existsb is_nul start).

Inductive stl_format := AsciiFmt | BinaryFmt.

(** Lines 177-182: the format test and the matching reader; the text
    reader sees the bytes as characters. *)
Definition load_stl (data : list Byte.byte) : result (stl_format * list (triangle pyfloat)) :=
  if is_ascii_stl data then
    '(_, tris) ← read_ascii_stl (string_of_list_byte data); Ok (AsciiFmt, tris)
  else
    '(_, tris) ← read_binary_stl data; Ok (BinaryFmt, tris).

(** ** Lemmas *)

Lemma lstrip_bytes_suffix l : exists p, l = p ++ lstrip_bytes l.
Proof.
  induction l as [|b l [p IH]]; simpl; [by exists []|].
  destruct (byte_isspace b); [exists (b :: p); simpl; congruence|by exists []].
Qed.

Lemma nul_not_space b : is_nul b = true -> byte_isspace b = false.
Proof. destruct b; done. Qed.

Lemma lstrip_bytes_keeps_nul l b : In b l -> is_nul b = true -> In b (lstrip_bytes l).
Proof.
  intros Hin Hn. induction l as [|c l IH]; [done|]. simpl.
  destruct Hin as [<-|Hin].
  - by rewrite (nul_not_space _ Hn); left.
  - destruct (byte_isspace c); [by apply IH|by right].
Qed.

(** A NUL byte anywhere in the first 80 bytes makes the file binary. *)
Lemma nul_forces_binary data b :
  In b (take 80 data) -> is_nul b = true -> is_ascii_stl data = false.
Proof.
  intros Hin Hn. unfold is_ascii_stl.
  assert (existsb is_nul (lstrip_bytes (take 80 data)) = true) as ->.
  { apply existsb_exists. exists b. split; [by apply lstrip_bytes_keeps_nul|done]. }
  by rewrite andb_false_r.
Qed.

(** The spec's case of a text-looking header: a file that starts with
    [solid] followed by a NUL byte is classified binary, whatever follows. *)
Theorem is_ascii_stl_solid_nul rest :
  is_ascii_stl (solid_bytes ++ Byte.x00 :: rest) = false.
Proof.
  apply (nul_forces_binary _ Byte.x00); [|done].
  simpl. tauto.
Qed.

(** (C6) A file whose 80-byte header holds a NUL byte is read as binary by
    the loader: the round trip of [StlBinary] holds through [load_stl]. *)
Theorem load_stl_binary header ts b :
  length header = 80%nat -> In b header -> is_nul b = true ->
  (Z.of_nat (length ts) < 2 ^ 32)%Z -> Forall words_ok ts ->
  load_stl (write_binary_stl header (Z.of_nat (length ts)) ts)
  = Ok (BinaryFmt, map (tri_map f32_decode) ts).
Proof.
  intros Hh Hb Hn Hc Hok. unfold load_stl.
  rewrite (nul_forces_binary _ b); [|unfold write_binary_stl; by rewrite take_app_length'|done].
  rewrite <-(app_nil_r (write_binary_stl _ _ _)).
  rewrite read_binary_stl_file by (simpl; lia || done).
  by rewrite Nat2Z.id, take_ge by lia.
Qed.

Lemma lstrip_bytes_solid l : bytes_prefix solid_bytes l = true -> lstrip_bytes l = l.
Proof. destruct l as [|b l]; [done|]. simpl. by destruct b. Qed.

(** (C7) A binary file is taken for a text file when its 80-byte header
    starts with [solid] and holds no NUL byte, whatever its count and
    records: exporters that write [solid <name>] into binary headers get
    their files read by the text reader. *)
Theorem binary_solid_header_is_text header count ts :
  length header = 80%nat -> bytes_prefix solid_bytes header = true -> existsb is_nul header = false ->
  is_ascii_stl (write_binary_stl header count ts) = true.
Proof.
  intros Hh Hs Hn. unfold is_ascii_stl, write_binary_stl.
  rewrite take_app_length' by done. by rewrite lstrip_bytes_solid, Hs, Hn.
Qed.


(** ** Witnesses *)

Definition nul_header : list Byte.byte := repeat Byte.x00 80.

Lemma load_stl_binary_witness :
  load_stl (write_binary_stl nul_header 1 [sample_tri]) = Ok (BinaryFmt, [tri_map f32_decode sample_tri]).
Proof.
  apply (load_stl_binary nul_header [sample_tri] Byte.x00);
    [reflexivity|simpl; by left|reflexivity|simpl; lia|].
  apply List.Forall_cons; [apply sample_tri_ok|apply List.Forall_nil].
Defined.

(** A binary file with the header [solid] and one triangle whose bytes are
    all ASCII ([2.0] is the word [0x40000000]): the binary reader finds the
    triangle, but the loader reads the file as text and finds none. *)
Definition solid_header : list Byte.byte := solid_bytes ++ repeat Byte.x20 75.

Definition two_tri : triangle Z := (Tri (Vec3 0 0 1073741824) (Vec3 0 0 0) (Vec3 1073741824 0 0) (Vec3 0 1073741824 0))%Z.

Lemma binary_solid_header_is_text_witness :
  is_ascii_stl (write_binary_stl solid_header 1 [two_tri]) = true /\
  load_stl (write_binary_stl solid_header 1 [two_tri]) = Ok (AsciiFmt, []) /\
  read_binary_stl (write_binary_stl solid_header 1 [two_tri]) = Ok (solid_header, [tri_map f32_decode two_tri]).
Proof.
  split; [apply binary_solid_header_is_text; reflexivity|].
  split; vm_compute; reflexivity.
Defined.

(** A text file whose vertex [0.1] is read as the double nearest a
    tenth, [3602879701896397 * 2^-55]. *)
Definition nl : string := String "010"%char EmptyString.

Definition tenth_stl : list Byte.byte :=
  list_byte_of_string ("solid t" ++ nl ++ "facet normal 0 0 1" ++ nl ++ "outer loop" ++ nl ++
    "vertex 0.1 0 0" ++ nl ++ "vertex 0 1 0" ++ nl ++ "vertex 0 0 1e400" ++ nl ++
    "endloop" ++ nl ++ "endfacet" ++ nl ++ "endsolid t").

Definition tenth_tri : triangle pyfloat :=
  Tri (Vec3 (PFin 0) (PFin 0) (PFin 1)) (Vec3 (PFin lit_0_1) (PFin 0) (PFin 0))
      (Vec3 (PFin 0) (PFin 1) (PFin 0)) (Vec3 (PFin 0) (PFin 0) (PInf false)).

