(* ===== verification/Metrics.v ===== *)
(** * Metrics: bounding box, face normals, Z histogram (analyze-stl.py lines 188-248)

    On a finite mesh ([list (triangle Q)]): the bounding box from Python's
    [min] and [max] over the coordinate lists of [all_verts]
    (lines 189-197); the classification of each triangle by the z
    component of its stored normal, against the doubles [0.9] and [0.1]
    (lines 213-223); and the histogram of vertex heights rounded to one
    decimal, a dict modelled as a [gmap] keyed by the number of tenths
    (lines 236-239). *)

From S2P Require Import Prelude Mesh.
From stdpp Require Import gmap.

(** ** Bounding box *)

Record bbox := BBox {
  min_x : Q; max_x : Q; min_y : Q; max_y : Q; min_z : Q; max_z : Q
}.

(** [xs = [v[0] for v in all_verts]] and so on, then [min] and [max];
    [None] stands for the [ValueError] of [min] on an empty list. *)
Definition bounding_box (ts : list (triangle Q)) : option bbox :=
  let av := all_verts ts in
  let xs := map vx av in let ys := map vy av in let zs := map vz av in
  mnx ← py_min Qltb xs; mxx ← py_max Qltb xs;
  mny ← py_min Qltb ys; mxy ← py_max Qltb ys;
  mnz ← py_min Qltb zs; mxz ← py_max Qltb zs;
  Some (BBox mnx mxx mny mxy mnz mxz).

Definition in_bbox (b : bbox) (v : vec3 Q) : Prop :=
  (min_x b <= vx v <= max_x b /\ min_y b <= vy v <= max_y b /\ min_z b <= vz v <= max_z b)%Q.

(** ** Face-normal classification *)

Inductive normal_class := Top | Bottom | Vertical | Angled.

(** The [if]/[elif] chain of lines 216-223 on [nz = tri[0][2]]. *)
Definition classify_normal (nz : Q) : normal_class :=
  if Qgtb nz lit_0_9 then Top
  else if Qltb nz (- lit_0_9) then Bottom
  else if Qltb (Qabs nz) lit_0_1 then Vertical
  else Angled.

Record normal_counts := NormalCounts { n_top : nat; n_bottom : nat; n_vertical : nat; n_angled : nat }.

Definition bump (c : normal_counts) (k : normal_class) : normal_counts :=
  match k with
  | Top => NormalCounts (S (n_top c)) (n_bottom c) (n_vertical c) (n_angled c)
  | Bottom => NormalCounts (n_top c) (S (n_bottom c)) (n_vertical c) (n_angled c)
  | Vertical => NormalCounts (n_top c) (n_bottom c) (S (n_vertical c)) (n_angled c)
  | Angled => NormalCounts (n_top c) (n_bottom c) (n_vertical c) (S (n_angled c))
  end.

(** [top = bottom = vertical = angled = 0; for tri in triangles: ...]. *)
Definition count_normals (ts : list (triangle Q)) : normal_counts :=
  fold_left (λ c t, bump c (classify_normal (vz (normal t)))) ts (NormalCounts 0 0 0 0).

Definition class_count (c : normal_counts) (k : normal_class) : nat :=
  match k with Top => n_top c | Bottom => n_bottom c | Vertical => n_vertical c | Angled => n_angled c end.

#[export] Instance normal_class_eq_dec : EqDecision normal_class.
Proof. solve_decision. Defined.

(** ** Z histogram *)

(** [z_hist[zr] = z_hist.get(zr, 0) + 1] for [zr = round(v[2], 1)]. *)
Definition z_hist (av : list (vec3 Q)) : gmap Z nat :=
  fold_left (λ h v, let k := py_round1 (vz v) in <[k := default 0 (h !! k) + 1]> h) av ∅.

Definition total (c : normal_counts) : nat := n_top c + n_bottom c + n_vertical c + n_angled c.

(** ** Lemmas and theorems *)

(** Every vertex of the mesh lies in the bounding box, bounds
    included. *)
Theorem bounding_box_contains ts b v :
  bounding_box ts = Some b -> In v (all_verts ts) -> in_bbox b v.
Proof.
  unfold bounding_box. intros H Hv.
  destruct (py_min _ (map vx _)) as [mnx|] eqn:E1; [|done]; simpl in H.
  destruct (py_max _ (map vx _)) as [mxx|] eqn:E2; [|done]; simpl in H.
  destruct (py_min _ (map vy _)) as [mny|] eqn:E3; [|done]; simpl in H.
  destruct (py_max _ (map vy _)) as [mxy|] eqn:E4; [|done]; simpl in H.
  destruct (py_min _ (map vz _)) as [mnz|] eqn:E5; [|done]; simpl in H.
  destruct (py_max _ (map vz _)) as [mxz|] eqn:E6; [|done]; simpl in H.
  injection H as <-. unfold in_bbox; simpl.
  repeat split; eauto using in_map with stl.
Qed.

Lemma py_min_map_in {A} (f : A -> Q) l m :
  py_min Qltb (map f l) = Some m -> exists a, In a l /\ f a = m.
Proof.
  intros H. destruct (py_min_spec Qltb _ _ H) as [Hin _].
  apply in_map_iff in Hin as (a & <- & Ha). eauto.
Qed.

Lemma py_max_map_in {A} (f : A -> Q) l m :
  py_max Qltb (map f l) = Some m -> exists a, In a l /\ f a = m.
Proof.
  intros H. destruct (py_max_spec Qltb _ _ H) as [Hin _].
  apply in_map_iff in Hin as (a & <- & Ha). eauto.
Qed.

(** A non-empty mesh has a bounding box, and each of its six bounds is
    the coordinate of some vertex: the box is the tightest one. *)
Theorem bounding_box_tight ts :
  ts <> [] ->
  exists b, bounding_box ts = Some b /\
    (exists v, In v (all_verts ts) /\ vx v = min_x b) /\
    (exists v, In v (all_verts ts) /\ vx v = max_x b) /\
    (exists v, In v (all_verts ts) /\ vy v = min_y b) /\
    (exists v, In v (all_verts ts) /\ vy v = max_y b) /\
    (exists v, In v (all_verts ts) /\ vz v = min_z b) /\
    (exists v, In v (all_verts ts) /\ vz v = max_z b).
Proof.
  intros Hne. unfold bounding_box.
  assert (Hav : forall f : vec3 Q -> Q, map f (all_verts ts) <> []).
  { destruct ts as [|t ts]; [done|]. by destruct t. }
  destruct (py_min_some Qltb _ (Hav vx)) as [mnx E1]. destruct (py_max_some Qltb _ (Hav vx)) as [mxx E2].
  destruct (py_min_some Qltb _ (Hav vy)) as [mny E3]. destruct (py_max_some Qltb _ (Hav vy)) as [mxy E4].
  destruct (py_min_some Qltb _ (Hav vz)) as [mnz E5]. destruct (py_max_some Qltb _ (Hav vz)) as [mxz E6].
  rewrite E1, E2, E3, E4, E5, E6. simpl. eexists. split; [reflexivity|]. simpl.
  repeat split; eauto using py_min_map_in, py_max_map_in.
Qed.

Lemma class_count_bump c k k' :
  class_count (bump c k) k' = (class_count c k' + if decide (k = k') then 1 else 0)%nat.
Proof. destruct k, k'; simpl; lia. Qed.

Lemma count_normals_acc ts c k :
  class_count (fold_left (λ c t, bump c (classify_normal (vz (normal t)))) ts c) k
  = (class_count c k + length (List.filter (λ t, bool_decide (classify_normal (vz (normal t)) = k)) ts))%nat.
Proof.
  revert c. induction ts as [|t ts IH]; intros c; simpl; [lia|].
  rewrite IH, class_count_bump. case_decide; case_bool_decide; simpl; try done; lia.
Qed.

Lemma total_bump c k : total (bump c k) = S (total c).
Proof. destruct k; unfold total; simpl; lia. Qed.

Lemma count_normals_total ts : total (count_normals ts) = length ts.
Proof.
  unfold count_normals. change (length ts) with (total (NormalCounts 0 0 0 0) + length ts)%nat.
  generalize (NormalCounts 0 0 0 0) as c0.
  induction ts as [|t ts IH]; intros c0; simpl; [lia|]. rewrite IH, total_bump. lia.
Qed.

(** (C22) Each counter of the classification loop is the number of
    triangles its class holds, and the four counters partition the
    triangles: top, bottom, vertical and angled add up to the number of
    triangles. *)
Theorem count_normals_spec ts :
  (forall k, class_count (count_normals ts) k
             = length (List.filter (λ t, bool_decide (classify_normal (vz (normal t)) = k)) ts)) /\
  (n_top (count_normals ts) + n_bottom (count_normals ts) + n_vertical (count_normals ts)
   + n_angled (count_normals ts))%nat = length ts.
Proof.
  split; [|exact (count_normals_total ts)].
  intros k. unfold count_normals. rewrite count_normals_acc. by destruct k.
Qed.

(** (C23) The thresholds of the classification: a normal is top-facing
    exactly when [nz > 0.9], bottom-facing exactly when [nz < -0.9], and
    vertical exactly when [|nz| < 0.1]; every other normal is angled. *)
Theorem classify_normal_spec nz :
  (classify_normal nz = Top <-> lit_0_9 < nz)%Q /\
  (classify_normal nz = Bottom <-> nz < - lit_0_9)%Q /\
  (classify_normal nz = Vertical <-> Qabs nz < lit_0_1)%Q /\
  (classify_normal nz = Angled <-> lit_0_1 <= Qabs nz /\ - lit_0_9 <= nz <= lit_0_9)%Q.
Proof.
  unfold classify_normal.
  assert (Habs : (Qabs nz == nz /\ 0 <= nz \/ Qabs nz == - nz /\ nz <= 0)%Q).
  { apply Qabs_case; intros; [left|right]; split; (reflexivity || done). }
  unfold lit_0_9, lit_0_1.
  repeat qcase; repeat split; intros; try discriminate; try done; lra.
Qed.

Lemma z_hist_acc av (h : gmap Z nat) k :
  default 0 (fold_left (λ h v, let k := py_round1 (vz v) in <[k := default 0 (h !! k) + 1]> h) av h !! k)
  = (default 0 (h !! k) + length (List.filter (λ v, Z.eqb (py_round1 (vz v)) k) av))%nat.
Proof.
  revert h. induction av as [|v av IH]; intros h; simpl; [lia|].
  rewrite IH, lookup_insert.
  destruct (decide (py_round1 (vz v) = k)) as [<-|Hne].
  - rewrite Z.eqb_refl. simpl. lia.
  - apply Z.eqb_neq in Hne. rewrite Hne. done.
Qed.

Lemma z_hist_count av k :
  default 0 (z_hist av !! k) = length (List.filter (λ v, Z.eqb (py_round1 (vz v)) k) av).
Proof. unfold z_hist. by rewrite z_hist_acc, lookup_empty. Qed.

(** (C24) The histogram's bucket for [k] tenths counts exactly the vertices
    whose height rounds to [k / 10]: every vertex is counted, in one
    bucket, duplicates included. *)
Theorem z_hist_spec av k :
  default 0 (z_hist av !! k) = length (List.filter (λ v, Z.eqb (py_round1 (vz v)) k) av).
Proof. apply z_hist_count. Qed.

(** (C13) The bounding box of a non-empty mesh is the smallest box that
    holds its vertices: every vertex lies in it, and each of its six bounds
    is the coordinate of some vertex. *)
Theorem bounding_box_spec ts :
  ts <> [] ->
  exists b, bounding_box ts = Some b /\ (forall v, In v (all_verts ts) -> in_bbox b v) /\
    (exists v, In v (all_verts ts) /\ vx v = min_x b) /\
    (exists v, In v (all_verts ts) /\ vx v = max_x b) /\
    (exists v, In v (all_verts ts) /\ vy v = min_y b) /\
    (exists v, In v (all_verts ts) /\ vy v = max_y b) /\
    (exists v, In v (all_verts ts) /\ vz v = min_z b) /\
    (exists v, In v (all_verts ts) /\ vz v = max_z b).
Proof.
  intros Hts. destruct (bounding_box_tight ts Hts) as (b & Hb & Ht).
  exists b. split; [done|]. split; [|exact Ht].
  intros v Hv. by apply (bounding_box_contains ts b v).
Qed.

(** ** Witnesses *)

Local Open Scope Q_scope.

Definition unit_tri : triangle Q :=
  Tri (Vec3 0 0 1) (Vec3 0 0 0) (Vec3 1 0 0) (Vec3 0 1 0)%Q.

Lemma bounding_box_contains_witness : in_bbox (BBox 0 1 0 1 0 0) (Vec3 1 0 0)%Q.
Proof.
  apply (bounding_box_contains [unit_tri]); [vm_compute; reflexivity|simpl; tauto].
Defined.

Lemma bounding_box_tight_witness :
  exists b, bounding_box [unit_tri] = Some b /\
    (exists v, In v (all_verts [unit_tri]) /\ vx v = min_x b) /\
    (exists v, In v (all_verts [unit_tri]) /\ vx v = max_x b) /\
    (exists v, In v (all_verts [unit_tri]) /\ vy v = min_y b) /\
    (exists v, In v (all_verts [unit_tri]) /\ vy v = max_y b) /\
    (exists v, In v (all_verts [unit_tri]) /\ vz v = min_z b) /\
    (exists v, In v (all_verts [unit_tri]) /\ vz v = max_z b).
Proof. apply bounding_box_tight. discriminate. Defined.

Lemma bounding_box_spec_witness :
  exists b, bounding_box [unit_tri] = Some b /\ (forall v, In v (all_verts [unit_tri]) -> in_bbox b v) /\
    (exists v, In v (all_verts [unit_tri]) /\ vx v = min_x b) /\
    (exists v, In v (all_verts [unit_tri]) /\ vx v = max_x b) /\
    (exists v, In v (all_verts [unit_tri]) /\ vy v = min_y b) /\
    (exists v, In v (all_verts [unit_tri]) /\ vy v = max_y b) /\
    (exists v, In v (all_verts [unit_tri]) /\ vz v = min_z b) /\
    (exists v, In v (all_verts [unit_tri]) /\ vz v = max_z b).
Proof. apply bounding_box_spec. discriminate. Defined.
