(* ===== verification/Surfaces.v ===== *)
(** * Surfaces: [detect_surfaces] and its report (analyze-stl.py lines 109-123, 326-341)

    Each triangle's centroid height is rounded to one decimal; a triangle
    whose stored normal has [z > 0.9] is counted as floor at that height,
    one with [z < -0.9] as ceiling.  The code keeps [top_faces[avg_z]] as a
    dict with the single key ["total"]; the model keeps the total directly,
    in a [gmap] keyed by the number of tenths.  [avg_y] and [min_y] are
    computed and passed but never used.  The report lists, by ascending
    height, the heights whose count exceeds 5. *)

From S2P Require Import Prelude Mesh Metrics.
From stdpp Require Import gmap sorting.

Definition bump_key (m : gmap Z nat) (k : Z) : gmap Z nat := <[k := default 0 (m !! k) + 1]> m.

(** [round((tri[1][2] + tri[2][2] + tri[3][2]) / 3, 1)]. *)
Definition centroid_key (t : triangle Q) : Z :=
  py_round1 ((vz (v1 t) + vz (v2 t) + vz (v3 t)) / 3)%Q.

(** One iteration of the loop of lines 114-121, both dicts threaded
    together. *)
Definition surface_step (acc : gmap Z nat * gmap Z nat) (t : triangle Q) : gmap Z nat * gmap Z nat :=
  let avg_z := centroid_key t in
  if Qgtb (vz (normal t)) lit_0_9 then (bump_key acc.1 avg_z, acc.2)
  else if Qltb (vz (normal t)) (- lit_0_9) then (acc.1, bump_key acc.2 avg_z)
  else acc.

Definition detect_surfaces (ts : list (triangle Q)) (min_y : Q) : gmap Z nat * gmap Z nat :=
  fold_left surface_step ts (∅, ∅).

(** The order of [sorted(faces.keys())] on the entries. *)
Definition key_le (a b : Z * nat) : Prop := (a.1 <= b.1)%Z.

#[export] Instance key_le_dec : RelDecision key_le.
Proof. intros a b. unfold key_le. apply _. Defined.

(** [for z in sorted(faces.keys()): if faces[z]["total"] > 5: print(...)]. *)
Definition surface_levels (m : gmap Z nat) : list (Z * nat) :=
  List.filter (λ zc, Nat.ltb 5 zc.2) (merge_sort key_le (map_to_list m)).

(** ** Lemmas and theorems *)

Lemma bump_key_count m k k' :
  default 0 (bump_key m k !! k') = (default 0 (m !! k') + if Z.eqb k k' then 1 else 0)%nat.
Proof.
  unfold bump_key. rewrite lookup_insert.
  destruct (decide (k = k')) as [<-|Hne]; [rewrite Z.eqb_refl; simpl; lia|].
  apply Z.eqb_neq in Hne. rewrite Hne. lia.
Qed.

(** The step tests the same thresholds as [classify_normal]. *)
Lemma surface_step_class acc t :
  surface_step acc t = match classify_normal (vz (normal t)) with
    | Metrics.Top => (bump_key acc.1 (centroid_key t), acc.2)
    | Metrics.Bottom => (acc.1, bump_key acc.2 (centroid_key t))
    | _ => acc end.
Proof.
  unfold surface_step, classify_normal.
  destruct (Qgtb _ _); [done|]. destruct (Qltb _ _); [done|]. by destruct (Qltb _ _).
Qed.

Lemma detect_surfaces_acc (ts : list (triangle Q)) (acc : gmap Z nat * gmap Z nat) (k : Z) :
  default 0 ((fold_left surface_step ts acc).1 !! k) = (default 0 (acc.1 !! k) +
    length (List.filter (λ t, bool_decide (classify_normal (vz (normal t)) = Metrics.Top) && Z.eqb (centroid_key t) k) ts))%nat /\
  default 0 ((fold_left surface_step ts acc).2 !! k) = (default 0 (acc.2 !! k) +
    length (List.filter (λ t, bool_decide (classify_normal (vz (normal t)) = Metrics.Bottom) && Z.eqb (centroid_key t) k) ts))%nat.
Proof.
  revert acc. induction ts as [|t ts IH]; intros acc; simpl; [lia|].
  destruct (IH (surface_step acc t)) as [H1 H2]. rewrite H1, H2, surface_step_class.
  destruct (classify_normal _); simpl; rewrite ?bump_key_count;
    destruct (Z.eqb (centroid_key t) k); simpl; lia.
Qed.

(** The floor counter at height [k] is the number of triangles that
    the face-normal classification calls top-facing and whose centroid
    rounds to [k]; the ceiling counter likewise for bottom-facing ones:
    the detector re-applies exactly the thresholds of the classification. *)
Theorem detect_surfaces_spec ts min_y k :
  default 0 ((detect_surfaces ts min_y).1 !! k)
  = length (List.filter (λ t, bool_decide (classify_normal (vz (normal t)) = Metrics.Top) && Z.eqb (centroid_key t) k) ts) /\
  default 0 ((detect_surfaces ts min_y).2 !! k)
  = length (List.filter (λ t, bool_decide (classify_normal (vz (normal t)) = Metrics.Bottom) && Z.eqb (centroid_key t) k) ts).
Proof. unfold detect_surfaces. rewrite !(proj1 (detect_surfaces_acc ts (∅, ∅) k)), !(proj2 (detect_surfaces_acc ts (∅, ∅) k)). simpl; rewrite !lookup_empty; done. Qed.

Lemma StronglySorted_filter {A} (R : A -> A -> Prop) (f : A -> bool) l :
  StronglySorted R l -> StronglySorted R (List.filter f l).
Proof.
  induction 1 as [|x l Hl IH Hx]; simpl; [constructor|].
  destruct (f x); [|done]. constructor; [done|].
  apply Forall_forall. intros y Hy%list_elem_of_In. apply filter_In in Hy as [Hy _].
  rewrite Forall_forall in Hx. apply Hx, list_elem_of_In, Hy.
Qed.

#[export] Instance key_le_total : Total key_le.
Proof. intros a b. unfold key_le. lia. Qed.

#[export] Instance key_le_trans : Transitive key_le.
Proof. intros a b c. unfold key_le. lia. Qed.

(** The report lists exactly the heights whose counter exceeds 5,
    each with its count, in ascending order of height. *)
Theorem surface_levels_spec m :
  Sorted key_le (surface_levels m) /\
  forall z c, In (z, c) (surface_levels m) <-> m !! z = Some c /\ (5 < c)%nat.
Proof.
  unfold surface_levels. split.
  - apply StronglySorted_Sorted, StronglySorted_filter.
    apply Sorted_StronglySorted; [apply _|]. apply Sorted_merge_sort, _.
  - intros z c. rewrite filter_In, Nat.ltb_lt.
    assert (Hp := merge_sort_Permutation key_le (map_to_list m)).
    split; intros [Hin Hc]; (split; [|done]).
    + apply elem_of_map_to_list, list_elem_of_In, (Permutation_in _ Hp), Hin.
    + apply (Permutation_in _ (Permutation_sym Hp)), list_elem_of_In, elem_of_map_to_list, Hin.
Qed.

Lemma surface_levels_count m k c :
  In (k, c) (surface_levels m) <-> c = default 0 (m !! k) /\ (5 < c)%nat.
Proof.
  rewrite (proj2 (surface_levels_spec m)).
  split; intros [Hk Hc]; (split; [|done]).
  - by rewrite Hk.
  - destruct (m !! k) eqn:E; simpl in Hk; [by subst|lia].
Qed.

(** (C34) The floor report lists, in ascending height, exactly the
    heights [k] at which more than five triangles are top-facing for the
    face-normal classification and have their centroid rounding to [k],
    each with that number; the ceiling report likewise for the
    bottom-facing ones. *)
Theorem surface_report_spec ts min_y :
  (Sorted key_le (surface_levels (detect_surfaces ts min_y).1) /\
   forall k c, In (k, c) (surface_levels (detect_surfaces ts min_y).1) <->
     c = length (List.filter (λ t, bool_decide (classify_normal (vz (normal t)) = Metrics.Top)
                                   && Z.eqb (centroid_key t) k) ts) /\ (5 < c)%nat) /\
  (Sorted key_le (surface_levels (detect_surfaces ts min_y).2) /\
   forall k c, In (k, c) (surface_levels (detect_surfaces ts min_y).2) <->
     c = length (List.filter (λ t, bool_decide (classify_normal (vz (normal t)) = Metrics.Bottom)
                                   && Z.eqb (centroid_key t) k) ts) /\ (5 < c)%nat).
Proof.
  split; split; try apply surface_levels_spec; intros k c;
    rewrite surface_levels_count; [rewrite (proj1 (detect_surfaces_spec ts min_y k))
                                  |rewrite (proj2 (detect_surfaces_spec ts min_y k))]; done.
Qed.
