(* ===== verification/CrossSection.v ===== *)
(** * CrossSection: horizontal slices of the mesh (analyze-stl.py lines 250-307)

    [z_levels] is [sorted(set([...]))] of the seven heights between the
    bottom and the top of the bounding box; [analyze_slice] takes the
    vertices within [tolerance] of a height, gives up below ten of them,
    and otherwise reports the 2D extent of the slice, its centre, the mean
    distance of its points from the centre and the relative standard
    deviation of that distance, classified as circular, roughly circular or
    irregular.  [math.sqrt] and [** 0.5] are the section variables [sqrt]
    and [pow_half]: the theorems assume of them only what they use. *)

From S2P Require Import Prelude Mesh Metrics.
From stdpp Require Import sorting.

(** ** The heights of the slices *)

Definition z_candidates (min_z max_z : Q) : list Q :=
  let z_range := (max_z - min_z)%Q in
  [min_z; min_z + z_range * lit_0_1; min_z + z_range * (1#4); min_z + z_range * (1#2);
   min_z + z_range * (3#4); min_z + z_range * lit_0_9; max_z]%Q.

(** [set(...)]: an element is added unless an equal float is already
    there; the set keeps the first of equal elements. *)
Definition set_add (acc : list Q) (x : Q) : list Q :=
  if existsb (Qeq_bool x) acc then acc else acc ++ [x].

Definition py_set (l : list Q) : list Q := fold_left set_add l [].

#[export] Instance Qle_rel_dec : RelDecision Qle := λ x y,
  match Qle_bool x y as b return Qle_bool x y = b -> Decision (x <= y)%Q with
  | true => λ E, left (proj1 (Qle_bool_iff x y) E)
  | false => λ E, right (λ H, diff_false_true (eq_trans (eq_sym E) (proj2 (Qle_bool_iff x y) H)))
  end eq_refl.

(** [sorted(...)] of distinct floats: the ascending order. *)
Definition z_levels (min_z max_z : Q) : list Q :=
  merge_sort Qle (py_set (z_candidates min_z max_z)).

(** ** One slice *)

Inductive shape := Circular | RoughlyCircular | Irregular.

(** Lines 275-280. *)
Definition classify_shape (variation : Q) : shape :=
  if Qltb variation lit_0_1 then Circular
  else if Qltb variation (1#4) then RoughlyCircular
  else Irregular.

Record slice_info := SliceInfo {
  si_verts : nat; si_x_range : Q * Q; si_y_range : Q * Q; si_width : Q; si_height : Q;
  si_center : Q * Q; si_avg_radius : Q; si_variation : Q; si_shape : shape
}.

(** [verts = [(v[0], v[1]) for v in all_verts if abs(v[2] - target_z) < tolerance]]. *)
Definition slice_verts (av : list (vec3 Q)) (target_z tolerance : Q) : list (Q * Q) :=
  map (λ v, (vx v, vy v)) (List.filter (λ v, Qltb (Qabs (vz v - target_z)) tolerance) av).

(** [sum(xs)]: [0] and then left to right. *)
Definition py_sum (l : list Q) : Q := fold_left Qplus l 0%Q.

Definition py_len (l : list Q) : Q := inject_Z (Z.of_nat (length l)).

Section Slice.
Variable sqrt : Q -> Q.
Variable pow_half : Q -> Q.

(** [analyze_slice(target_z, tolerance)]; the [min] and [max] of the
    coordinate lists exist since there are at least ten points. *)
Definition analyze_slice (av : list (vec3 Q)) (target_z tolerance : Q) : option slice_info :=
  let verts := slice_verts av target_z tolerance in
  if Nat.ltb (length verts) 10 then None else
  let sx := map fst verts in let sy := map snd verts in
  match py_min Qltb sx, py_max Qltb sx, py_min Qltb sy, py_max Qltb sy with
  | Some mnx, Some mxx, Some mny, Some mxy =>
      let cx := ((mnx + mxx) / 2)%Q in
      let cy := ((mny + mxy) / 2)%Q in
      let dists := map (λ p, sqrt ((p.1 - cx) ^ 2 + (p.2 - cy) ^ 2))%Q verts in
      let avg_r := (py_sum dists / py_len dists)%Q in
      let std_r := pow_half (py_sum (map (λ dd, (dd - avg_r) ^ 2)%Q dists) / py_len dists)%Q in
      let variation := if Qgtb avg_r 0 then (std_r / avg_r)%Q else 0%Q in
      Some (SliceInfo (length verts) (mnx, mxx) (mny, mxy) (mxx - mnx)%Q (mxy - mny)%Q
              (cx, cy) avg_r variation (classify_shape variation))
  | _, _, _, _ => None
  end.

(** The loop of lines 296-304 with the default tolerance [0.25]. *)
Definition cross_sections (av : list (vec3 Q)) (min_z max_z : Q) : list (Q * option slice_info) :=
  map (λ z, (z, analyze_slice av z (1#4))) (z_levels min_z max_z).
End Slice.

(** A square root exact on the squares of rationals, for the examples. *)
Definition isqrt_Q (q : Q) : Q := Z.sqrt (Qnum q * Zpos (Qden q)) # Qden q.

(** ** Lemmas *)

Lemma fold_Qplus_const l a r :
  (forall x, In x l -> x == r)%Q -> (fold_left Qplus l a == a + py_len l * r)%Q.
Proof.
  unfold py_len. revert a. induction l as [|x l IH]; intros a Hl; simpl.
  - change (inject_Z 0) with 0%Q. ring.
  - rewrite IH by (intros; apply Hl; by right). rewrite (Hl x (or_introl eq_refl)).
    rewrite Nat2Z.inj_succ, <-Z.add_1_r, inject_Z_plus. change (inject_Z 1) with 1%Q. ring.
Qed.

Lemma py_sum_const l r : (forall x, In x l -> x == r)%Q -> (py_sum l == py_len l * r)%Q.
Proof. intros H. unfold py_sum. rewrite fold_Qplus_const by done. ring. Qed.

Lemma py_len_pos (l : list Q) : l <> [] -> (0 < py_len l)%Q.
Proof.
  intros Hl. unfold py_len. change 0%Q with (inject_Z 0). rewrite <-Zlt_Qlt.
  destruct l; [done|simpl; lia].
Qed.

#[export] Instance classify_shape_proper : Proper (Qeq ==> eq) classify_shape.
Proof. intros v v' Hv. unfold classify_shape. rewrite !Hv. reflexivity. Qed.

Section SliceLemmas.
Variable sqrt : Q -> Q.
Variable pow_half : Q -> Q.

(** What a successful call returns, field by field. *)
Lemma analyze_slice_some_inv av z tol i :
  analyze_slice sqrt pow_half av z tol = Some i ->
  let verts := slice_verts av z tol in
  exists mnx mxx mny mxy,
    py_min Qltb (map fst verts) = Some mnx /\ py_max Qltb (map fst verts) = Some mxx /\
    py_min Qltb (map snd verts) = Some mny /\ py_max Qltb (map snd verts) = Some mxy /\
    (10 <= length verts)%nat /\
    si_verts i = length verts /\ si_x_range i = (mnx, mxx) /\ si_y_range i = (mny, mxy) /\
    si_width i = (mxx - mnx)%Q /\ si_height i = (mxy - mny)%Q /\
    si_center i = ((mnx + mxx) / 2, (mny + mxy) / 2)%Q /\
    let dists := map (λ p, sqrt ((p.1 - (si_center i).1) ^ 2 + (p.2 - (si_center i).2) ^ 2))%Q verts in
    si_avg_radius i = (py_sum dists / py_len dists)%Q /\
    si_variation i = (if Qgtb (si_avg_radius i) 0
      then pow_half (py_sum (map (λ dd, (dd - si_avg_radius i) ^ 2)%Q dists) / py_len dists) / si_avg_radius i
      else 0)%Q /\
    si_shape i = classify_shape (si_variation i).
Proof.
  intros H verts. unfold analyze_slice in H. fold verts in H.
  destruct (Nat.ltb_spec (length verts) 10); [done|].
  destruct (py_min _ (map fst _)) as [mnx|]; [|done].
  destruct (py_max _ (map fst _)) as [mxx|]; [|done].
  destruct (py_min _ (map snd _)) as [mny|]; [|done].
  destruct (py_max _ (map snd _)) as [mxy|]; [|done].
  injection H as <-. exists mnx, mxx, mny, mxy. simpl. repeat split; done.
Qed.

Lemma slice_verts_spec av z tol x y :
  In (x, y) (slice_verts av z tol) <-> exists v, In v av /\ vx v = x /\ vy v = y /\ (Qabs (vz v - z) < tol)%Q.
Proof.
  unfold slice_verts. rewrite in_map_iff. split.
  - intros (v & [= <- <-] & (Hv & Hz)%filter_In). apply Qltb_true in Hz. eauto.
  - intros (v & Hv & <- & <- & Hz). exists v. split; [done|]. apply filter_In. by rewrite Qltb_true.
Qed.

(** A slice is analysed exactly when at least ten vertices lie
    within the tolerance of its height; below that the report says
    "insufficient data". *)
Theorem analyze_slice_defined av z tol :
  (exists i, analyze_slice sqrt pow_half av z tol = Some i) <-> (10 <= length (slice_verts av z tol))%nat.
Proof.
  split.
  - intros [i Hi]. destruct (analyze_slice_some_inv _ _ _ _ Hi) as (? & ? & ? & ? & _ & _ & _ & _ & ? & _). done.
  - intros Hl. unfold analyze_slice. set (verts := slice_verts av z tol) in *.
    destruct (Nat.ltb_spec (length verts) 10); [lia|].
    assert (Hne : forall f : Q * Q -> Q, map f verts <> []) by (intros f; destruct verts; simpl in *; [lia|done]).
    destruct (py_min_some Qltb _ (Hne fst)) as [? ->]. destruct (py_max_some Qltb _ (Hne fst)) as [? ->].
    destruct (py_min_some Qltb _ (Hne snd)) as [? ->]. destruct (py_max_some Qltb _ (Hne snd)) as [? ->].
    eauto.
Qed.

(** The extent reported for a slice: it counts the slice's points,
    every point lies in the reported x and y ranges, width and height are
    the lengths of the ranges and not negative, and the centre is the
    midpoint of the box. *)
Theorem analyze_slice_extent av z tol i :
  analyze_slice sqrt pow_half av z tol = Some i ->
  si_verts i = length (slice_verts av z tol) /\
  si_width i = ((si_x_range i).2 - (si_x_range i).1)%Q /\ si_height i = ((si_y_range i).2 - (si_y_range i).1)%Q /\
  (0 <= si_width i /\ 0 <= si_height i)%Q /\
  (forall x y, In (x, y) (slice_verts av z tol) ->
    (si_x_range i).1 <= x <= (si_x_range i).2 /\ (si_y_range i).1 <= y <= (si_y_range i).2)%Q /\
  si_center i = (((si_x_range i).1 + (si_x_range i).2) / 2, ((si_y_range i).1 + (si_y_range i).2) / 2)%Q.
Proof.
  intros Hi.
  destruct (analyze_slice_some_inv _ _ _ _ Hi)
    as (mnx & mxx & mny & mxy & E1 & E2 & E3 & E4 & Hl & Hn & Hx & Hy & Hw & Hh & Hc & _).
  rewrite Hx, Hy. simpl.
  assert (Hin : forall x y, In (x, y) (slice_verts av z tol) -> (mnx <= x <= mxx /\ mny <= y <= mxy)%Q).
  { intros x y Hp. pose proof (in_map fst _ _ Hp). pose proof (in_map snd _ _ Hp).
    simpl in *. repeat split; eauto with stl. }
  destruct (slice_verts av z tol) as [|[x0 y0] l] eqn:Ev; [simpl in Hl; lia|].
  destruct (Hin x0 y0 (or_introl eq_refl)) as [[] []].
  split; [done|]. split; [done|]. split; [done|]. split; [rewrite Hw, Hh; lra|]. by split.
Qed.


Hypothesis pow_half_zero : forall x, (x == 0)%Q -> (pow_half x == 0)%Q.

(** When every point of a slice is at the same distance [r > 0]
    from the centre ([math.sqrt] giving [r] on each squared distance),
    the mean radius is [r], the variation [0] and the slice is reported
    circular.  Of [** 0.5] only [0 ** 0.5 = 0] is assumed. *)
Theorem analyze_slice_circular av z tol i r :
  analyze_slice sqrt pow_half av z tol = Some i -> (0 < r)%Q ->
  (forall p, In p (slice_verts av z tol) ->
     sqrt ((p.1 - (si_center i).1) ^ 2 + (p.2 - (si_center i).2) ^ 2) == r)%Q ->
  (si_avg_radius i == r)%Q /\ (si_variation i == 0)%Q /\ si_shape i = Circular.
Proof.
  intros Hi Hr Hd.
  destruct (analyze_slice_some_inv _ _ _ _ Hi)
    as (_ & _ & _ & _ & _ & _ & _ & _ & Hl & _ & _ & _ & _ & _ & _ & Havg & Hvar & Hshape).
  set (dists := map _ (slice_verts av z tol)) in *.
  assert (Hdr : forall x, In x dists -> (x == r)%Q) by (intros x (p & <- & Hp)%in_map_iff; auto).
  assert (Hpos : (0 < py_len dists)%Q) by (apply py_len_pos; unfold dists; destruct (slice_verts av z tol); simpl in *; [lia|done]).
  assert (Ha : (si_avg_radius i == r)%Q) by (rewrite Havg, (py_sum_const _ r Hdr); field; lra).
  assert (Hv : (si_variation i == 0)%Q).
  { rewrite Hvar. unfold Qgtb. destruct (Qltb_spec 0 (si_avg_radius i)) as [_|]; [|lra].
    assert (Hz : (py_sum (map (λ dd, (dd - si_avg_radius i) ^ 2) dists) / py_len dists == 0)%Q).
    { rewrite (py_sum_const _ 0); [unfold Qdiv; ring|].
      intros x (d & <- & Hdd%Hdr)%in_map_iff. rewrite Hdd, Ha. ring. }
    rewrite (pow_half_zero _ Hz). unfold Qdiv. ring. }
  split; [done|]. split; [done|]. rewrite Hshape, Hv. reflexivity.
Qed.
End SliceLemmas.

(** ** The slice heights *)

Lemma Qred_eq_iff x y : Qred x = Qred y <-> (x == y)%Q.
Proof.
  split; [|apply Qred_complete].
  intros H. rewrite <-(Qred_correct x), <-(Qred_correct y), H. reflexivity.
Qed.

Lemma set_add_nodup acc x : NoDup (map Qred acc) -> NoDup (map Qred (set_add acc x)).
Proof.
  unfold set_add. destruct (existsb (Qeq_bool x) acc) eqn:E; [done|].
  intros Hn. rewrite map_app. apply NoDup_app. split; [done|]. split; [|apply NoDup_singleton].
  intros q Hq Hx. apply list_elem_of_In, in_map_iff in Hq as (y & <- & Hy).
  apply list_elem_of_singleton in Hx. apply Qred_eq_iff in Hx.
  assert (existsb (Qeq_bool x) acc = true) as E'
    by (apply existsb_exists; exists y; split; [done|apply Qeq_bool_iff; by symmetry]).
  congruence.
Qed.

Lemma set_add_in acc x z : In z (set_add acc x) -> In z acc \/ z = x.
Proof.
  unfold set_add. destruct (existsb _ _); [auto|]. rewrite in_app_iff. simpl. intuition.
Qed.

Lemma set_add_mono acc x z : In z acc -> In z (set_add acc x).
Proof. unfold set_add. destruct (existsb _ _); [done|]. rewrite in_app_iff. auto. Qed.

Lemma set_add_has acc x : exists z, In z (set_add acc x) /\ (z == x)%Q.
Proof.
  unfold set_add. destruct (existsb (Qeq_bool x) acc) eqn:E.
  - apply existsb_exists in E as (z & Hz & Hq%Qeq_bool_iff). exists z. split; [done|by symmetry].
  - exists x. rewrite in_app_iff. simpl. split; [auto|reflexivity].
Qed.

Lemma py_set_acc l acc :
  (NoDup (map Qred acc) -> NoDup (map Qred (fold_left set_add l acc))) /\
  (forall z, In z (fold_left set_add l acc) -> In z acc \/ In z l) /\
  (forall z, In z acc -> In z (fold_left set_add l acc)) /\
  (forall c, In c l -> exists z, In z (fold_left set_add l acc) /\ (z == c)%Q).
Proof.
  revert acc. induction l as [|x l IH]; intros acc; simpl; [split; [|split; [|split]]; auto; done|].
  destruct (IH (set_add acc x)) as (IH1 & IH2 & IH3 & IH4).
  split; [auto using set_add_nodup|]. split; [|split].
  - intros z Hz. apply IH2 in Hz as [Hz|Hz]; [|auto]. apply set_add_in in Hz as [| ->]; auto.
  - auto using set_add_mono.
  - intros c [<-|Hc]; [|auto]. destruct (set_add_has acc x) as (z & Hz & Hq). eauto.
Qed.

Lemma sorted_le_nodup_lt l : Sorted Qle l -> NoDup (map Qred l) -> Sorted Qlt l.
Proof.
  induction l as [|x l IH]; intros Hs Hn; [constructor|].
  inversion Hs as [|? ? Hs' Hhd]; subst. inversion Hn as [|? ? Hx Hn']; subst.
  constructor; [by apply IH|]. destruct l as [|y l]; constructor.
  inversion Hhd; subst. destruct (Qle_lt_or_eq x y) as [|Hxy]; [done|done|].
  exfalso. apply Hx, list_elem_of_In. simpl. left. symmetry. by apply Qred_eq_iff.
Qed.

#[export] Instance Qle_total : Total Qle.
Proof. intros x y. destruct (Qlt_le_dec x y); [left|right]; lra. Qed.

#[export] Instance Qle_trans' : Transitive Qle.
Proof. intros x y z. lra. Qed.

Lemma z_candidates_bounds mn mx z : (mn <= mx)%Q -> In z (z_candidates mn mx) -> (mn <= z <= mx)%Q.
Proof.
  intros Hle Hz. assert (Hr : (0 <= mx - mn)%Q) by lra.
  assert (Hc : forall c, (0 <= c <= 1)%Q -> (mn <= mn + (mx - mn) * c <= mx)%Q)
    by (intros c Hc; split; nra).
  unfold z_candidates in Hz. simpl in Hz.
  repeat destruct Hz as [<-|Hz]; try contradiction; try lra; apply Hc; unfold lit_0_1, lit_0_9; lra.
Qed.

(** The slice heights are strictly increasing (equal heights are
    merged by the set), each is one of the seven candidates and so lies
    between the bottom and the top of the box, and every candidate is
    among them. *)
Theorem z_levels_spec mn mx :
  (mn <= mx)%Q ->
  Sorted Qlt (z_levels mn mx) /\
  (forall z, In z (z_levels mn mx) -> In z (z_candidates mn mx) /\ mn <= z <= mx)%Q /\
  (forall c, In c (z_candidates mn mx) -> exists z, In z (z_levels mn mx) /\ z == c)%Q.
Proof.
  intros Hle. unfold z_levels, py_set.
  destruct (py_set_acc (z_candidates mn mx) []) as (H1 & H2 & _ & H4).
  set (s := fold_left set_add _ []) in *.
  assert (Hp := merge_sort_Permutation Qle s).
  assert (Hin : forall z, In z (merge_sort Qle s) <-> In z s)
    by (intros z; split; apply Permutation_in; [|symmetry]; done).
  split; [|split].
  - apply sorted_le_nodup_lt; [apply Sorted_merge_sort, _|].
    rewrite Hp. apply H1. constructor.
  - intros z Hz%Hin. apply H2 in Hz as [[]|Hz]. split; [done|]. by apply z_candidates_bounds.
  - intros c (z & Hz & Hq)%H4. exists z. by rewrite Hin.
Qed.

Lemma set_add_nil x : set_add [] x = [x].
Proof. reflexivity. Qed.

Lemma set_add_same x y : (x == y)%Q -> set_add [y] x = [y].
Proof. intros H. unfold set_add. simpl. apply Qeq_bool_iff in H. by rewrite H. Qed.

(** A model of zero height is cut once: the seven heights collapse to the
    single height of the model. *)
Theorem z_levels_flat z : z_levels z z = [z].
Proof.
  unfold z_levels, py_set, z_candidates. cbn [fold_left].
  rewrite set_add_nil, !set_add_same by ring. reflexivity.
Qed.

(** ** Witnesses *)

Lemma isqrt_Q_zero x : (x == 0)%Q -> (isqrt_Q x == 0)%Q.
Proof.
  destruct x as [n d]. unfold Qeq, isqrt_Q. simpl. intros H.
  replace n with 0%Z by lia. reflexivity.
Qed.

(** Ten points of the circle of radius 5 around the origin, at height 0. *)
Definition ring10 : list (vec3 Q) :=
  map (λ p, Vec3 (inject_Z p.1) (inject_Z p.2) 0%Q)
    [(5, 0); (-5, 0); (0, 5); (0, -5); (3, 4); (-3, -4); (4, 3); (-4, -3); (3, -4); (-3, 4)]%Z.

Example analyze_slice_nine_points : analyze_slice isqrt_Q isqrt_Q (take 9 ring10) 0 (1#4) = None.
Proof. vm_compute. reflexivity. Qed.

Lemma analyze_slice_extent_witness :
  exists i, analyze_slice isqrt_Q isqrt_Q ring10 0 (1#4) = Some i /\
    si_verts i = length (slice_verts ring10 0 (1#4)) /\
    si_width i = ((si_x_range i).2 - (si_x_range i).1)%Q /\ si_height i = ((si_y_range i).2 - (si_y_range i).1)%Q /\
    (0 <= si_width i /\ 0 <= si_height i)%Q /\
    (forall x y, In (x, y) (slice_verts ring10 0 (1#4)) ->
      (si_x_range i).1 <= x <= (si_x_range i).2 /\ (si_y_range i).1 <= y <= (si_y_range i).2)%Q /\
    si_center i = (((si_x_range i).1 + (si_x_range i).2) / 2, ((si_y_range i).1 + (si_y_range i).2) / 2)%Q.
Proof.
  destruct (analyze_slice isqrt_Q isqrt_Q ring10 0 (1#4)) as [i|] eqn:E; [|vm_compute in E; discriminate].
  exists i. split; [reflexivity|]. exact (analyze_slice_extent isqrt_Q isqrt_Q ring10 0 (1#4) i E).
Defined.

Lemma analyze_slice_circular_witness :
  exists i, analyze_slice isqrt_Q isqrt_Q ring10 0 (1#4) = Some i /\
    (si_avg_radius i == 5)%Q /\ (si_variation i == 0)%Q /\ si_shape i = Circular.
Proof.
  destruct (analyze_slice isqrt_Q isqrt_Q ring10 0 (1#4)) as [i|] eqn:E; [|vm_compute in E; discriminate].
  exists i. split; [reflexivity|].
  apply (analyze_slice_circular isqrt_Q isqrt_Q isqrt_Q_zero ring10 0 (1#4) i 5 E); [reflexivity|].
  pose proof E as E'. vm_compute in E'. injection E' as <-.
  intros p Hp. vm_compute in Hp.
  repeat destruct Hp as [<-|Hp]; try contradiction; vm_compute; reflexivity.
Defined.

Lemma z_levels_spec_witness :
  Sorted Qlt (z_levels 0 10) /\
  (forall z, In z (z_levels 0 10) -> In z (z_candidates 0 10) /\ 0 <= z <= 10)%Q /\
  (forall c, In c (z_candidates 0 10) -> exists z, In z (z_levels 0 10) /\ z == c)%Q.
Proof. apply z_levels_spec. vm_compute. discriminate. Defined.

