(* ===== verification/AsciiArt.v ===== *)
(** * AsciiArt: the ASCII cross-sections (analyze-stl.py lines 76-106, 309-324)

    [ascii_cross_section] lays a grid of [grid_res]-sized cells over the
    points of a slice, starting at their smallest coordinates, marks with
    [#] every cell a point falls in, and prints the rows that hold a mark,
    top row first, each with the height of its lower edge formatted as
    [{y:6.1f}].  The grid is a list of rows, each a list of characters; the
    painting loop is a [fold_left] over the points, each write guarded as
    in the code.  [ascii_sections] is the caller's loop over five heights. *)

From S2P Require Import Prelude PyFormat Mesh CrossSection.
From stdpp Require Import pretty.

Local Open Scope string_scope.

(** ** The grid *)

(** [cols = int(width / grid_res) + 2], [rows = int(height / grid_res) + 2]. *)
Definition grid_cols (width grid_res : Q) : Z := (py_int (width / grid_res) + 2)%Z.
Definition grid_rows (height grid_res : Q) : Z := (py_int (height / grid_res) + 2)%Z.

(** [r = int((y - min_y) / grid_res)], [c = int((x - min_x) / grid_res)]. *)
Definition ascii_cell (min_x min_y grid_res : Q) (p : Q * Q) : Z * Z :=
  (py_int ((p.2 - min_y) / grid_res), py_int ((p.1 - min_x) / grid_res)).

(** [if 0 <= r < rows and 0 <= c < cols: grid[r][c] = '#'] *)
Definition paint (rows cols : Z) (grid : list (list ascii)) (rc : Z * Z) : list (list ascii) :=
  let '(r, c) := rc in
  if (0 <=? r)%Z && (r <? rows)%Z && (0 <=? c)%Z && (c <? cols)%Z
  then alter (λ row, <[Z.to_nat c := "#"%char]> row) (Z.to_nat r) grid
  else grid.

(** [grid = [[' '] * cols for _ in range(rows)]] and the loop over the
    points; the rows are distinct lists, so a write changes one row. *)
Definition paint_grid (min_x min_y grid_res : Q) (rows cols : Z) (verts : list (Q * Q)) : list (list ascii) :=
  fold_left (λ grid p, paint rows cols grid (ascii_cell min_x min_y grid_res p)) verts
    (repeat (repeat " "%char (Z.to_nat cols)) (Z.to_nat rows)).

Definition has_hash (line : list ascii) : bool := existsb (Ascii.eqb "#") line.

(** [f"  y={y_val:6.1f} |{line}|"] with [y_val = min_y + r * grid_res]. *)
Definition row_line (min_y grid_res : Q) (r : nat) (line : list ascii) : string :=
  "  y=" ++ pad_left 6 (fmt_fixed 1 (min_y + inject_Z (Z.of_nat r) * grid_res)%Q) ++ " |"
  ++ string_of_list_ascii line ++ "|".

(** [range(rows - 1, -1, -1)]. *)
Definition range_down (n : nat) : list nat := rev (seq 0 n).

(** [ascii_cross_section(verts_2d, width, height, grid_res, label)]; the
    [min] of the coordinates exists exactly when [verts_2d] is not empty,
    the case [if not verts_2d: return []]. *)
Definition ascii_cross_section (verts : list (Q * Q)) (width height grid_res : Q) (label : string)
    : list string :=
  match py_min Qltb (map fst verts), py_min Qltb (map snd verts) with
  | Some min_x, Some min_y =>
      let cols := grid_cols width grid_res in
      let rows := grid_rows height grid_res in
      let grid := paint_grid min_x min_y grid_res rows cols verts in
      (if String.eqb label EmptyString then [] else [label]) ++
      concat (map (λ r, let line := default [] (grid !! r) in
                        if has_hash line then [row_line min_y grid_res r line] else [])
                  (range_down (Z.to_nat rows)))
  | _, _ => []
  end.

(** ** The caller: lines 309-324 *)

Definition ascii_z_levels (min_z max_z : Q) : list Q :=
  let z_range := (max_z - min_z)%Q in
  [min_z + lit_0_2; min_z + z_range * (1#4); min_z + z_range * (1#2);
   min_z + z_range * (3#4); max_z - lit_0_2]%Q.

(** [f"\n  --- z={z_target:.1f}mm ---"] *)
Definition section_label (z : Q) : string :=
  String (ascii_of_nat 10) ("  --- z=" ++ fmt_fixed 1 z ++ "mm ---").

(** The printed lines: [tol = max(0.25, z_range * 0.03)], the slice,
    [continue] below ten points, and [print(f"  {line}")] for each line of
    the picture; [w] and [h] are the width and height of the mesh. *)
Definition ascii_sections (av : list (vec3 Q)) (min_z max_z w h : Q) : list string :=
  concat (map (λ z_target,
    let tol := default (1#4)%Q (py_max Qltb [1#4; (max_z - min_z) * lit_0_03])%Q in
    let verts_2d := slice_verts av z_target tol in
    if Nat.ltb (length verts_2d) 10 then []
    else map (λ line, "  " ++ line) (ascii_cross_section verts_2d w h 2 (section_label z_target)))
    (ascii_z_levels min_z max_z)).

(** ** Reference picture *)

(** Whether some point falls in cell [(r, c)]. *)
Definition hits (min_x min_y grid_res : Q) (verts : list (Q * Q)) (r c : nat) : bool :=
  existsb (λ p, bool_decide (ascii_cell min_x min_y grid_res p = (Z.of_nat r, Z.of_nat c))) verts.

(** A grid given cell by cell. *)
Definition gen_grid (rows cols : nat) (f : nat -> nat -> ascii) : list (list ascii) :=
  (λ r, (λ c, f r c) <$> seq 0 cols) <$> seq 0 rows.

Definition mark (b : bool) : ascii := if b then "#"%char else " "%char.

(** The picture described row by row: the label, then every row holding
    a point, from the top, each row drawn cell by cell. *)
Definition ascii_reference (verts : list (Q * Q)) (width height grid_res : Q) (label : string)
    : list string :=
  match py_min Qltb (map fst verts), py_min Qltb (map snd verts) with
  | Some min_x, Some min_y =>
      let cols := Z.to_nat (grid_cols width grid_res) in
      let rows := Z.to_nat (grid_rows height grid_res) in
      let hit := hits min_x min_y grid_res verts in
      (if String.eqb label EmptyString then [] else [label]) ++
      map (λ r, row_line min_y grid_res r ((λ c, mark (hit r c)) <$> seq 0 cols))
        (List.filter (λ r, existsb (hit r) (seq 0 cols)) (range_down rows))
  | _, _ => []
  end.

(** ** Lemmas *)

Lemma fmap_seq_const {A} (x : A) n j : (λ _ : nat, x) <$> seq j n = repeat x n.
Proof. revert j. induction n as [|n IH]; intros j; simpl; [done|]. by rewrite IH. Qed.

Lemma alter_gen_grid rows cols f r0 c0 x :
  (r0 < rows)%nat -> (c0 < cols)%nat ->
  alter (λ row, <[c0 := x]> row) r0 (gen_grid rows cols f)
  = gen_grid rows cols (λ r c, if Nat.eqb r r0 && Nat.eqb c c0 then x else f r c).
Proof.
  intros Hr Hc. apply list_eq. intros i. unfold gen_grid.
  destruct (decide (i = r0)) as [->|Hne].
  - rewrite list_lookup_alter_eq, !list_lookup_fmap, lookup_seq_lt by done. simpl. f_equal.
    apply list_eq. intros j. destruct (decide (j = c0)) as [->|Hj].
    + rewrite list_lookup_insert_eq by (rewrite length_fmap, length_seq; lia).
      rewrite list_lookup_fmap, lookup_seq_lt by done. simpl. by rewrite !Nat.eqb_refl.
    + rewrite list_lookup_insert_ne by done. rewrite !list_lookup_fmap.
      destruct (seq 0 cols !! j) as [c|] eqn:E; [|done]. apply lookup_seq in E as [-> _].
      simpl. rewrite Nat.eqb_refl. apply Nat.eqb_neq in Hj. by rewrite Hj.
  - rewrite list_lookup_alter_ne by done. rewrite !list_lookup_fmap.
    destruct (seq 0 rows !! i) as [r|] eqn:E; [|done]. apply lookup_seq in E as [-> _].
    simpl. f_equal. apply list_fmap_ext. intros j c _. apply Nat.eqb_neq in Hne. by rewrite Hne.
Qed.

Lemma hits_snoc mnx mny g ps p r c :
  hits mnx mny g (ps ++ [p]) r c
  = hits mnx mny g ps r c || bool_decide (ascii_cell mnx mny g p = (Z.of_nat r, Z.of_nat c)).
Proof. unfold hits. rewrite existsb_app. simpl. by rewrite orb_false_r. Qed.

Lemma gen_grid_ext rows cols f f' :
  (forall r c, (r < rows)%nat -> (c < cols)%nat -> f r c = f' r c) -> gen_grid rows cols f = gen_grid rows cols f'.
Proof.
  intros H. unfold gen_grid. apply list_fmap_ext. intros i r Hr.
  apply lookup_seq in Hr as [-> Hr]. apply list_fmap_ext. intros j c Hc.
  apply lookup_seq in Hc as [-> Hc]. by apply H.
Qed.

Lemma paint_gen_grid mnx mny g rows cols ps p :
  paint rows cols (gen_grid (Z.to_nat rows) (Z.to_nat cols) (λ r c, mark (hits mnx mny g ps r c)))
    (ascii_cell mnx mny g p)
  = gen_grid (Z.to_nat rows) (Z.to_nat cols) (λ r c, mark (hits mnx mny g (ps ++ [p]) r c)).
Proof.
  unfold paint. destruct (ascii_cell mnx mny g p) as [r0 c0] eqn:Ecell.
  destruct (Z.leb_spec 0 r0), (Z.ltb_spec r0 rows), (Z.leb_spec 0 c0), (Z.ltb_spec c0 cols); simpl;
    [rewrite alter_gen_grid by lia|..]; apply gen_grid_ext; intros r c Hr Hc;
    rewrite hits_snoc, Ecell; case_bool_decide as Hrc; try (injection Hrc; lia);
    try by rewrite orb_false_r.
  - injection Hrc as -> ->. by rewrite !Nat2Z.id, !Nat.eqb_refl, orb_true_r.
  - destruct (Nat.eqb_spec r (Z.to_nat r0)), (Nat.eqb_spec c (Z.to_nat c0)); simpl;
      [exfalso; apply Hrc; f_equal; lia|by rewrite orb_false_r..].
Qed.

Lemma paint_grid_acc mnx mny g rows cols ps l :
  fold_left (λ grid p, paint rows cols grid (ascii_cell mnx mny g p)) l
    (gen_grid (Z.to_nat rows) (Z.to_nat cols) (λ r c, mark (hits mnx mny g ps r c)))
  = gen_grid (Z.to_nat rows) (Z.to_nat cols) (λ r c, mark (hits mnx mny g (ps ++ l) r c)).
Proof.
  revert ps. induction l as [|p l IH]; intros ps; cbn [fold_left]; [by rewrite app_nil_r|].
  by rewrite paint_gen_grid, IH, <-app_assoc.
Qed.

(** The painted grid is the grid of the cells the points fall in. *)
Lemma paint_grid_spec mnx mny g rows cols verts :
  paint_grid mnx mny g rows cols verts
  = gen_grid (Z.to_nat rows) (Z.to_nat cols) (λ r c, mark (hits mnx mny g verts r c)).
Proof.
  pose proof (paint_grid_acc mnx mny g rows cols [] verts) as H. cbn [app] in H.
  unfold paint_grid. rewrite <-H. f_equal.
  unfold gen_grid. simpl. by rewrite !fmap_seq_const.
Qed.

Lemma has_hash_marks (h : nat -> bool) l : has_hash ((λ c, mark (h c)) <$> l) = existsb h l.
Proof.
  induction l as [|c l IH]; [done|]. unfold has_hash in *. cbn [fmap list_fmap existsb].
  rewrite IH. unfold mark. by destruct (h c).
Qed.

Lemma concat_map_filter {A B} (p : A -> bool) (f : A -> B) l :
  concat (map (λ x, if p x then [f x] else []) l) = map f (List.filter p l).
Proof. induction l as [|x l IH]; simpl; [done|]. rewrite IH. by destruct (p x). Qed.

Lemma in_range_down r n : In r (range_down n) <-> (r < n)%nat.
Proof. unfold range_down. rewrite <-in_rev, in_seq. lia. Qed.

(** The cell of a point of the slice is inside the grid when the point is
    within [width] and [height] of the slice's smallest coordinates. *)
Lemma cell_in_range mnx mny g width height x y :
  (0 < g)%Q -> (mnx <= x)%Q -> (mny <= y)%Q -> (x - mnx <= width)%Q -> (y - mny <= height)%Q ->
  (0 <= fst (ascii_cell mnx mny g (x, y)) < grid_rows height g)%Z /\
  (0 <= snd (ascii_cell mnx mny g (x, y)) < grid_cols width g)%Z.
Proof.
  intros Hg Hx Hy Hw Hh. unfold ascii_cell, grid_rows, grid_cols. simpl.
  assert (Hdiv : forall a b, (0 <= a)%Q -> (a <= b)%Q ->
    (0 <= py_int (a / g) <= py_int (b / g))%Z).
  { intros a b Ha Hab.
    assert (Ha' : (0 <= a / g)%Q) by (apply Qle_shift_div_l; lra).
    assert (Hb' : (a / g <= b / g)%Q) by (apply Qmult_le_compat_r; [done|]; apply Qinv_le_0_compat; lra).
    rewrite !py_int_nonneg by lra. split; [|by apply Qfloor_resp_le].
    change 0%Z with (Qfloor 0). by apply Qfloor_resp_le. }
  destruct (Hdiv (y - mny) height)%Q, (Hdiv (x - mnx) width)%Q; try lra. lia.
Qed.

(** The painting loop computes the reference picture. *)
Lemma ascii_cross_section_eq verts width height grid_res label :
  ascii_cross_section verts width height grid_res label = ascii_reference verts width height grid_res label.
Proof.
  unfold ascii_cross_section, ascii_reference.
  destruct (py_min _ (map fst verts)) as [mnx|]; [|done].
  destruct (py_min _ (map snd verts)) as [mny|]; [|done].
  f_equal. rewrite paint_grid_spec, <-concat_map_filter. f_equal.
  apply map_ext_in. intros r Hr%in_range_down.
  unfold gen_grid. rewrite list_lookup_fmap, lookup_seq_lt by done. simpl.
  by rewrite has_hash_marks.
Qed.

(** The painted grid and the row loop print the reference picture:
    the label when there is one, then exactly the rows in which some point
    falls inside the grid, from the top row down, each row showing [#]
    exactly in the cells some point falls in. *)
Theorem ascii_cross_section_reference verts width height grid_res label :
  ascii_cross_section verts width height grid_res label = ascii_reference verts width height grid_res label.
Proof. apply ascii_cross_section_eq. Qed.

(** No point of a slice is lost: when the points lie within [width]
    and [height] of their smallest coordinates (as the points of a slice
    do for the mesh's width and height) and the cells have a positive size,
    the row of each point is printed with a [#] in the point's column. *)
Theorem ascii_point_drawn verts width height g label x y :
  (0 < g)%Q -> In (x, y) verts ->
  (forall x' y', In (x', y') verts -> forall x0 y0, In (x0, y0) verts -> x' - x0 <= width /\ y' - y0 <= height)%Q ->
  exists mnx mny r c line,
    py_min Qltb (map fst verts) = Some mnx /\ py_min Qltb (map snd verts) = Some mny /\
    ascii_cell mnx mny g (x, y) = (Z.of_nat r, Z.of_nat c) /\ line !! c = Some "#"%char /\
    In (row_line mny g r line) (ascii_cross_section verts width height g label).
Proof.
  intros Hg Hin Hbox. rewrite ascii_cross_section_eq. unfold ascii_reference.
  assert (Hne : forall f : Q * Q -> Q, map f verts <> []) by (intros f; destruct verts; [done|discriminate]).
  destruct (py_min_some Qltb _ (Hne fst)) as [mnx E1]. destruct (py_min_some Qltb _ (Hne snd)) as [mny E2].
  rewrite E1, E2. simpl.
  destruct (py_min_spec Qltb _ _ E1) as [(p1 & <- & Hp1)%in_map_iff _].
  destruct (py_min_spec Qltb _ _ E2) as [(p2 & <- & Hp2)%in_map_iff _].
  destruct p1 as [x1 y1], p2 as [x2 y2]. simpl in *.
  pose proof (py_min_Q_le _ _ _ E1 (in_map fst _ _ Hin)) as Hx.
  pose proof (py_min_Q_le _ _ _ E2 (in_map snd _ _ Hin)) as Hy. simpl in Hx, Hy.
  destruct (Hbox x y Hin x1 y1 Hp1) as [Hw _]. destruct (Hbox x y Hin x2 y2 Hp2) as [_ Hh].
  destruct (cell_in_range x1 y2 g width height x y) as [Hr Hc]; try done.
  destruct (ascii_cell x1 y2 g (x, y)) as [r c] eqn:Ecell. simpl in Hr, Hc.
  assert (Hhit : hits x1 y2 g verts (Z.to_nat r) (Z.to_nat c) = true).
  { apply existsb_exists. exists (x, y). split; [done|]. apply bool_decide_eq_true. rewrite Ecell, !Z2Nat.id by lia. done. }
  exists x1, y2, (Z.to_nat r), (Z.to_nat c),
    ((λ c', mark (hits x1 y2 g verts (Z.to_nat r) c')) <$> seq 0 (Z.to_nat (grid_cols width g))).
  split; [done|]. split; [done|]. split; [by rewrite !Z2Nat.id by lia|]. split.
  - rewrite list_lookup_fmap, lookup_seq_lt by lia. simpl. by rewrite Hhit.
  - apply in_app_iff. right. apply in_map_iff. exists (Z.to_nat r). split; [reflexivity|]. apply filter_In. split; [apply in_range_down; lia|].
    apply existsb_exists. exists (Z.to_nat c). split; [apply in_seq; lia|done].
Qed.

(** ** Witnesses *)

Definition square5 : list (Q * Q) := [(0, 0); (4, 0); (0, 4); (4, 4); (2, 2)]%Q.

Example ascii_square5 :
  ascii_cross_section square5 4 4 2 "L"
  = ["L"; "  y=   4.0 |# # |"; "  y=   2.0 | #  |"; "  y=   0.0 |# # |"].
Proof. vm_compute. reflexivity. Qed.

Lemma ascii_point_drawn_witness :
  exists mnx mny r c line,
    py_min Qltb (map fst square5) = Some mnx /\ py_min Qltb (map snd square5) = Some mny /\
    ascii_cell mnx mny 2 (2, 2)%Q = (Z.of_nat r, Z.of_nat c) /\ line !! c = Some "#"%char /\
    In (row_line mny 2 r line) (ascii_cross_section square5 4 4 2 "L").
Proof.
  apply (ascii_point_drawn square5 4 4 2 "L" 2 2); [reflexivity|simpl; tauto|].
  intros x' y' H' x0 y0 H0. simpl in H', H0.
  repeat destruct H' as [[= <- <-]|H']; try contradiction;
    repeat destruct H0 as [[= <- <-]|H0]; try contradiction;
    split; apply Qle_bool_imp_le; reflexivity.
Defined.
