(* ===== verification/Histogram.v ===== *)
(** * Histogram: the Z-level distribution report (analyze-stl.py lines 241-247)

    The bars of the histogram are scaled so that the busiest level would
    get 40 marks: [bar_scale = 40 / max_count] and
    [bar = "#" * int(z_hist[z] * bar_scale)].  These two float operations
    decide the length of a bar, so they are modelled at binary64 precision
    with the Standard Library's [SpecFloat] (the IEEE-754 specification of
    [Floats], round to nearest even), not with exact rationals.  The
    levels are printed in ascending order with the value [round(v, 1)]
    formatted as [{z:6.1f}] and the count as [{n:6d}]. *)

From S2P Require Import Prelude Float64 PyFormat Mesh Metrics Surfaces CrossSection AsciiArt.
From Stdlib Require Import SpecFloat.
From stdpp Require Import gmap sorting pretty.

Local Open Scope string_scope.

(** ** The report *)

(** [bar_scale = 40 / max_count if max_count > 0 else 1]; the integer [1]
    of the second branch multiplies a count exactly, as the float [1.0]
    does. *)
Definition bar_scale (max_count : nat) : spec_float :=
  if Nat.ltb 0 max_count then f64_div (f64_of_Z 40) (f64_of_Z (Z.of_nat max_count))
  else f64_of_Z 1.

(** [int(z_hist[z] * bar_scale)], the number of marks. *)
Definition bar_len (count : nat) (scale : spec_float) : nat :=
  Z.to_nat (f64_trunc (f64_mul (f64_of_Z (Z.of_nat count)) scale)).

(** [f"  z={z:6.1f}: {z_hist[z]:6d} {bar}"] for the level of [k] tenths. *)
Definition hist_line (scale : spec_float) (zc : Z * nat) : string :=
  "  z=" ++ pad_left 6 (fmt_fixed 1 (Qmake zc.1 10)) ++ ": " ++ pad_left 6 (pretty zc.2) ++ " "
  ++ string_of_list_ascii (repeat "#"%char (bar_len zc.2 scale)).

(** Lines 241-247: [max(z_hist.values())] raises [ValueError] on an empty
    histogram; otherwise the title and one line per level, by ascending
    height. *)
Definition z_level_report (h : gmap Z nat) : result (list string) :=
  match py_max Nat.ltb (map snd (map_to_list h)) with
  | None => Raise ValueError
  | Some max_count =>
      Ok (("Z-level distribution (" ++ pretty (size h) ++ " distinct levels):")
          :: map (hist_line (bar_scale max_count)) (merge_sort key_le (map_to_list h)))
  end.

(** ** Theorems *)

Lemma py_max_nat_eq l m :
  In m l -> (forall x, In x l -> (x <= m)%nat) -> py_max Nat.ltb l = Some m.
Proof.
  intros Hm Hle. destruct (py_max_some Nat.ltb l) as [m' E]; [by destruct l|].
  destruct (py_max_spec Nat.ltb l m' E) as [Hin Hmax].
  specialize (Hmax m Hm). apply Nat.ltb_ge in Hmax. specialize (Hle m' Hin).
  rewrite E. f_equal. lia.
Qed.

Lemma in_merge_sort_items (h : gmap Z nat) z c :
  In (z, c) (merge_sort key_le (map_to_list h)) <-> h !! z = Some c.
Proof.
  rewrite <-elem_of_map_to_list, list_elem_of_In. split; apply Permutation_in;
    [|symmetry]; apply merge_sort_Permutation.
Qed.

(** The report of a non-empty histogram: its title, then one line per
    level, by ascending height, each with the level's count and the bar
    scaled by the largest count. *)
Lemma z_level_report_lines h max_count :
  py_max Nat.ltb (map snd (map_to_list h)) = Some max_count ->
  exists items, z_level_report h
    = Ok (("Z-level distribution (" ++ pretty (size h) ++ " distinct levels):")
          :: map (hist_line (bar_scale max_count)) items) /\
    Sorted key_le items /\ (forall z c, In (z, c) items <-> h !! z = Some c).
Proof.
  intros Hm. unfold z_level_report. rewrite Hm. eexists. split; [reflexivity|].
  split; [apply Sorted_merge_sort, _|apply in_merge_sort_items].
Qed.

(** (C39) The bars do not reach the intended 40 marks: when the busiest
    level holds 77 vertices, [40 / 77] rounds down and [77 * (40 / 77)]
    evaluates to [39.99999999999999], so the busiest level's bar has 39
    marks (76 vertices give 40). *)
Theorem z_level_report_short_bar h k :
  h !! k = Some 77%nat -> (forall k' c, h !! k' = Some c -> c <= 77)%nat ->
  exists ls, z_level_report h = Ok ls /\ In (hist_line (bar_scale 77) (k, 77%nat)) ls /\
    bar_len 77 (bar_scale 77) = 39%nat /\ bar_len 76 (bar_scale 76) = 40%nat.
Proof.
  intros Hk Hle.
  assert (Hm : py_max Nat.ltb (map snd (map_to_list h)) = Some 77%nat).
  { apply py_max_nat_eq.
    - apply (in_map snd _ (k, 77%nat)), list_elem_of_In, elem_of_map_to_list, Hk.
    - intros x ((k', c) & <- & Hin)%in_map_iff.
      apply list_elem_of_In, elem_of_map_to_list in Hin. by apply (Hle k'). }
  destruct (z_level_report_lines h 77 Hm) as (items & -> & _ & Hitems).
  eexists. split; [reflexivity|]. split; [|split; vm_compute; reflexivity].
  right. apply in_map, Hitems, Hk.
Qed.

(** ** Witnesses *)

Lemma z_level_report_short_bar_witness :
  exists ls, z_level_report {[0%Z := 77%nat]} = Ok ls /\
    In (hist_line (bar_scale 77) (0%Z, 77%nat)) ls /\
    bar_len 77 (bar_scale 77) = 39%nat /\ bar_len 76 (bar_scale 76) = 40%nat.
Proof.
  apply z_level_report_short_bar; [reflexivity|].
  intros k' c Hc. apply lookup_singleton_Some in Hc as [_ <-]. lia.
Defined.
