(* ===== verification/Pockets.v ===== *)
(** * Pockets: [detect_pockets] and its caller (analyze-stl.py lines 126-170, 343-360)

    The vertices within [tol] of the target height are shifted by the
    mesh minimum and quantised with [int(x / grid_size)] into an occupancy
    grid, a dict from cells to hit counts (a stdpp [gmap (Z * Z) nat]).
    Every cell of the rectangle spanned by the occupied cells is then
    scanned, [gx] outer and [gy] inner; a cell is reported as empty
    interior when it is sparse (absent or fewer than 3 hits) and at least 4
    cells of its 3x3 block are dense (at least 3 hits).  The report is the
    number of such cells and the extent of their centres.  [analyze]
    calls it at nine heights ([pocket_report]). *)

From S2P Require Import Prelude Mesh.
From stdpp Require Import gmap.

Section Pockets.
(** [tol] and [grid_size], the keyword arguments (0.3 and 2.0 at every
    call site). *)
Variable tol grid_size : Q.

(** [verts_2d = [(v[0] - min_x, v[1] - min_y) for v in all_verts if
    abs(v[2] - z_target) < tol]]. *)
Definition slab_points (av : list (vec3 Q)) (min_x min_y z_target : Q) : list (Q * Q) :=
  map (λ v, (vx v - min_x, vy v - min_y)%Q)
      (List.filter (λ v, Qltb (Qabs (vz v - z_target)) tol) av).

Definition cell_of (p : Q * Q) : Z * Z :=
  (py_int (p.1 / grid_size), py_int (p.2 / grid_size)).

(** [grid[(gx, gy)] = grid.get((gx, gy), 0) + 1] for every point. *)
Definition build_grid (pts : list (Q * Q)) : gmap (Z * Z) nat :=
  fold_left (λ g p, let c := cell_of p in <[c := default 0 (g !! c) + 1]> g) pts ∅.

(** [(gx, gy) not in grid or grid[(gx, gy)] < 3]. *)
Definition sparse (g : gmap (Z * Z) nat) (c : Z * Z) : bool :=
  match g !! c with None => true | Some n => Nat.ltb n 3 end.

(** [(gx + dx, gy + dy) in grid and grid[(gx + dx, gy + dy)] >= 3]. *)
Definition dense (g : gmap (Z * Z) nat) (c : Z * Z) : bool :=
  match g !! c with None => false | Some n => Nat.leb 3 n end.

(** [for dx in [-1, 0, 1] for dy in [-1, 0, 1]], the centre included. *)
Definition offsets : list (Z * Z) :=
  [(-1, -1); (-1, 0); (-1, 1); (0, -1); (0, 0); (0, 1); (1, -1); (1, 0); (1, 1)]%Z.

Definition neighbor_count (g : gmap (Z * Z) nat) (gx gy : Z) : nat :=
  length (List.filter (λ d, dense g (gx + d.1, gy + d.2)%Z) offsets).

(** [range(a, b + 1)]. *)
Definition zrange (a b : Z) : list Z := map (λ i, a + Z.of_nat i)%Z (seq 0 (Z.to_nat (b - a + 1))).

Definition cell_center (k : Z) : Q := (inject_Z k * grid_size + grid_size / 2)%Q.

Definition is_void (g : gmap (Z * Z) nat) (gx gy : Z) : bool :=
  sparse g (gx, gy) && Nat.leb 4 (neighbor_count g gx gy).

(** The double loop of lines 148-157, in its order. *)
Definition empty_interior (g : gmap (Z * Z) nat) (gxs gys : list Z) : list (Q * Q) :=
  flat_map (λ gx, flat_map (λ gy,
    if is_void g gx gy then [(cell_center gx, cell_center gy)] else []) gys) gxs.

Record pocket := Pocket {
  p_count : nat; p_x_range : Q * Q; p_y_range : Q * Q; p_width : Q; p_height : Q
}.

Definition detect_pockets (av : list (vec3 Q)) (min_x min_y z_target : Q) : option pocket :=
  let pts := slab_points av min_x min_y z_target in
  if Nat.ltb (length pts) 10 then None else
  let g := build_grid pts in
  let keys := map fst (map_to_list g) in
  mngx ← py_min Z.ltb (map fst keys); mxgx ← py_max Z.ltb (map fst keys);
  mngy ← py_min Z.ltb (map snd keys); mxgy ← py_max Z.ltb (map snd keys);
  let ei := empty_interior g (zrange mngx mxgx) (zrange mngy mxgy) in
  mnex ← py_min Qltb (map fst ei); mxex ← py_max Qltb (map fst ei);
  mney ← py_min Qltb (map snd ei); mxey ← py_max Qltb (map snd ei);
  Some (Pocket (length ei) (mnex, mxex) (mney, mxey) (mxex - mnex) (mxey - mney)).
End Pockets.

(** ** The caller: lines 343-360 *)

(** [pocket_z_levels = [min_z + z_range * f for f in [0.1, ..., 0.9]]]. *)
Definition pocket_z_levels (min_z max_z : Q) : list Q :=
  map (λ f, min_z + (max_z - min_z) * f)%Q
    [lit_0_1; lit_0_2; lit_0_3; lit_0_4; 1#2; lit_0_6; lit_0_7; lit_0_8; lit_0_9]%Q.

(** The pockets printed, with their heights, in the order of the levels;
    a result dict is never empty, so [if pocket:] holds exactly for a
    result.  The report says "No internal voids detected" exactly when the
    list is empty ([found_pockets] stays false). *)
Definition pocket_report (av : list (vec3 Q)) (min_x min_y min_z max_z : Q) : list (Q * pocket) :=
  flat_map (λ z, match detect_pockets lit_0_3 2 av min_x min_y z with
                 | Some p => [(z, p)] | None => [] end) (pocket_z_levels min_z max_z).

(** The eight neighbours, the centre left out. *)
Definition offsets8 : list (Z * Z) :=
  [(-1, -1); (-1, 0); (-1, 1); (0, -1); (0, 1); (1, -1); (1, 0); (1, 1)]%Z.

(** ** A square ring *)

(** Three points in grid cell [(i, j)] of side 2, at height 0. *)
Definition cell_pts (i j : Z) : list (vec3 Q) :=
  [Vec3 (inject_Z (2 * i) + (1 # 2)) (inject_Z (2 * j) + (1 # 2)) 0;
   Vec3 (inject_Z (2 * i) + 1) (inject_Z (2 * j) + 1) 0;
   Vec3 (inject_Z (2 * i) + (3 # 2)) (inject_Z (2 * j) + (3 # 2)) 0]%Q.

(** The 6 x 6 cells of [[0, 12)^2] without the 2 x 2 cells of the hole
    [[4, 8)^2]. *)
Definition ring_pts : list (vec3 Q) :=
  flat_map (λ i, flat_map (λ j,
    if (Z.leb 2 i && Z.leb i 3 && Z.leb 2 j && Z.leb j 3)%bool then [] else cell_pts i j)
    (zrange 0 5)) (zrange 0 5).

(** ** Lemmas *)

Section PocketLemmas.
Variable grid_size : Q.

Lemma build_grid_acc (pts : list (Q * Q)) (g : gmap (Z * Z) nat) (c : Z * Z) :
  default 0 (fold_left (λ g p, let c := cell_of grid_size p in
               <[c := default 0 (g !! c) + 1]> g) pts g !! c)
  = (default 0 (g !! c) + length (List.filter (λ p, bool_decide (cell_of grid_size p = c)) pts))%nat.
Proof.
  revert g. induction pts as [|p pts IH]; intros g; simpl; [lia|].
  rewrite IH, lookup_insert. case_decide as E; [subst c|]; case_bool_decide; try done; simpl; lia.
Qed.

(** The hit count of a cell is the number of slab points it holds. *)
Lemma build_grid_count (pts : list (Q * Q)) (c : Z * Z) :
  default 0 (build_grid grid_size pts !! c)
  = length (List.filter (λ p, bool_decide (cell_of grid_size p = c)) pts).
Proof. unfold build_grid. by rewrite build_grid_acc, lookup_empty. Qed.

Lemma dense_sparse g c : dense g c = negb (sparse g c).
Proof. unfold dense, sparse. destruct (g !! c) as [n|]; [|done]. destruct (Nat.ltb_spec n 3), (Nat.leb_spec 3 n); done || lia. Qed.

(** The 3x3 scan counts the cell itself, but a candidate cell is
    sparse, so its own term never counts: the test is the one on the
    eight neighbours that the spec describes. *)
Theorem neighbor_count_self g gx gy :
  sparse g (gx, gy) = true ->
  neighbor_count g gx gy = length (List.filter (λ d, dense g (gx + d.1, gy + d.2)%Z) offsets8).
Proof.
  intros Hs. unfold neighbor_count, offsets, offsets8.
  change [(-1, -1); (-1, 0); (-1, 1); (0, -1); (0, 0); (0, 1); (1, -1); (1, 0); (1, 1)]%Z
    with ([(-1, -1); (-1, 0); (-1, 1); (0, -1)] ++ (0, 0) :: [(0, 1); (1, -1); (1, 0); (1, 1)])%Z.
  change [(-1, -1); (-1, 0); (-1, 1); (0, -1); (0, 1); (1, -1); (1, 0); (1, 1)]%Z
    with ([(-1, -1); (-1, 0); (-1, 1); (0, -1)] ++ [(0, 1); (1, -1); (1, 0); (1, 1)])%Z.
  rewrite !List.filter_app. cbn [List.filter fst snd]. rewrite !Z.add_0_r, (dense_sparse g (gx, gy)), Hs. done.
Qed.

Lemma zrange_spec a b k : In k (zrange a b) <-> (a <= k <= b)%Z.
Proof.
  unfold zrange. rewrite in_map_iff. split.
  - intros (i & <- & Hi). apply in_seq in Hi. lia.
  - intros H. exists (Z.to_nat (k - a)). split; [lia|]. apply in_seq. lia.
Qed.

(** The nested loops equal a filter over the cells of the rectangle,
    [gx] major: the scan is the reference enumeration. *)
Lemma empty_interior_filter g gxs gys :
  empty_interior grid_size g gxs gys
  = map (λ c, (cell_center grid_size c.1, cell_center grid_size c.2))
        (List.filter (λ c, is_void g c.1 c.2) (list_prod gxs gys)).
Proof.
  induction gxs as [|gx gxs IH]; [done|]. simpl. rewrite IH, List.filter_app, map_app. f_equal.
  clear IH. induction gys as [|gy gys IH]; [done|]. simpl. rewrite IH.
  by destruct (is_void g gx gy).
Qed.
End PocketLemmas.

Section PocketResult.
Variable tol grid_size : Q.

Lemma in_keys (g : gmap (Z * Z) nat) c n :
  g !! c = Some n -> In c (map fst (map_to_list g)).
Proof.
  intros H. apply in_map_iff. exists (c, n). split; [done|].
  apply list_elem_of_In, elem_of_map_to_list, H.
Qed.

Lemma keys_bounds (g : gmap (Z * Z) nat) (f : Z * Z -> Z) lo hi c n :
  py_min Z.ltb (map f (map fst (map_to_list g))) = Some lo ->
  py_max Z.ltb (map f (map fst (map_to_list g))) = Some hi ->
  g !! c = Some n -> (lo <= f c <= hi)%Z.
Proof.
  intros Hlo Hhi Hc. pose proof (in_map f _ _ (in_keys g c n Hc)).
  split; eauto with stl.
Qed.

(** Fewer than ten vertices in the slab: no pocket. *)
Theorem detect_pockets_few av mx my z :
  (length (slab_points tol av mx my z) < 10)%nat -> detect_pockets tol grid_size av mx my z = None.
Proof. intros H. unfold detect_pockets. by apply Nat.ltb_lt in H as ->. Qed.

(** (C25) What a reported pocket is: with the rectangle [x0..x1] x
    [y0..y1] spanned by the occupied grid cells, the reported count is
    the number of cells of that rectangle, [gx] major, that are sparse
    with at least four dense cells in their 3x3 block; it is positive;
    the reported ranges bound the centres of those cells and the width
    and height are their differences, hence non-negative. *)
Theorem detect_pockets_result av mx my z p :
  detect_pockets tol grid_size av mx my z = Some p ->
  let pts := slab_points tol av mx my z in
  let g := build_grid grid_size pts in
  (10 <= length pts)%nat /\
  exists x0 x1 y0 y1,
    (forall c n, g !! c = Some n -> (x0 <= c.1 <= x1 /\ y0 <= c.2 <= y1)%Z) /\
    p_count p = length (List.filter (λ c, is_void g c.1 c.2) (list_prod (zrange x0 x1) (zrange y0 y1))) /\
    (0 < p_count p)%nat /\
    (forall gx gy, In (gx, gy) (list_prod (zrange x0 x1) (zrange y0 y1)) -> is_void g gx gy = true ->
       (p_x_range p).1 <= cell_center grid_size gx <= (p_x_range p).2 /\
       (p_y_range p).1 <= cell_center grid_size gy <= (p_y_range p).2)%Q /\
    p_width p = ((p_x_range p).2 - (p_x_range p).1)%Q /\ (0 <= p_width p)%Q /\
    p_height p = ((p_y_range p).2 - (p_y_range p).1)%Q /\ (0 <= p_height p)%Q.
Proof.
  intros H. cbv zeta. unfold detect_pockets in H.
  set (pts := slab_points tol av mx my z) in *. set (g := build_grid grid_size pts) in *.
  destruct (Nat.ltb_spec (length pts) 10) as [|Hlen]; [done|]. split; [done|].
  destruct (py_min _ (map fst (map fst _))) as [x0|] eqn:E1; [|done]; simpl in H.
  destruct (py_max _ (map fst (map fst _))) as [x1|] eqn:E2; [|done]; simpl in H.
  destruct (py_min _ (map snd (map fst _))) as [y0|] eqn:E3; [|done]; simpl in H.
  destruct (py_max _ (map snd (map fst _))) as [y1|] eqn:E4; [|done]; simpl in H.
  set (ei := empty_interior grid_size g _ _) in H.
  destruct (py_min _ (map fst ei)) as [ex0|] eqn:E5; [|done]; simpl in H.
  destruct (py_max _ (map fst ei)) as [ex1|] eqn:E6; [|done]; simpl in H.
  destruct (py_min _ (map snd ei)) as [ey0|] eqn:E7; [|done]; simpl in H.
  destruct (py_max _ (map snd ei)) as [ey1|] eqn:E8; [|done]; simpl in H.
  injection H as <-. exists x0, x1, y0, y1. simpl.
  assert (Hei : ei = map (λ c, (cell_center grid_size c.1, cell_center grid_size c.2))
        (List.filter (λ c, is_void g c.1 c.2) (list_prod (zrange x0 x1) (zrange y0 y1))))
    by apply empty_interior_filter.
  assert (Hin : forall gx gy, In (gx, gy) (list_prod (zrange x0 x1) (zrange y0 y1)) ->
            is_void g gx gy = true -> In (cell_center grid_size gx, cell_center grid_size gy) ei).
  { intros gx gy Hc Hv. rewrite Hei. apply (in_map_iff _ _ _). exists (gx, gy).
    split; [done|]. by apply filter_In. }
  assert (Hex : (ex0 <= ex1 /\ ey0 <= ey1)%Q).
  { destruct (py_min_spec Qltb _ _ E5) as [Hm _]. destruct (py_min_spec Qltb _ _ E7) as [Hm' _].
    split; [eapply Qle_trans; [eapply py_min_Q_le; eauto|eapply py_max_Q_ge; eauto]|].
    eapply Qle_trans; [eapply py_min_Q_le; eauto|eapply py_max_Q_ge; eauto]. }
  split; [intros c n Hc; repeat split; eapply (keys_bounds g fst) || eapply (keys_bounds g snd); eauto|].
  split; [by rewrite Hei, length_map|].
  split; [destruct ei; [done|simpl; lia]|].
  split.
  { intros gx gy Hc Hv. pose proof (Hin _ _ Hc Hv) as Hi. simpl.
    repeat split; [eapply py_min_Q_le|eapply py_max_Q_ge|eapply py_min_Q_le|eapply py_max_Q_ge];
      eauto; [apply (in_map fst _ _ Hi)|apply (in_map fst _ _ Hi)|apply (in_map snd _ _ Hi)|apply (in_map snd _ _ Hi)]. }
  simpl. repeat split; lra.
Qed.
End PocketResult.

Section PocketFound.
Variable tol grid_size : Q.

(** (C26) Completeness: with at least ten slab points, a sparse cell with
    four dense cells around it, lying between occupied cells in both
    directions, makes [detect_pockets] report a pocket. *)
Theorem detect_pockets_found av mx my z gx gy a b c d na nb nc nd :
  let pts := slab_points tol av mx my z in
  let g := build_grid grid_size pts in
  (10 <= length pts)%nat ->
  g !! a = Some na -> g !! b = Some nb -> g !! c = Some nc -> g !! d = Some nd ->
  (a.1 <= gx <= b.1)%Z -> (c.2 <= gy <= d.2)%Z -> is_void g gx gy = true ->
  exists p, detect_pockets tol grid_size av mx my z = Some p.
Proof.
  intros pts g Hlen Ha Hb Hc Hd Hx Hy Hv. unfold detect_pockets. fold pts g.
  destruct (Nat.ltb_spec (length pts) 10) as [|_]; [lia|].
  assert (Hne : forall f : Z * Z -> Z, map f (map fst (map_to_list g)) <> []).
  { intros f. pose proof (in_keys g a na Ha) as Hk. by destruct (map fst (map_to_list g)). }
  destruct (py_min_some Z.ltb _ (Hne fst)) as [x0 E1]. destruct (py_max_some Z.ltb _ (Hne fst)) as [x1 E2].
  destruct (py_min_some Z.ltb _ (Hne snd)) as [y0 E3]. destruct (py_max_some Z.ltb _ (Hne snd)) as [y1 E4].
  rewrite E1, E2, E3, E4. simpl.
  pose proof (keys_bounds g fst x0 x1 a na E1 E2 Ha). pose proof (keys_bounds g fst x0 x1 b nb E1 E2 Hb).
  pose proof (keys_bounds g snd y0 y1 c nc E3 E4 Hc). pose proof (keys_bounds g snd y0 y1 d nd E3 E4 Hd).
  set (ei := empty_interior grid_size g _ _).
  assert (Hei : ei <> []).
  { unfold ei. rewrite empty_interior_filter. intros Hnil. apply map_eq_nil in Hnil.
    assert (In (gx, gy) (List.filter (λ c, is_void g c.1 c.2) (list_prod (zrange x0 x1) (zrange y0 y1))))
      as Hin by (apply filter_In; split; [apply in_prod; apply zrange_spec; simpl in *; lia|done]).
    rewrite Hnil in Hin. done. }
  assert (He : forall f : Q * Q -> Q, map f ei <> []) by (intros f; by destruct ei).
  destruct (py_min_some Qltb _ (He fst)) as [? ->]. destruct (py_max_some Qltb _ (He fst)) as [? ->].
  destruct (py_min_some Qltb _ (He snd)) as [? ->]. destruct (py_max_some Qltb _ (He snd)) as [? ->].
  simpl. eauto.
Qed.
End PocketFound.

(** The spec's ring test: a dense square annulus around an empty
    [4 x 4] centre, sliced at its height with the code's tolerance 0.3 and
    grid size 2, is reported as a pocket of four void cells whose centres
    span [5..7] in both directions: width and height 2, within one grid
    cell of the hole's true extent 4. *)
Theorem ring_pocket :
  match detect_pockets lit_0_3 2 ring_pts 0 0 0 with
  | Some p => p_count p = 4%nat /\ ((p_x_range p).1 == 5 /\ (p_x_range p).2 == 7 /\
              (p_y_range p).1 == 5 /\ (p_y_range p).2 == 7 /\ p_width p == 2 /\ p_height p == 2)%Q
  | None => False
  end.
Proof. vm_compute. repeat split; reflexivity. Qed.

(** The report lists a pocket at height [z] exactly when [z] is one of
    the nine levels and [detect_pockets] finds one there. *)
Lemma pocket_report_spec av mx my mnz mxz z p :
  In (z, p) (pocket_report av mx my mnz mxz) <->
  In z (pocket_z_levels mnz mxz) /\ detect_pockets lit_0_3 2 av mx my z = Some p.
Proof.
  unfold pocket_report. rewrite in_flat_map. split.
  - intros (z' & Hz & Hin). destruct (detect_pockets _ _ _ _ _ z') eqn:E; [|done].
    destruct Hin as [[= <- <-]|[]]. auto.
  - intros [Hz Hp]. exists z. rewrite Hp. auto with datatypes.
Qed.

(** ** Witnesses *)

Definition ring_grid : gmap (Z * Z) nat := build_grid 2 (slab_points lit_0_3 ring_pts 0 0 0).

Lemma detect_pockets_few_witness : detect_pockets lit_0_3 2 ring_pts 0 0 5 = None.
Proof. apply detect_pockets_few. vm_compute. lia. Defined.

Lemma detect_pockets_result_witness : (10 <= length (slab_points lit_0_3 ring_pts 0 0 0))%nat.
Proof.
  exact (proj1 (detect_pockets_result lit_0_3 2 ring_pts 0 0 0
    (Pocket 4 (10 # 2, 14 # 2) (10 # 2, 14 # 2) (8 # 4) (8 # 4)) ltac:(vm_compute; reflexivity))).
Defined.

Lemma detect_pockets_found_witness : exists p, detect_pockets lit_0_3 2 ring_pts 0 0 0 = Some p.
Proof.
  apply (detect_pockets_found lit_0_3 2 ring_pts 0 0 0 2 2 (1, 2) (4, 2) (2, 1) (2, 4) 3 3 3 3)%Z;
    vm_compute; (reflexivity || lia || idtac); repeat split; discriminate.
Defined.

Lemma neighbor_count_self_witness :
  neighbor_count ring_grid 2 2 = length (List.filter (λ d, dense ring_grid (2 + d.1, 2 + d.2)%Z) offsets8).
Proof. apply neighbor_count_self. vm_compute. reflexivity. Defined.
