(* ===== verification/Report.v ===== *)
(** * Report: the recommendation and the exit status (analyze-stl.py lines 184-186, 362-400)

    The recommendation is a function of the triangle count and two
    percentages computed from the normal counters; [recommend] is its
    [if]/[elif]/[else] chain, with the decimation ratio
    [max(0.1, 20000 / len(triangles))] of the polyhedron branch.  [main_exit]
    is the exit status of the command line: the usage and missing-file
    exits, an uncaught exception of the loader, and the return of
    [analyze] on an empty mesh. *)

From S2P Require Import Prelude Mesh StlBinary StlText StlLoader Metrics.

Inductive recommendation :=
| ManualParametric
| PolyhedronMode (reduce : option Q)
| SlicedMode.

(** Lines 368-386; [reduce] is the ratio suggested for more than 50000
    triangles. *)
Definition reduce_ratio (n : Z) : option Q :=
  if (50000 <? n)%Z then py_max Qltb [lit_0_1; 20000 / inject_Z n]%Q else None.

Definition recommend (n : Z) (flat_vertical_pct curve_pct : Q) : recommendation :=
  if (n <? 500)%Z && Qgtb flat_vertical_pct 80 then ManualParametric
  else if (1000 <? n)%Z || Qgtb curve_pct 30 then PolyhedronMode (reduce_ratio n)
  else SlicedMode.

(** [(top + bottom + vertical) / len(triangles) * 100] and
    [angled / len(triangles) * 100]. *)
Definition pct (k n : nat) : Q := (inject_Z (Z.of_nat k) / inject_Z (Z.of_nat n) * 100)%Q.

Definition analyze_recommendation (ts : list (triangle Q)) : recommendation :=
  let c := count_normals ts in
  recommend (Z.of_nat (length ts))
    (pct (n_top c + n_bottom c + n_vertical c) (length ts)) (pct (n_angled c) (length ts)).

(** The same decision on integers: [a] angled triangles out of [n]. *)
Definition recommend_counts (n a : Z) : recommendation :=
  if (n <? 500)%Z && (5 * a <? n)%Z then ManualParametric
  else if (1000 <? n)%Z || (3 * n <? 10 * a)%Z then PolyhedronMode (reduce_ratio n)
  else SlicedMode.

(** The exit status of [python analyze-stl.py ...] with [argc] entries in
    [sys.argv], [exists] for [os.path.exists(path)] and [data] the file.
    An exception escaping [analyze] ends the interpreter with status 1.
    [None] marks the runs the model does not follow to their end: the
    report of a mesh with an infinite or NaN coordinate. *)
Definition main_exit (argc : nat) (exists_ : bool) (data : list Byte.byte) : option nat :=
  if Nat.ltb argc 2 then Some 1%nat
  else if negb exists_ then Some 1%nat
  else match load_stl data with
       | Raise _ => Some 1%nat
       | Ok (_, []) => Some 0%nat
       | Ok (_, ts) => match finite_mesh ts with Some _ => Some 0%nat | None => None end
       end.

(** ** Theorems *)

(** The three recommendation cases the spec lists: 300 faces with 60%
    flat/vertical and 20% curved get the sliced mode; 1200 faces with 10%
    and 5% get the polyhedron mode (more than 1000 faces); 400 faces with
    85% and 2% get manual parametric modelling. *)
Theorem recommend_spec_cases :
  recommend 300 60 20 = SlicedMode /\ recommend 1200 10 5 = PolyhedronMode None /\
  recommend 400 85 2 = ManualParametric.
Proof. vm_compute. repeat split. Qed.


Lemma pct_gt_Z k n K :
  (0 < n)%nat -> Qgtb (pct k n) (inject_Z K) = Z.ltb (K * Z.of_nat n) (100 * Z.of_nat k).
Proof.
  intros Hn. unfold Qgtb, pct.
  set (N := inject_Z (Z.of_nat n)). set (X := inject_Z (Z.of_nat k)).
  assert (HN : (0 < N)%Q) by (unfold N; change 0%Q with (inject_Z 0); rewrite <-Zlt_Qlt; lia).
  assert (Hiff : (inject_Z K < X / N * 100 <-> inject_Z K * N < 100 * X)%Q).
  { rewrite <-(Qmult_lt_r (inject_Z K) (X / N * 100) N HN).
    assert (E : (X / N * 100 * N == 100 * X)%Q) by (field; lra). by rewrite E. }
  destruct (Qltb_spec (inject_Z K) (X / N * 100)) as [H|H];
    destruct (Z.ltb_spec (K * Z.of_nat n) (100 * Z.of_nat k)) as [H'|H']; try reflexivity; exfalso.
  - apply Hiff in H. unfold N, X in H. change 100%Q with (inject_Z 100) in H.
    rewrite <-!inject_Z_mult, <-Zlt_Qlt in H. lia.
  - apply H, Hiff. unfold N, X. change 100%Q with (inject_Z 100).
    rewrite <-!inject_Z_mult, <-Zlt_Qlt. lia.
Qed.

(** (C30) The percentages are only a detour: on a non-empty mesh with [n]
    triangles of which [a] are angled, the recommendation is manual when
    [n < 500] and [5a < n] (more than 80% flat or vertical), polyhedron
    when [n > 1000] or [10a > 3n] (more than 30% curved), sliced
    otherwise. *)
Theorem analyze_recommendation_counts ts :
  ts <> [] ->
  analyze_recommendation ts
  = recommend_counts (Z.of_nat (length ts)) (Z.of_nat (n_angled (count_normals ts))).
Proof.
  intros Hne. assert (Hn : (0 < length ts)%nat) by (destruct ts; [done|simpl; lia]).
  pose proof (count_normals_total ts) as Hp. unfold total in Hp.
  unfold analyze_recommendation, recommend, recommend_counts.
  change 80%Q with (inject_Z 80). change 30%Q with (inject_Z 30).
  rewrite !pct_gt_Z by done.
  set (c := count_normals ts) in *.
  replace (Z.of_nat (n_top c + n_bottom c + n_vertical c))
    with (Z.of_nat (length ts) - Z.of_nat (n_angled c))%Z by lia.
  destruct (Z.ltb_spec (80 * Z.of_nat (length ts)) (100 * (Z.of_nat (length ts) - Z.of_nat (n_angled c))));
    destruct (Z.ltb_spec (5 * Z.of_nat (n_angled c)) (Z.of_nat (length ts))); try lia;
    destruct (Z.ltb_spec (30 * Z.of_nat (length ts)) (100 * Z.of_nat (n_angled c)));
    destruct (Z.ltb_spec (3 * Z.of_nat (length ts)) (10 * Z.of_nat (n_angled c))); try lia;
    reflexivity.
Qed.

(** An empty mesh is reported ("No triangles found") and [analyze]
    returns normally: the process exits with status 0, not 1. *)
Theorem main_exit_empty_mesh argc data fmt :
  (2 <= argc)%nat -> load_stl data = Ok (fmt, []) -> main_exit argc true data = Some 0%nat.
Proof.
  intros Ha Hl. unfold main_exit. destruct (Nat.ltb_spec argc 2); [lia|]. by rewrite Hl.
Qed.

(** An exception of a reader ([struct.error] on a binary file shorter
    than 84 bytes, [ValueError] or [IndexError] in a text file) escapes
    [analyze]: the process exits with status 1. *)
Theorem main_exit_raise argc data e :
  (2 <= argc)%nat -> load_stl data = Raise e -> main_exit argc true data = Some 1%nat.
Proof.
  intros Ha Hl. unfold main_exit. destruct (Nat.ltb_spec argc 2); [lia|]. by rewrite Hl.
Qed.

(** ** Witnesses *)


Lemma analyze_recommendation_counts_witness :
  analyze_recommendation [unit_tri]
  = recommend_counts (Z.of_nat (length [unit_tri])) (Z.of_nat (n_angled (count_normals [unit_tri]))).
Proof. apply analyze_recommendation_counts. discriminate. Defined.

Lemma main_exit_empty_mesh_witness : main_exit 2 true (write_binary_stl nul_header 0 []) = Some 0%nat.
Proof. apply (main_exit_empty_mesh _ _ BinaryFmt); [lia|vm_compute; reflexivity]. Defined.

Lemma main_exit_raise_witness : main_exit 2 true [] = Some 1%nat.
Proof. apply (main_exit_raise _ _ StructError); [lia|vm_compute; reflexivity]. Defined.
