(* ===== verification/ScadGen.v ===== *)
(** * ScadGen: the pure parts of stl-to-scad.py

    [check_dependencies] (lines 23-57) tries to import each package the
    chosen mode needs and exits with status 1 listing the missing ones; the
    success of [import m] is the parameter [avail m].  [main] (lines
    229-241) exits on a missing input file, checks the dependencies and
    derives the default output path from the input's file name:
    [os.path.splitext(os.path.basename(input))[0]], lower-cased, its white
    space runs replaced by single dashes, under [output/].  Strings are
    ASCII strings; [str.lower] and [str.split] are their ASCII cases.

    [polyhedron_to_scad] (lines 89-112) prints [mesh.vertices] and
    [mesh.faces] as an OpenSCAD [polyhedron] call; its lines are
    [polyhedron_lines], joined with newlines.  The coordinates go through
    [f"{x:.6g}"], which is [PyFormat.fmt_g6]. *)

From S2P Require Import Prelude Float64 PyFormat Mesh StlText Metrics Histogram.
From Stdlib Require Import SpecFloat.
From stdpp Require Import pretty.

Local Open Scope string_scope.

(** ** The dependency check *)

(** The modules imported, each with the name reported for it. *)
Definition deps (mode : string) (reduce : option Q) : list (string * string) :=
  [("trimesh", "trimesh"); ("numpy", "numpy")] ++
  (if String.eqb mode "sliced" then [("shapely", "shapely"); ("rtree", "rtree")] else []) ++
  (match reduce with Some _ => [("fast_simplification", "fast-simplification")] | None => [] end).

(** [missing], in the order of the [try] blocks. *)
Definition missing_deps (avail : string -> bool) (mode : string) (reduce : option Q) : list string :=
  map snd (List.filter (λ d, negb (avail d.1)) (deps mode reduce)).

(** [', '.join(missing)] and [' '.join(missing)]. *)
Fixpoint join_with (sep : string) (l : list string) : string :=
  match l with
  | [] => EmptyString
  | [x] => x
  | x :: r => x ++ sep ++ join_with sep r
  end.

(** [None] when the check passes; otherwise the three printed lines,
    after which [sys.exit(1)] ends the process. *)
Definition check_dependencies (avail : string -> bool) (mode : string) (reduce : option Q)
    : option (list string) :=
  match missing_deps avail mode reduce with
  | [] => None
  | missing => Some ["Error: Missing dependencies: " ++ join_with ", " missing;
                     "Install with: pip install " ++ join_with " " missing;
                     "Or install all: pip install -r requirements.txt"]
  end.

(** ** The output path *)

(** [p[p.rfind('/') + 1:]], the basename; [cur] is the part after the
    last slash seen so far. *)
Fixpoint basename_acc (cur : list ascii) (l : list ascii) : list ascii :=
  match l with
  | [] => cur
  | c :: r => if Ascii.eqb c "/" then basename_acc [] r else basename_acc (cur ++ [c]) r
  end.

Definition py_basename (p : string) : string := string_of_list_ascii (basename_acc [] (list_ascii_of_string p)).

(** The index of the last ['.'], [rfind]. *)
Fixpoint last_dot_from (i : nat) (l : list ascii) (best : option nat) : option nat :=
  match l with
  | [] => best
  | c :: r => last_dot_from (S i) r (if Ascii.eqb c "." then Some i else best)
  end.

(** [os.path.splitext(p)[0]] on a name without a slash: the text before
    the last dot, unless only dots precede it (a leading-dot name such as
    [.stl] has no extension). *)
Definition splitext_root (p : string) : string :=
  let l := list_ascii_of_string p in
  match last_dot_from 0 l None with
  | Some i => if existsb (λ c, negb (Ascii.eqb c ".")) (take i l)
              then string_of_list_ascii (take i l) else p
  | None => p
  end.

(** [os.path.join(a, b)] for two components. *)
Definition path_join (a b : string) : string :=
  if String.prefix "/" b then b
  else if String.eqb a EmptyString then b
  else if String.eqb (String.substring (String.length a - 1) 1 a) "/" then a ++ b
  else a ++ "/" ++ b.

(** [base = "-".join(base.lower().split())]. *)
Definition out_base (input : string) : string :=
  join_with "-" (py_split (lower (splitext_root (py_basename input)))).

Definition default_out_path (input : string) : string :=
  path_join "output" (out_base input ++ ".scad").

(** Lines 236-241: [args.output] when given and not empty. *)
Definition out_path (output : option string) (input : string) : string :=
  match output with
  | Some o => if String.eqb o EmptyString then default_out_path input else o
  | None => default_out_path input
  end.

(** Lines 229-233: the exit status when the run stops before converting,
    [None] when it goes on to load the mesh. *)
Definition scad_main_exit (isfile : bool) (avail : string -> bool) (mode : string)
    (reduce : option Q) : option nat :=
  if negb isfile then Some 1%nat
  else match check_dependencies avail mode reduce with Some _ => Some 1%nat | None => None end.

(** ** The polyhedron printer (lines 89-112) *)

(** [for i, v in enumerate(xs): comma = "," if i < len(xs) - 1 else ""]. *)
Definition enum_lines {A} (line : A -> string -> string) (xs : list A) : list string :=
  imap (λ i x, line x (if Nat.ltb i (length xs - 1) then "," else EmptyString)) xs.

Definition point_line (v : vec3 Q) (comma : string) : string :=
  "    [" ++ fmt_g6 (vx v) ++ "," ++ fmt_g6 (vy v) ++ "," ++ fmt_g6 (vz v) ++ "]" ++ comma.

Definition face_line (f : Z * Z * Z) (comma : string) : string :=
  "    [" ++ pretty f.1.1 ++ "," ++ pretty f.1.2 ++ "," ++ pretty f.2 ++ "]" ++ comma.

(** The lines of [polyhedron_to_scad(mesh)], before ["\n".join(lines)];
    [mesh.vertices] and [mesh.faces] are the two lists. *)
Definition polyhedron_lines (verts : list (vec3 Q)) (faces : list (Z * Z * Z)) : list string :=
  ["// Auto-generated from STL — polyhedron mode";
   "// Vertices: " ++ pretty (length verts) ++ ", Faces: " ++ pretty (length faces);
   EmptyString; "polyhedron("; "  points=["] ++
  enum_lines point_line verts ++ ["  ],"; "  faces=["] ++
  enum_lines face_line faces ++ ["  ]"; ");"].

Definition polyhedron_to_scad (verts : list (vec3 Q)) (faces : list (Z * Z * Z)) : string :=
  join_with (String (ascii_of_nat 10) EmptyString) (polyhedron_lines verts faces).

(** ** Loading and centring (lines 60-86)

    [trimesh.load] and [fast_simplification.simplify] are libraries; the
    model takes the loaded triangles and keeps the arithmetic of the
    script: the translation of lines 67-72 and the decimation target of
    line 77.  [mesh.bounds] is the box of the vertices, [bounding_box]. *)

(** [[-center_x, -center_y, -min_z]]. *)
Definition center_offset (b : bbox) : vec3 Q :=
  Vec3 (- ((min_x b + max_x b) / 2))%Q (- ((min_y b + max_y b) / 2))%Q (- min_z b)%Q.

Definition vec_add (v o : vec3 Q) : vec3 Q := Vec3 (vx v + vx o)%Q (vy v + vy o)%Q (vz v + vz o)%Q.

(** [mesh.apply_translation(offset)]: the vertices move, the normals do
    not. *)
Definition translate_tri (o : vec3 Q) (t : triangle Q) : triangle Q :=
  Tri (normal t) (vec_add (v1 t) o) (vec_add (v2 t) o) (vec_add (v3 t) o).

Definition center_mesh (ts : list (triangle Q)) : option (list (triangle Q)) :=
  b ← bounding_box ts; Some (map (translate_tri (center_offset b)) ts).

(** [float(s)] of a decimal [m / 10^k], as argparse's [type=float] reads
    [--reduce]: the correctly rounded quotient, exact operands below
    [2^53]. *)
Definition float_of_decimal (m : Z) (k : nat) : spec_float := f64_int_div m (10 ^ Z.of_nat k).

(** [target = int(len(mesh.faces) * reduce)], in binary64. *)
Definition reduce_target (nfaces : nat) (reduce : spec_float) : Z :=
  f64_trunc (f64_mul (f64_of_Z (Z.of_nat nfaces)) reduce).

(** ** Lemmas on the centring *)

Lemma all_verts_translate o ts :
  all_verts (map (translate_tri o) ts) = map (λ v, vec_add v o) (all_verts ts).
Proof. induction ts as [|t ts IH]; [done|]. simpl. by rewrite IH. Qed.

Lemma Qltb_plus_r c x y : Qltb (x + c) (y + c) = Qltb x y.
Proof.
  destruct (Qltb_spec x y), (Qltb_spec (x + c) (y + c)); try done; exfalso; lra.
Qed.

(** Translating the vertices translates the box. *)
Lemma bounding_box_translate ts o b :
  bounding_box ts = Some b ->
  bounding_box (map (translate_tri o) ts)
  = Some (BBox (min_x b + vx o) (max_x b + vx o) (min_y b + vy o) (max_y b + vy o)
               (min_z b + vz o) (max_z b + vz o)).
Proof.
  unfold bounding_box. rewrite all_verts_translate. set (av := all_verts ts).
  replace (map vx (map _ av)) with (map (λ y, y + vx o) (map vx av))%Q by (rewrite !map_map; done).
  replace (map vy (map _ av)) with (map (λ y, y + vy o) (map vy av))%Q by (rewrite !map_map; done).
  replace (map vz (map _ av)) with (map (λ y, y + vz o) (map vz av))%Q by (rewrite !map_map; done).
  rewrite !(py_min_map Qltb Qltb (λ x, x + _)%Q), !(py_max_map Qltb Qltb (λ x, x + _)%Q)
    by (intros; apply Qltb_plus_r).
  destruct (py_min Qltb (map vx _)), (py_max Qltb (map vx _)), (py_min Qltb (map vy _)),
    (py_max Qltb (map vy _)), (py_min Qltb (map vz _)), (py_max Qltb (map vz _)); simpl;
    intros; simplify_eq; done.
Qed.

(** ** Lemmas on the characters of the derived name *)

(** A character the output file name may hold: not white space, not a
    slash, not an upper-case ASCII letter. *)
Definition name_char (c : ascii) : Prop :=
  py_isspace c = false /\ c <> "/"%char /\ ~ (65 <= nat_of_ascii c <= 90)%nat.

Lemma basename_acc_no_slash cur l c :
  (forall d, In d cur -> d <> "/"%char) -> In c (basename_acc cur l) -> c <> "/"%char.
Proof.
  revert cur. induction l as [|d l IH]; intros cur Hcur Hc; simpl in Hc; [auto|].
  destruct (Ascii.eqb_spec d "/") as [->|Hd].
  - by apply (IH [] (λ e He, match He with end)).
  - refine (IH _ _ Hc). intros e [He|[<-|[]]]%in_app_iff; auto.
Qed.

Lemma splitext_root_sub p c :
  In c (list_ascii_of_string (splitext_root p)) -> In c (list_ascii_of_string p).
Proof.
  unfold splitext_root. destruct (last_dot_from _ _ _) as [i|]; [|done].
  destruct (existsb _ _); [|done]. rewrite list_ascii_of_string_of_list_ascii.
  intros H. rewrite <-(take_drop i (list_ascii_of_string p)). apply in_app_iff. by left.
Qed.

Lemma lower_chars s c :
  In c (list_ascii_of_string (lower s)) -> exists d, In d (list_ascii_of_string s) /\ c = ascii_lower d.
Proof.
  unfold lower. rewrite list_ascii_of_string_of_list_ascii, in_map_iff. intros (d & <- & Hd). eauto.
Qed.

Lemma ascii_lower_not_upper d : ~ (65 <= nat_of_ascii (ascii_lower d) <= 90)%nat.
Proof. destruct d as [[] [] [] [] [] [] [] []]; vm_compute; lia. Qed.

Lemma ascii_lower_slash d : ascii_lower d = "/"%char -> d = "/"%char.
Proof. destruct d as [[] [] [] [] [] [] [] []]; vm_compute; congruence. Qed.

Lemma split_acc_chars cur s t c :
  (forall d, In d cur -> py_isspace d = false) -> In t (split_acc cur s) ->
  In c (list_ascii_of_string t) -> (In c cur \/ In c (list_ascii_of_string s)) /\ py_isspace c = false.
Proof.
  revert cur. induction s as [|d s IH]; intros cur Hcur Ht Hc; simpl in Ht |- *.
  - destruct cur; [done|]. destruct Ht as [<-|[]].
    rewrite list_ascii_of_string_of_list_ascii, <-in_rev in Hc. auto.
  - destruct (py_isspace d) eqn:Hd.
    + assert (Hrest : In t (split_acc [] s) -> (In c cur \/ d = c \/ In c (list_ascii_of_string s)) /\ py_isspace c = false).
      { intros Ht'. destruct (IH [] ltac:(done) Ht' Hc) as [[[]|] ?]; auto. }
      destruct cur as [|e cur]; [by apply Hrest|].
      destruct Ht as [<-|Ht]; [|by apply Hrest].
      rewrite list_ascii_of_string_of_list_ascii, <-in_rev in Hc. auto.
    + destruct (IH (d :: cur)) as [[[<-|]|] ?]; auto.
      intros e [<-|]; auto.
Qed.

Lemma py_split_chars s t c :
  In t (py_split s) -> In c (list_ascii_of_string t) ->
  In c (list_ascii_of_string s) /\ py_isspace c = false.
Proof.
  intros Ht Hc. destruct (split_acc_chars [] s t c) as [[[]|] ?]; auto. by intros d [].
Qed.

Lemma join_with_chars sep ts c :
  In c (list_ascii_of_string (join_with sep ts)) ->
  In c (list_ascii_of_string sep) \/ exists t, In t ts /\ In c (list_ascii_of_string t).
Proof.
  induction ts as [|t ts IH]; simpl; [done|]. destruct ts as [|t' ts].
  - eauto.
  - rewrite !list_ascii_app, !in_app_iff. intros [H|[H|H]]; eauto.
    destruct (IH H) as [|(u & Hu & Hc)]; eauto.
Qed.

Lemma out_base_chars input c : In c (list_ascii_of_string (out_base input)) -> name_char c.
Proof.
  intros Hc. unfold out_base in Hc. apply join_with_chars in Hc as [Hc|(t & Ht & Hc)].
  - destruct Hc as [<-|[]]. split; [reflexivity|]. split; [discriminate|vm_compute; lia].
  - destruct (py_split_chars _ _ _ Ht Hc) as [Hl Hsp].
    apply lower_chars in Hl as (d & Hd & ->).
    split; [done|]. split; [|apply ascii_lower_not_upper].
    intros Hs. apply ascii_lower_slash in Hs. subst d.
    apply splitext_root_sub in Hd. unfold py_basename in Hd.
    rewrite list_ascii_of_string_of_list_ascii in Hd.
    by apply (basename_acc_no_slash [] _ "/"%char (λ e He, match He with end)) in Hd.
Qed.

Lemma default_out_path_eq input : default_out_path input = "output/" ++ out_base input ++ ".scad".
Proof.
  pose proof (out_base_chars input) as Hbase.
  unfold default_out_path, path_join.
  destruct (out_base input) as [|c0 b]; [reflexivity|].
  destruct (Hbase c0 (or_introl eq_refl)) as (_ & Hc0 & _).
  assert (Hp : String.prefix "/" (String c0 b ++ ".scad") = false).
  { simpl. case_match; [congruence|reflexivity]. }
  rewrite Hp. reflexivity.
Qed.

(** ** Lemmas on the printed lines *)

Lemma length_enum_lines {A} (line : A -> string -> string) xs :
  length (enum_lines line xs) = length xs.
Proof. apply length_imap. Qed.

Lemma enum_lines_lookup {A} (line : A -> string -> string) xs i x :
  xs !! i = Some x ->
  enum_lines line xs !! i = Some (line x (if Nat.ltb (S i) (length xs) then "," else EmptyString)).
Proof.
  intros Hx. pose proof (lookup_lt_Some _ _ _ Hx).
  unfold enum_lines. rewrite list_lookup_imap, Hx. simpl.
  replace (Nat.ltb i (length xs - 1)) with (Nat.ltb (S i) (length xs)); [done|].
  destruct (Nat.ltb_spec i (length xs - 1)), (Nat.ltb_spec (S i) (length xs)); lia.
Qed.

(** Arithmetic on the lengths of the printed pieces: side conditions of
    [lookup_app_l]/[lookup_app_r], and the rewriting of a lookup's index
    to [k]. *)
Local Ltac len_tac := rewrite ?length_app, ?length_enum_lines; simpl; lia.
Local Ltac at_index k := match goal with |- _ !! ?n = _ => replace n with k by len_tac end.

(** ** Theorems *)

(** (C40) The default output file stays in [output/]: its name is the
    input's base name followed by [.scad], and that base name holds no
    white space, no slash and no upper-case letter. *)
Theorem default_out_path_safe input :
  exists base, default_out_path input = "output/" ++ base ++ ".scad" /\
    forall c, In c (list_ascii_of_string base) -> name_char c.
Proof. exists (out_base input). split; [apply default_out_path_eq|apply out_base_chars]. Qed.

(** The dependency check passes exactly when every module the mode
    needs imports, and then reports exactly the missing ones; outside the
    sliced mode and without [--reduce] only trimesh and numpy matter. *)
Theorem check_dependencies_spec avail mode reduce :
  (check_dependencies avail mode reduce = None <->
     forall m r, In (m, r) (deps mode reduce) -> avail m = true) /\
  (forall r, In r (missing_deps avail mode reduce) <->
     exists m, In (m, r) (deps mode reduce) /\ avail m = false) /\
  (String.eqb mode "sliced" = false -> reduce = None ->
     check_dependencies avail mode reduce = None <-> avail "trimesh" = true /\ avail "numpy" = true).
Proof.
  assert (Hmiss : forall r, In r (missing_deps avail mode reduce) <->
            exists m, In (m, r) (deps mode reduce) /\ avail m = false).
  { intros r. unfold missing_deps. rewrite in_map_iff. split.
    - intros ([m r'] & <- & (Hin & Ha)%filter_In). apply negb_true_iff in Ha. eauto.
    - intros (m & Hin & Ha). exists (m, r). split; [done|]. apply filter_In. simpl. by rewrite Ha. }
  assert (Hc : check_dependencies avail mode reduce = None <-> missing_deps avail mode reduce = [])
    by (unfold check_dependencies; destruct (missing_deps _ _ _); split; done).
  assert (Hnone : check_dependencies avail mode reduce = None <->
            forall m r, In (m, r) (deps mode reduce) -> avail m = true).
  { rewrite Hc. split.
    - intros E m r Hin. destruct (avail m) eqn:Ha; [done|].
      pose proof (proj2 (Hmiss r) (ex_intro _ m (conj Hin Ha))) as Hr. by rewrite E in Hr.
    - intros Hall. destruct (missing_deps avail mode reduce) as [|r0 rs] eqn:E; [done|].
      destruct (proj1 (Hmiss r0)) as (m & Hin & Ha); [by left|].
      rewrite (Hall _ _ Hin) in Ha. discriminate. }
  split; [done|]. split; [done|]. intros Hm ->. rewrite Hnone. unfold deps. rewrite Hm. simpl.
  split.
  - intros H. split; [apply (H _ "trimesh")|apply (H _ "numpy")]; auto.
  - intros [Ht Hn] m r [[= <- _]|[[= <- _]|[]]]; done.
Qed.

(** (C15) The generated polyhedron source is a well-formed OpenSCAD
    call: the five header lines, one point line per vertex in order, each
    but the last followed by a comma, the closing [  ],] and [  faces=[],
    one face line per face in order with the same comma rule, then [  ]]
    and [);], and nothing else. *)
Theorem polyhedron_lines_spec verts faces :
  length (polyhedron_lines verts faces) = length verts + length faces + 9 /\
  take 5 (polyhedron_lines verts faces) =
    ["// Auto-generated from STL — polyhedron mode";
     "// Vertices: " ++ pretty (length verts) ++ ", Faces: " ++ pretty (length faces);
     EmptyString; "polyhedron("; "  points=["] /\
  (forall i v, verts !! i = Some v ->
     polyhedron_lines verts faces !! (5 + i)
     = Some (point_line v (if Nat.ltb (S i) (length verts) then "," else EmptyString))) /\
  polyhedron_lines verts faces !! (5 + length verts) = Some "  ]," /\
  polyhedron_lines verts faces !! (6 + length verts) = Some "  faces=[" /\
  (forall j f, faces !! j = Some f ->
     polyhedron_lines verts faces !! (7 + length verts + j)
     = Some (face_line f (if Nat.ltb (S j) (length faces) then "," else EmptyString))) /\
  polyhedron_lines verts faces !! (7 + length verts + length faces) = Some "  ]" /\
  polyhedron_lines verts faces !! (8 + length verts + length faces) = Some ");".
Proof.
  unfold polyhedron_lines. split_and!.
  - rewrite !length_app, !length_enum_lines. simpl. lia.
  - reflexivity.
  - intros i v Hi. pose proof (lookup_lt_Some _ _ _ Hi).
    rewrite lookup_app_r, lookup_app_l by len_tac.
    at_index i. by apply enum_lines_lookup.
  - rewrite lookup_app_r, lookup_app_r by len_tac. at_index 0. done.
  - rewrite lookup_app_r, lookup_app_r by len_tac. at_index 1. done.
  - intros j f Hj. pose proof (lookup_lt_Some _ _ _ Hj).
    rewrite !app_assoc, lookup_app_l, lookup_app_r by len_tac.
    at_index j. by apply enum_lines_lookup.
  - rewrite !app_assoc, lookup_app_r by len_tac. at_index 0. done.
  - rewrite !app_assoc, lookup_app_r by len_tac. at_index 1. done.
Qed.


(** ** Witnesses *)

Example default_out_path_sample :
  default_out_path "models/My Bracket  v2.STL" = "output/my-bracket-v2.scad".
Proof. reflexivity. Qed.

Example check_dependencies_sample :
  check_dependencies (λ m, String.eqb m "numpy") "sliced" (Some 0%Q)
  = Some ["Error: Missing dependencies: trimesh, shapely, rtree, fast-simplification";
          "Install with: pip install trimesh shapely rtree fast-simplification";
          "Or install all: pip install -r requirements.txt"].
Proof. reflexivity. Qed.

(** [polyhedron_to_scad] on four vertices and four faces prints what the
    script prints for them, [.6g] rounding included: [1234567] as
    [1.23457e+06], [100000.5] to the even [100000], [999999.5] carried to
    [1e+06], [2.5e-05] in the [e] notation and [0.0001] in the fixed one. *)
Example polyhedron_lines_sample :
  polyhedron_lines
    [(@Vec3 Q 0 0 0)%Q; (@Vec3 Q 10 (-1 # 2) 1234567)%Q;
     (@Vec3 Q (1 # 10000) (25 # 1000000) (-314159265 # 100000000))%Q;
     (@Vec3 Q (200001 # 2) (1999999 # 2) (3333333333 # 10000000000))%Q]
    [(0, 1, 2); (0, 1, 3); (0, 2, 3); (1, 2, 3)]%Z
  = ["// Auto-generated from STL — polyhedron mode"; "// Vertices: 4, Faces: 4";
     EmptyString; "polyhedron("; "  points=[";
     "    [0,0,0],"; "    [10,-0.5,1.23457e+06],"; "    [0.0001,2.5e-05,-3.14159],";
     "    [100000,1e+06,0.333333]"; "  ],"; "  faces=[";
     "    [0,1,2],"; "    [0,1,3],"; "    [0,2,3],"; "    [1,2,3]"; "  ]"; ");"].
Proof. vm_compute. reflexivity. Qed.

Lemma default_out_path_safe_witness :
  exists base, default_out_path "models/My Bracket  v2.STL" = "output/" ++ base ++ ".scad" /\
    forall c, In c (list_ascii_of_string base) -> name_char c.
Proof. apply default_out_path_safe. Defined.

Lemma check_dependencies_spec_witness :
  String.eqb "polyhedron" "sliced" = false /\
  (check_dependencies (λ _, true) "polyhedron" None = None <->
     (λ _ : string, true) "trimesh" = true /\ (λ _ : string, true) "numpy" = true).
Proof.
  split; [reflexivity|].
  apply (check_dependencies_spec (λ _, true) "polyhedron" None); reflexivity.
Defined.

