(* ===== verification/SlicedGen.v ===== *)
(** * SlicedGen: [sliced_to_scad] (stl-to-scad.py lines 115-191)

    The sliced mode cuts the centred mesh by horizontal planes at the
    heights [np.arange(z_min, z_max + z_step / 2, z_step)] and extrudes
    each simplified outline by [z_step].  The heights are binary64
    values computed the way numpy computes them; the cutting and the
    simplification are trimesh's and shapely's, which the model takes as
    an oracle [section] from a height to what [mesh.section] and
    [to_2D] give there.  The loop's [try]/[except Exception: continue]
    is written out: an exception inside the loop over the polygons of one
    level leaves that level, and what the level appended to [lines] before
    it stays there, as does the count [slice_count]. *)

From S2P Require Import Prelude Float64 PyFormat ScadGen.
From Stdlib Require Import SpecFloat.
From stdpp Require Import pretty.

Local Open Scope string_scope.

(** ** [np.arange] on floats

    numpy's [_calc_length]: the length is the ceiling of
    [(stop - start) / step] in binary64; a NaN quotient raises
    [ValueError] ("arange: cannot compute length"), a quotient outside the
    range of [npy_intp] (as compared in [double]) raises [OverflowError].
    A zero quotient of a non-zero difference (an underflow, or a division
    by an infinity) gives the length 1, or 0 when the zero is negative.
    A step of zero is a float division by zero of numpy scalars, which
    gives an infinity or a NaN, not an exception of its own. *)
Definition arange_length (start stop step : spec_float) : result Z :=
  let diff := f64_sub stop start in
  match f64_div diff step with
  | S754_nan => Raise ValueError
  | S754_infinity _ => Raise OverflowError
  | S754_zero neg =>
      match diff with
      | S754_zero _ => Ok 0%Z
      | _ => Ok (if neg then 0%Z else 1%Z)
      end
  | q =>
      let n := Qceiling (f64_to_Q q) in
      if (n <? - 2 ^ 63)%Z || (2 ^ 63 <? n)%Z then Raise OverflowError else Ok n
  end.

(** [PyArray_ArangeObj]: no element for a length below one, [start] and
    [start + step] as the first two, and [fill]'s [start + i * delta]
    with [delta = (start + step) - start] from the third on. *)
Definition arange (start stop step : spec_float) : result (list spec_float) :=
  n ← arange_length start stop step;
  if (n <=? 0)%Z then Ok [] else
  let next := f64_add start step in
  if (n =? 1)%Z then Ok [start] else
  let delta := f64_sub next start in
  Ok (start :: next :: map (λ i, f64_add start (f64_mul (f64_of_Z (Z.of_nat i)) delta))
                           (seq 2 (Z.to_nat n - 2))).

(** ** What the mesh library gives at one height *)

(** A ring of a shapely polygon: its coordinates, the closing duplicate
    of the first point included. *)
Definition ring := list (spec_float * spec_float).

(** [polygon.simplify(tolerance, preserve_topology=True)] for one polygon
    of [planar.polygons_full]. *)
Inductive poly_result :=
| PolyRaise                                     (** [simplify] or the reading of its result raised *)
| PolyEmpty                                     (** [simplified.is_empty] *)
| PolyOk (exterior : ring) (interiors : list ring).

(** [mesh.section(...)] and [section.to_2D()] at one height. *)
Inductive section_result :=
| SecNone                                       (** [section is None] *)
| SecRaise                                      (** [section] or [to_2D] raised *)
| SecPlanar (planar : option (list poly_result)) (offset_x offset_y : spec_float).

(** ** The generated lines *)

(** [f"[{x:.4f},{y:.4f}]"] of a point moved by the offset. *)
Definition point_text (ox oy : spec_float) (p : spec_float * spec_float) : string :=
  "[" ++ fmt_f64_fixed 4 (f64_add p.1 ox) ++ "," ++ fmt_f64_fixed 4 (f64_add p.2 oy) ++ "]".

(** [",".join(...)] over [list(ring.coords)[:-1]]. *)
Definition points_text (ox oy : spec_float) (r : ring) : string :=
  join_with "," (map (point_text ox oy) (removelast r)).

(** Lines 166-168 (and 180-182 for a hole). *)
Definition extrude_lines (z z_step : spec_float) (pts : string) : list string :=
  ["  translate([0,0," ++ fmt_f64_fixed 4 z ++ "])";
   "    linear_extrude(height=" ++ fmt_f64_fixed 4 z_step ++ ")";
   "      polygon(points=[" ++ pts ++ "]);"].

(** Lines 171-182: a comment and the same extrusion for each hole. *)
Definition hole_lines (z z_step ox oy : spec_float) (r : ring) : list string :=
  ("  // hole at z=" ++ fmt_f64_fixed 1 z) :: extrude_lines z z_step (points_text ox oy r).

(** The lines of one simplified polygon, its holes after it. *)
Definition polygon_lines (z z_step ox oy : spec_float) (ext : ring) (ints : list ring) : list string :=
  app (extrude_lines z z_step (points_text ox oy ext)) (concat (map (hole_lines z z_step ox oy) ints)).

(** The two variables the loop mutates. *)
Record slice_state := SliceState { lines : list string; slice_count : nat }.

(** Lines 153-184: the polygons of one level in order; an exception
    leaves the loop with what was appended so far. *)
Fixpoint polygons_step (z z_step ox oy : spec_float) (st : slice_state) (ps : list poly_result) : slice_state :=
  match ps with
  | [] => st
  | PolyRaise :: _ => st
  | PolyEmpty :: ps' => polygons_step z z_step ox oy st ps'
  | PolyOk ext ints :: ps' =>
      polygons_step z z_step ox oy
        (SliceState (app (lines st) (polygon_lines z z_step ox oy ext ints)) (S (slice_count st))) ps'
  end.

(** ** The output described without the loop

    The polygons of one level that the code prints: those before the
    first exception, the empty ones left out. *)
Fixpoint emitted (ps : list poly_result) : list (ring * list ring) :=
  match ps with
  | [] | PolyRaise :: _ => []
  | PolyEmpty :: ps' => emitted ps'
  | PolyOk ext ints :: ps' => (ext, ints) :: emitted ps'
  end.

Section Sliced.
Variable section : spec_float -> section_result.

(** Lines 134-187: one height; [None], an empty outline and an exception
    before the polygons all go on to the next height. *)
Definition level_step (z_step : spec_float) (st : slice_state) (z : spec_float) : slice_state :=
  match section z with
  | SecNone | SecRaise | SecPlanar None _ _ | SecPlanar (Some []) _ _ => st
  | SecPlanar (Some ps) ox oy => polygons_step z z_step ox oy st ps
  end.

(** Lines 127-131: [total_height = z_max - z_min] and [len(z_levels)]. *)
Definition sliced_header (z_step tolerance total_height : spec_float) (nlevels : nat) : list string :=
  ["// Auto-generated from STL — sliced mode";
   "// Z-step: " ++ py_repr z_step ++ "mm, tolerance: " ++ py_repr tolerance ++ "mm";
   "// Height: " ++ fmt_f64_fixed 2 total_height ++ "mm, slices: " ++ pretty nlevels;
   EmptyString; "union() {"].

(** Lines 119-190: the header, the levels, the closing brace and the
    count.  [z_min] and [z_max] are [mesh.bounds[0][2]] and
    [mesh.bounds[1][2]]; an exception of [np.arange] leaves the function. *)
Definition sliced_lines (z_min z_max z_step tolerance : spec_float) : result (list string) :=
  let total_height := f64_sub z_max z_min in
  z_levels ← arange z_min (f64_add z_max (f64_div z_step (f64_of_Z 2))) z_step;
  let header := sliced_header z_step tolerance total_height (length z_levels) in
  let st := fold_left (level_step z_step) z_levels (SliceState header 0) in
  Ok (app (lines st) ["}"; "// Total slices generated: " ++ pretty (slice_count st)]).

(** [return "\n".join(lines)]. *)
Definition sliced_to_scad (z_min z_max z_step tolerance : spec_float) : result string :=
  ls ← sliced_lines z_min z_max z_step tolerance;
  Ok (join_with (String (ascii_of_nat 10) EmptyString) ls).

(** The blocks of lines of one height, one per printed polygon. *)
Definition level_blocks (z_step z : spec_float) : list (list string) :=
  match section z with
  | SecPlanar (Some ps) ox oy => map (λ '(ext, ints), polygon_lines z z_step ox oy ext ints) (emitted ps)
  | _ => []
  end.

End Sliced.

(** ** Lemmas *)

Lemma polygons_step_emitted z z_step ox oy st ps :
  polygons_step z z_step ox oy st ps =
  SliceState (app (lines st) (concat (map (λ '(ext, ints), polygon_lines z z_step ox oy ext ints) (emitted ps))))
             (slice_count st + length (emitted ps)).
Proof.
  revert st. induction ps as [|[| |ext ints] ps IH]; intros [ls n]; simpl;
    rewrite ?app_nil_r, ?Nat.add_0_r; try done.
  rewrite IH. simpl. rewrite <-app_assoc, Nat.add_succ_r. done.
Qed.

Lemma level_step_blocks section z_step st z :
  level_step section z_step st z =
  SliceState (app (lines st) (concat (level_blocks section z_step z)))
             (slice_count st + length (level_blocks section z_step z)).
Proof.
  unfold level_step, level_blocks.
  destruct (section z) as [| |[[|p ps]|] ox oy]; cbn beta iota;
    try (destruct st; cbn; rewrite app_nil_r, Nat.add_0_r; done).
  rewrite polygons_step_emitted, length_map. done.
Qed.

Lemma fold_level_step section z_step zs st :
  fold_left (level_step section z_step) zs st =
  SliceState (app (lines st) (concat (flat_map (level_blocks section z_step) zs)))
             (slice_count st + length (flat_map (level_blocks section z_step) zs)).
Proof.
  revert st. induction zs as [|z zs IH]; intros st; simpl.
  - rewrite app_nil_r, Nat.add_0_r. by destruct st.
  - rewrite IH, level_step_blocks. simpl.
    by rewrite concat_app, length_app, app_assoc, Nat.add_assoc.
Qed.

(** (C16) The loop of lines 134-187, with its mutable [lines] and
    [slice_count] and its exceptions caught per height, prints the
    header, then for each height in turn one block of lines per polygon
    printed before the first exception of that height (the empty ones
    left out), then the closing brace and a count equal to the number of
    those blocks; an exception of [np.arange] escapes. *)
Theorem sliced_lines_spec section z_min z_max z_step tolerance :
  sliced_lines section z_min z_max z_step tolerance =
  match arange z_min (f64_add z_max (f64_div z_step (f64_of_Z 2))) z_step with
  | Raise e => Raise e
  | Ok levels =>
      let blocks := flat_map (level_blocks section z_step) levels in
      Ok (app (sliced_header z_step tolerance (f64_sub z_max z_min) (length levels))
           (app (concat blocks) ["}"; "// Total slices generated: " ++ pretty (length blocks)]))
  end.
Proof.
  unfold sliced_lines. destruct (arange _ _ _) as [levels|e]; [|done].
  rewrite result_bind_ok, fold_level_step. done.
Qed.

(** A division by a zero is a NaN or an infinity. *)
Lemma f64_div_zero x s : f64_div x (S754_zero s) = S754_nan \/ exists s', f64_div x (S754_zero s) = S754_infinity s'.
Proof. unfold f64_div, SFdiv. destruct x; eauto. Qed.

Lemma arange_zero_step start stop s : exists e, arange start stop (S754_zero s) = Raise e.
Proof.
  unfold arange, arange_length. cbn zeta.
  destruct (f64_div_zero (f64_sub stop start) s) as [->|[s' ->]]; eauto.
Qed.

Lemma f64_div_nan x : f64_div x S754_nan = S754_nan.
Proof. unfold f64_div, SFdiv. by destruct x. Qed.

Lemma concat_in_split {A} (x : list A) (L : list (list A)) :
  In x L -> exists pre post, concat L = app pre (app x post).
Proof.
  induction L as [|y L IH]; intros Hin; [done|]. destruct Hin as [<-|Hin]; simpl.
  - by exists [], (concat L).
  - destruct (IH Hin) as (pre & post & ->). exists (app y pre), post. by rewrite app_assoc.
Qed.

(** ** Theorems *)

(** [--z-step 0] and [--z-step nan] are not rejected by the
    argument parser, and [np.arange] then raises out of [sliced_to_scad]
    whatever the mesh: [(stop - start) / 0] is a NaN or an infinity, a
    NaN step makes the quotient NaN. *)
Theorem sliced_bad_step section z_min z_max tolerance :
  (forall s, exists e, sliced_to_scad section z_min z_max (S754_zero s) tolerance = Raise e) /\
  sliced_to_scad section z_min z_max S754_nan tolerance = Raise ValueError.
Proof.
  split.
  - intros s. destruct (arange_zero_step z_min (f64_add z_max (f64_div (S754_zero s) (f64_of_Z 2))) s) as [e He].
    exists e. unfold sliced_to_scad, sliced_lines. by rewrite He.
  - unfold sliced_to_scad, sliced_lines, arange, arange_length. by rewrite f64_div_nan.
Qed.


(** ** Witnesses

    A unit square with a triangular hole, cut at every height into the
    outline, a polygon whose simplification raises, and the square again:
    the exception drops the third polygon of each level. *)

Definition f64_one : spec_float := S754_finite false (2 ^ 52) (-52).
Definition f64_half : spec_float := S754_finite false (2 ^ 52) (-53).
Definition f64_zero : spec_float := S754_zero false.

Definition unit_square : ring :=
  [(f64_zero, f64_zero); (f64_one, f64_zero); (f64_one, f64_one); (f64_zero, f64_one); (f64_zero, f64_zero)].

Definition corner_hole : ring :=
  [(f64_half, f64_half); (f64_one, f64_half); (f64_half, f64_one); (f64_half, f64_half)].

Definition square_polys : list poly_result :=
  [PolyOk unit_square [corner_hole]; PolyRaise; PolyOk unit_square []].

Definition square_section (z : spec_float) : section_result := SecPlanar (Some square_polys) f64_half f64_zero.

(** [--z-step 0.5 --tolerance 0.1] on a part 1 mm high: three heights,
    the offset [0.5] added to every x. *)
Example sliced_square :
  sliced_lines square_section f64_zero f64_one f64_half (S754_finite false 7205759403792794 (-56))
  = Ok ["// Auto-generated from STL — sliced mode";
        "// Z-step: 0.5mm, tolerance: 0.1mm";
        "// Height: 1.00mm, slices: 3"; EmptyString; "union() {";
        "  translate([0,0,0.0000])"; "    linear_extrude(height=0.5000)";
        "      polygon(points=[[0.5000,0.0000],[1.5000,0.0000],[1.5000,1.0000],[0.5000,1.0000]]);";
        "  // hole at z=0.0"; "  translate([0,0,0.0000])"; "    linear_extrude(height=0.5000)";
        "      polygon(points=[[1.0000,0.5000],[1.5000,0.5000],[1.0000,1.0000]]);";
        "  translate([0,0,0.5000])"; "    linear_extrude(height=0.5000)";
        "      polygon(points=[[0.5000,0.0000],[1.5000,0.0000],[1.5000,1.0000],[0.5000,1.0000]]);";
        "  // hole at z=0.5"; "  translate([0,0,0.5000])"; "    linear_extrude(height=0.5000)";
        "      polygon(points=[[1.0000,0.5000],[1.5000,0.5000],[1.0000,1.0000]]);";
        "  translate([0,0,1.0000])"; "    linear_extrude(height=0.5000)";
        "      polygon(points=[[0.5000,0.0000],[1.5000,0.0000],[1.5000,1.0000],[0.5000,1.0000]]);";
        "  // hole at z=1.0"; "  translate([0,0,1.0000])"; "    linear_extrude(height=0.5000)";
        "      polygon(points=[[1.0000,0.5000],[1.5000,0.5000],[1.0000,1.0000]]);";
        "}"; "// Total slices generated: 3"].
Proof. vm_compute. reflexivity. Qed.

(** [--z-step -1] is not rejected either: on a part 0.2 mm high the
    quotient [(0.2 - 0.5) / -1] has the ceiling 1, and the one slice is
    extruded by a negative height. *)
Example sliced_negative_step :
  sliced_lines square_section f64_zero (S754_finite false 7205759403792794 (-55))
    (S754_finite true (2 ^ 52) (-52)) (S754_finite false 7205759403792794 (-56))
  = Ok ["// Auto-generated from STL — sliced mode";
        "// Z-step: -1.0mm, tolerance: 0.1mm";
        "// Height: 0.20mm, slices: 1"; EmptyString; "union() {";
        "  translate([0,0,0.0000])"; "    linear_extrude(height=-1.0000)";
        "      polygon(points=[[0.5000,0.0000],[1.5000,0.0000],[1.5000,1.0000],[0.5000,1.0000]]);";
        "  // hole at z=0.0"; "  translate([0,0,0.0000])"; "    linear_extrude(height=-1.0000)";
        "      polygon(points=[[1.0000,0.5000],[1.5000,0.5000],[1.0000,1.0000]]);";
        "}"; "// Total slices generated: 1"].
Proof. vm_compute. reflexivity. Qed.

