(* ===== verification/ScadMain.v ===== *)
(** * ScadMain: the converter's [main] (stl-to-scad.py lines 194-276)

    The run of the command as the sequence of its effects on the
    outside world (the lines printed, the directory created, the file
    written) and its exit status.  The arguments are those [argparse]
    returns; the outcome of [trimesh.load] (a float mesh or an
    exception) is a parameter, the centring of [load_and_center] is
    computed in binary64, and [fast_simplification] is a Section variable
    [simplify]; the two durations measured with [time.time()] are
    parameters as well.  An exception
    that escapes [main] ends the process with the status 1 after the
    effects so far. *)

From S2P Require Import Prelude Float64 PyFormat Mesh ScadGen SlicedGen.
From Stdlib Require Import SpecFloat.
From stdpp Require Import pretty.

Local Open Scope string_scope.

(** ** Effects and arguments *)

Inductive effect :=
| Print (line : string)
| MakeDirs (dir : string)
| WriteFile (path contents : string).

(** The effects in order and the exit status. *)
Record run := Run { effects : list effect; status : nat }.

(** [args] after [parser.parse_args()]. *)
Record scad_args := ScadArgs {
  arg_input : string; arg_output : option string; arg_mode : string;
  arg_reduce : option spec_float; arg_z_step : spec_float; arg_tolerance : spec_float
}.

(** [mesh.vertices] (float64) and [mesh.faces]. *)
Record loaded_mesh := LoadedMesh { mesh_verts : list (vec3 spec_float); mesh_faces : list (Z * Z * Z) }.

(** ** [mesh.bounds] and the path of the output *)

Definition f64_ltb (a b : spec_float) : bool := Qltb (f64_to_Q a) (f64_to_Q b).

(** The vertices some face refers to, in order (trimesh's
    [referenced_vertices]). *)
Definition referenced (m : loaded_mesh) : list (vec3 spec_float) :=
  let used i := existsb (λ f : Z * Z * Z, Z.eqb f.1.1 i || Z.eqb f.1.2 i || Z.eqb f.2 i) (mesh_faces m) in
  map snd (List.filter (λ iv, used (Z.of_nat iv.1)) (zip (seq 0 (length (mesh_verts m))) (mesh_verts m))).

(** [mesh.bounds]: the least and greatest coordinate on each axis over
    the referenced vertices, [None] when there is none. *)
Definition mesh_bounds (m : loaded_mesh) : option (vec3 spec_float * vec3 spec_float) :=
  let vs := referenced m in
  mnx ← py_min f64_ltb (map vx vs); mxx ← py_max f64_ltb (map vx vs);
  mny ← py_min f64_ltb (map vy vs); mxy ← py_max f64_ltb (map vy vs);
  mnz ← py_min f64_ltb (map vz vs); mxz ← py_max f64_ltb (map vz vs);
  Some (Vec3 mnx mny mnz, Vec3 mxx mxy mxz).

Fixpoint lstrip_slashes (l : list ascii) : list ascii :=
  match l with c :: r => if Ascii.eqb c "/" then lstrip_slashes r else l | [] => [] end.

(** [os.path.dirname(p)]: [head = p[:p.rfind('/') + 1]], without its
    trailing slashes unless it is empty or all slashes. *)
Definition py_dirname (p : string) : string :=
  let l := list_ascii_of_string p in
  let head := take (length l - length (basename_acc [] l)) l in
  if forallb (λ c, Ascii.eqb c "/") head then string_of_list_ascii head
  else string_of_list_ascii (rev (lstrip_slashes (rev head))).

Definition vec_to_Q (v : vec3 spec_float) : vec3 Q := Vec3 (f64_to_Q (vx v)) (f64_to_Q (vy v)) (f64_to_Q (vz v)).

(** ** [load_and_center] in binary64 (lines 60-86) *)

(** [[-center_x, -center_y, -min_z]] with [center_x = (bounds[0][0] +
    bounds[1][0]) / 2]. *)
Definition center_offset_f64 (b : vec3 spec_float * vec3 spec_float) : vec3 spec_float :=
  Vec3 (SFopp (f64_div (f64_add (vx b.1) (vx b.2)) (f64_of_Z 2)))
       (SFopp (f64_div (f64_add (vy b.1) (vy b.2)) (f64_of_Z 2)))
       (SFopp (vz b.1)).

(** [mesh.apply_translation(t)] on one vertex: each coordinate plus the
    offset, rounded. *)
Definition translate_f64 (t v : vec3 spec_float) : vec3 spec_float :=
  Vec3 (f64_add (vx v) (vx t)) (f64_add (vy v) (vy t)) (f64_add (vz v) (vz t)).

(** ** The run *)

Section Main.
Variable section : spec_float -> section_result.
(** [fast_simplification.simplify] at a target face count, the new
    [Trimesh] and [fix_normals]. *)
Variable simplify : loaded_mesh -> Z -> loaded_mesh.

(** Lines 60-86 after [trimesh.load]: the centring, then the decimation
    to [int(len(mesh.faces) * reduce)] faces when [--reduce] is given; a
    mesh without vertices has no [bounds] and [bounds[0][0]] raises. *)
Definition load_and_center (reduce : option spec_float) (m : loaded_mesh) : result loaded_mesh :=
  match mesh_bounds m with
  | None => Raise TypeError
  | Some b =>
      let m' := LoadedMesh (map (translate_f64 (center_offset_f64 b)) (mesh_verts m)) (mesh_faces m) in
      match reduce with
      | None => Ok m'
      | Some r => Ok (simplify m' (reduce_target (length (mesh_faces m')) r))
      end
  end.

(** Lines 254-256. *)
Definition loaded_lines (dims : vec3 spec_float) (nfaces : nat) (load_time : spec_float) : list string :=
  ["  Dimensions: " ++ fmt_f64_fixed 2 (vx dims) ++ " x " ++ fmt_f64_fixed 2 (vy dims) ++ " x "
     ++ fmt_f64_fixed 2 (vz dims) ++ " mm";
   "  Faces: " ++ fmt_commas (Z.of_nat nfaces);
   "  Loaded in " ++ fmt_f64_fixed 2 load_time ++ "s"].

(** Lines 262-265: the code of the chosen mode. *)
Definition convert (a : scad_args) (m : loaded_mesh) (b : vec3 spec_float * vec3 spec_float) : result string :=
  if String.eqb (arg_mode a) "polyhedron" then Ok (polyhedron_to_scad (map vec_to_Q (mesh_verts m)) (mesh_faces m))
  else sliced_to_scad section (vz b.1) (vz b.2) (arg_z_step a) (arg_tolerance a).

(** Lines 229-276.  [isfile] is [os.path.isfile(args.input)], [avail]
    the modules that import, [load] the outcome of [trimesh.load];
    the file is written as UTF-8, whose bytes are the characters of the
    model's strings, so [os.path.getsize] is their number. *)
Definition scad_main (isfile : bool) (avail : string -> bool) (a : scad_args) (load : result loaded_mesh)
    (load_time convert_time : spec_float) : run :=
  if negb isfile then Run [Print ("Error: File not found: " ++ arg_input a)] 1 else
  match check_dependencies avail (arg_mode a) (option_map f64_to_Q (arg_reduce a)) with
  | Some msg => Run (map Print msg) 1
  | None =>
  let out := out_path (arg_output a) (arg_input a) in
  let dir := py_dirname out in
  let pre := [MakeDirs (if String.eqb dir EmptyString then "." else dir); Print ("Loading: " ++ arg_input a)] in
  match load ≫= load_and_center (arg_reduce a) with
  | Raise _ => Run pre 1
  | Ok m =>
  match mesh_bounds m with
  | None => Run pre 1
  | Some b =>
  let dims := Vec3 (f64_sub (vx b.2) (vx b.1)) (f64_sub (vy b.2) (vy b.1)) (f64_sub (vz b.2) (vz b.1)) in
  let pre := app pre (map Print (app (loaded_lines dims (length (mesh_faces m)) load_time)
                                  ["Converting (" ++ arg_mode a ++ " mode)..."])) in
  match convert a m b with
  | Raise _ => Run pre 1
  | Ok code =>
      Run (app pre [WriteFile out code;
                    Print ("  Converted in " ++ fmt_f64_fixed 2 convert_time ++ "s");
                    Print ("  Output: " ++ out ++ " (" ++ fmt_commas (Z.of_nat (String.length code)) ++ " bytes)");
                    Print "Done."]) 0
  end end end end.

End Main.

(** ** Lemmas *)

Lemma basename_acc_plain cur l : (forall d, In d l -> d <> "/"%char) -> basename_acc cur l = app cur l.
Proof.
  revert cur. induction l as [|c l IH]; intros cur H; simpl; [by rewrite app_nil_r|].
  destruct (Ascii.eqb_spec c "/") as [Hc|_]; [exfalso; exact (H c (or_introl eq_refl) Hc)|].
  rewrite IH; [by rewrite <-app_assoc|intros d Hd; apply H; by right].
Qed.

(** The directory of [output/<base>.scad] is [output]. *)
Lemma py_dirname_output base :
  (forall c, In c (list_ascii_of_string base) -> c <> "/"%char) ->
  py_dirname ("output/" ++ base ++ ".scad") = "output".
Proof.
  intros H. unfold py_dirname.
  rewrite !list_ascii_of_string_app.
  remember (app (list_ascii_of_string base) (list_ascii_of_string ".scad")) as X eqn:HX.
  assert (HXs : forall d, In d X -> d <> "/"%char).
  { subst X. intros d [Hd|Hd]%in_app_iff; [by apply H|]. simpl in Hd. intuition congruence. }
  cbn [list_ascii_of_string app basename_acc Ascii.eqb]. rewrite (basename_acc_plain [] X HXs).
  match goal with |- context [take ?n _] => replace n with 7%nat by (simpl; lia) end.
  reflexivity.
Qed.

Lemma scad_main_prints_only section simplify isfile avail a load lt ct k :
  scad_main_exit isfile avail (arg_mode a) (option_map f64_to_Q (arg_reduce a)) = Some k ->
  status (scad_main section simplify isfile avail a load lt ct) = k /\
  Forall (λ e, exists l, e = Print l) (effects (scad_main section simplify isfile avail a load lt ct)).
Proof.
  unfold scad_main_exit, scad_main. destruct isfile; simpl.
  - destruct (check_dependencies _ _ _) as [msg|]; [|discriminate]. intros [= <-].
    split; [done|]. apply Forall_forall. intros e He.
    apply list_elem_of_In, in_map_iff in He as (l & <- & _). eauto.
  - intros [= <-]. split; [done|]. repeat constructor. eauto.
Qed.

(** ** Theorems *)

(** The converter's run refines the exit model of lines 229-233:
    when the file is missing or a dependency does not import, the run
    only prints and ends with that status; otherwise its first effect is
    the creation of the output directory. *)
Theorem scad_main_exit_refined section simplify isfile avail a load load_time convert_time :
  match scad_main_exit isfile avail (arg_mode a) (option_map f64_to_Q (arg_reduce a)) with
  | Some k =>
      status (scad_main section simplify isfile avail a load load_time convert_time) = k /\
      Forall (λ e, exists l, e = Print l) (effects (scad_main section simplify isfile avail a load load_time convert_time))
  | None => exists dir, head (effects (scad_main section simplify isfile avail a load load_time convert_time)) = Some (MakeDirs dir)
  end.
Proof.
  destruct (scad_main_exit _ _ _ _) as [k|] eqn:E; [by apply scad_main_prints_only|].
  revert E. unfold scad_main_exit, scad_main. destruct isfile; [|discriminate]. simpl.
  destruct (check_dependencies _ _ _); [discriminate|]. intros _.
  destruct (load ≫= _) as [m|]; [|by eexists]. destruct (mesh_bounds m); [|by eexists].
  destruct (convert _ _ _ _); by eexists.
Qed.

(** (C17) [--mode sliced --z-step 0]: the output directory is created,
    the mesh loaded and its dimensions printed, and then [np.arange]
    raises: the process ends with the status 1 after ["Converting (sliced
    mode)..."], and no file is written. *)
Theorem scad_main_zero_step section simplify avail a m0 m b s load_time convert_time :
  arg_mode a = "sliced" -> arg_z_step a = S754_zero s ->
  check_dependencies avail "sliced" (option_map f64_to_Q (arg_reduce a)) = None ->
  load_and_center simplify (arg_reduce a) m0 = Ok m -> mesh_bounds m = Some b ->
  exists dir l1 l2 l3,
    scad_main section simplify true avail a (Ok m0) load_time convert_time =
    Run [MakeDirs dir; Print ("Loading: " ++ arg_input a); Print l1; Print l2; Print l3;
         Print "Converting (sliced mode)..."] 1.
Proof.
  intros Hm Hz Hd Hl Hb. unfold scad_main. rewrite Hm, Hd, result_bind_ok, Hl, Hb. simpl negb. cbv iota beta.
  unfold convert. rewrite Hm. cbn [String.eqb Ascii.eqb Bool.eqb andb].
  unfold sliced_to_scad, sliced_lines. rewrite Hz.
  destruct (arange_zero_step (vz b.1) (f64_add (vz b.2) (f64_div (S754_zero s) (f64_of_Z 2))) s) as [e He].
  rewrite He. simpl. by do 4 eexists.
Qed.

(** (C21) [--mode polyhedron] without [-o] on a mesh that loads: the
    directory [output] is created first, the polyhedron code of the
    mesh is written to [output/<base>.scad], its size in bytes is
    printed, and the run ends with the status 0 after ["Done."]. *)
Theorem scad_main_polyhedron section simplify avail a m0 m b load_time convert_time :
  arg_mode a = "polyhedron" -> arg_output a = None ->
  check_dependencies avail "polyhedron" (option_map f64_to_Q (arg_reduce a)) = None ->
  load_and_center simplify (arg_reduce a) m0 = Ok m -> mesh_bounds m = Some b ->
  let code := polyhedron_to_scad (map vec_to_Q (mesh_verts m)) (mesh_faces m) in
  let r := scad_main section simplify true avail a (Ok m0) load_time convert_time in
  status r = 0 /\ head (effects r) = Some (MakeDirs "output") /\
  In (WriteFile (default_out_path (arg_input a)) code) (effects r) /\
  In (Print ("  Output: " ++ default_out_path (arg_input a) ++ " ("
             ++ fmt_commas (Z.of_nat (String.length code)) ++ " bytes)")) (effects r) /\
  last (effects r) = Some (Print "Done.").
Proof.
  intros Hm Ho Hd Hl Hb code r. subst r code. unfold scad_main. rewrite Hm, Hd, Ho, result_bind_ok, Hl, Hb.
  simpl negb. cbv iota beta.
  unfold convert. rewrite Hm. cbn [String.eqb Ascii.eqb Bool.eqb andb]. unfold out_path.
  assert (Hdir : py_dirname (default_out_path (arg_input a)) = "output").
  { rewrite default_out_path_eq. apply py_dirname_output. intros c Hc. apply (out_base_chars _ _ Hc). }
  rewrite Hdir. cbn [String.eqb effects status head].
  split_and!; [done|done| | |].
  - apply in_or_app. right. left. done.
  - apply in_or_app. right. right. right. left. done.
  - rewrite last_app. done.
Qed.

(** ** Witnesses *)

(** [os.path.dirname] as CPython computes it. *)
Example py_dirname_samples :
  map py_dirname ["a/b"; "a/"; "/a"; "//a"; "a//b"; "abc"; "/"; "a/b//"; "output/x.scad"]
  = ["a"; "a"; "/"; "//"; "a"; EmptyString; "/"; "a/b"; "output"].
Proof. vm_compute. reflexivity. Qed.

(** A tetrahedron with its vertices at the origin and on the three unit
    axes. *)
Definition tetra : loaded_mesh :=
  LoadedMesh [Vec3 f64_zero f64_zero f64_zero; Vec3 f64_one f64_zero f64_zero;
              Vec3 f64_zero f64_one f64_zero; Vec3 f64_zero f64_zero f64_one]
             [(0, 2, 1); (0, 1, 3); (0, 3, 2); (1, 2, 3)]%Z.

Definition tetra_args (mode : string) (z_step : spec_float) : scad_args :=
  ScadArgs "My Part.stl" None mode None z_step (S754_finite false 7205759403792794 (-56)).

(** The whole run in polyhedron mode: the directory, the five lines of
    progress, the file with the tetrahedron centred on the origin in x
    and y, its size in bytes, ["Done."]. *)
Example scad_main_tetra :
  scad_main square_section (λ m _, m) true (λ _, true) (tetra_args "polyhedron" f64_half) (Ok tetra) f64_half f64_zero
  = Run [MakeDirs "output"; Print "Loading: My Part.stl"; Print "  Dimensions: 1.00 x 1.00 x 1.00 mm";
         Print "  Faces: 4"; Print "  Loaded in 0.50s"; Print "Converting (polyhedron mode)...";
         WriteFile "output/my-part.scad"
           (join_with (String (ascii_of_nat 10) EmptyString)
              ["// Auto-generated from STL — polyhedron mode"; "// Vertices: 4, Faces: 4"; EmptyString;
               "polyhedron("; "  points=["; "    [-0.5,-0.5,0],"; "    [0.5,-0.5,0],"; "    [-0.5,0.5,0],";
               "    [-0.5,-0.5,1]"; "  ],"; "  faces=["; "    [0,2,1],"; "    [0,1,3],"; "    [0,3,2],";
               "    [1,2,3]"; "  ]"; ");"]);
         Print "  Converted in 0.00s"; Print "  Output: output/my-part.scad (241 bytes)"; Print "Done."] 0.
Proof. vm_compute. reflexivity. Qed.

(** The centred tetrahedron. *)
Definition tetra_centred : loaded_mesh :=
  LoadedMesh [Vec3 (SFopp f64_half) (SFopp f64_half) f64_zero; Vec3 f64_half (SFopp f64_half) f64_zero;
              Vec3 (SFopp f64_half) f64_half f64_zero; Vec3 (SFopp f64_half) (SFopp f64_half) f64_one]
             (mesh_faces tetra).

Definition tetra_box : vec3 spec_float * vec3 spec_float :=
  (Vec3 (SFopp f64_half) (SFopp f64_half) f64_zero, Vec3 f64_half f64_half f64_one).

Lemma scad_main_zero_step_witness :
  arg_mode (tetra_args "sliced" f64_zero) = "sliced" /\ arg_z_step (tetra_args "sliced" f64_zero) = S754_zero false /\
  check_dependencies (λ _, true) "sliced" (option_map f64_to_Q (arg_reduce (tetra_args "sliced" f64_zero))) = None /\
  load_and_center (λ m _, m) (arg_reduce (tetra_args "sliced" f64_zero)) tetra = Ok tetra_centred /\
  mesh_bounds tetra_centred = Some tetra_box /\
  exists dir l1 l2 l3,
    scad_main square_section (λ m _, m) true (λ _, true) (tetra_args "sliced" f64_zero) (Ok tetra) f64_half f64_zero =
    Run [MakeDirs dir; Print ("Loading: " ++ arg_input (tetra_args "sliced" f64_zero)); Print l1; Print l2; Print l3;
         Print "Converting (sliced mode)..."] 1.
Proof.
  split_and!; try (vm_compute; reflexivity).
  apply (scad_main_zero_step square_section (λ m _, m) (λ _, true) (tetra_args "sliced" f64_zero) tetra tetra_centred
           tetra_box false);
    vm_compute; reflexivity.
Defined.

Lemma scad_main_polyhedron_witness :
  arg_mode (tetra_args "polyhedron" f64_half) = "polyhedron" /\ arg_output (tetra_args "polyhedron" f64_half) = None /\
  check_dependencies (λ _, true) "polyhedron" (option_map f64_to_Q (arg_reduce (tetra_args "polyhedron" f64_half))) = None /\
  load_and_center (λ m _, m) (arg_reduce (tetra_args "polyhedron" f64_half)) tetra = Ok tetra_centred /\
  mesh_bounds tetra_centred = Some tetra_box /\
  let code := polyhedron_to_scad (map vec_to_Q (mesh_verts tetra_centred)) (mesh_faces tetra_centred) in
  let r := scad_main square_section (λ m _, m) true (λ _, true) (tetra_args "polyhedron" f64_half) (Ok tetra)
             f64_half f64_zero in
  status r = 0 /\ head (effects r) = Some (MakeDirs "output") /\
  In (WriteFile (default_out_path (arg_input (tetra_args "polyhedron" f64_half))) code) (effects r) /\
  In (Print ("  Output: " ++ default_out_path (arg_input (tetra_args "polyhedron" f64_half)) ++ " ("
             ++ fmt_commas (Z.of_nat (String.length code)) ++ " bytes)")) (effects r) /\
  last (effects r) = Some (Print "Done.").
Proof.
  split_and!; try (vm_compute; reflexivity).
  apply (scad_main_polyhedron square_section (λ m _, m) (λ _, true) (tetra_args "polyhedron" f64_half) tetra
           tetra_centred tetra_box);
    vm_compute; reflexivity.
Defined.
