(* ===== verification/AnalyzeReport.v ===== *)
(** * AnalyzeReport: the printed report of [analyze] (analyze-stl.py lines 171-386, 389-400)

    [analyze(filepath)] prints its report section by section.  The model
    is the list of lines printed ([print()] is the empty line), built from
    the components: the bounding box of [Metrics], the normal counters,
    the histogram of [Histogram], the slices of [CrossSection], the
    pictures of [AsciiArt], the surfaces of [Surfaces], the pockets of
    [Pockets] and the recommendation of [Report].  The numbers go through
    the formats of [PyFormat].  The percentages [100 * k / n] are printed
    from the float the division gives ([f64_int_div]); the coordinates are
    exact, as everywhere in the development.  [main_run] is the command
    line: the usage and missing-file messages, the loader, and the report,
    with the printed lines and the exit status. *)

From S2P Require Import Prelude Float64 PyFormat Mesh StlBinary StlLoader Metrics Surfaces CrossSection AsciiArt Histogram Pockets Report ScadGen.
From Stdlib Require Import SpecFloat.
From stdpp Require Import gmap pretty.

Local Open Scope string_scope.

(** ** The sections of the report *)

Definition fmt_stl_format (f : stl_format) : string :=
  match f with AsciiFmt => "ASCII" | BinaryFmt => "Binary" end.

(** Lines 197-201. *)
Definition header_lines (name : string) (filesize : nat) (f : stl_format) (n : nat) : list string :=
  ["File: " ++ name; "Format: " ++ fmt_stl_format f;
   "Size: " ++ fmt_commas (Z.of_nat filesize) ++ " bytes";
   "Triangles: " ++ fmt_commas (Z.of_nat n); EmptyString].

(** Lines 202-208: the bounds, the extents [w], [h], [d] and the centre. *)
Definition bbox_lines (b : bbox) : list string :=
  ["Bounding box:";
   "  X: " ++ fmt_fixed 2 (min_x b) ++ " to " ++ fmt_fixed 2 (max_x b)
     ++ "  (width:  " ++ fmt_fixed 2 (max_x b - min_x b) ++ " mm)";
   "  Y: " ++ fmt_fixed 2 (min_y b) ++ " to " ++ fmt_fixed 2 (max_y b)
     ++ "  (height: " ++ fmt_fixed 2 (max_y b - min_y b) ++ " mm)";
   "  Z: " ++ fmt_fixed 2 (min_z b) ++ " to " ++ fmt_fixed 2 (max_z b)
     ++ "  (depth:  " ++ fmt_fixed 2 (max_z b - min_z b) ++ " mm)";
   "  Center: (" ++ fmt_fixed 2 ((min_x b + max_x b) / 2) ++ ", "
     ++ fmt_fixed 2 ((min_y b + max_y b) / 2) ++ ", " ++ fmt_fixed 2 ((min_z b + max_z b) / 2) ++ ")";
   EmptyString].

(** [{100*k/len(triangles):.0f}%]. *)
Definition pct_text (k n : nat) : string :=
  fmt_fixed 0 (f64_to_Q (f64_int_div (100 * Z.of_nat k) (Z.of_nat n))) ++ "%".

(** Lines 225-233. *)
Definition normals_lines (c : normal_counts) (n : nat) : list string :=
  ["Face normals:";
   "  Top-facing (flat):    " ++ pad_left 6 (pretty (n_top c)) ++ "  (" ++ pct_text (n_top c) n ++ ")";
   "  Bottom-facing (flat): " ++ pad_left 6 (pretty (n_bottom c)) ++ "  (" ++ pct_text (n_bottom c) n ++ ")";
   "  Vertical (walls):     " ++ pad_left 6 (pretty (n_vertical c)) ++ "  (" ++ pct_text (n_vertical c) n ++ ")";
   "  Angled (curves/bevel):" ++ pad_left 6 (pretty (n_angled c)) ++ "  (" ++ pct_text (n_angled c) n ++ ")";
   EmptyString].

Definition shape_name (s : shape) : string :=
  match s with
  | Circular => "circular" | RoughlyCircular => "roughly circular/oval" | Irregular => "irregular"
  end.

(** Lines 298-307, one line per height. *)
Definition slice_line (zi : Q * option slice_info) : string :=
  "  z=" ++ fmt_fixed 1 zi.1 ++ ": " ++
  match zi.2 with
  | Some i =>
      shape_name (si_shape i) ++ " (" ++ fmt_fixed 1 (si_width i) ++ " x " ++ fmt_fixed 1 (si_height i)
      ++ " mm, r~" ++ fmt_fixed 1 (si_avg_radius i) ++ " mm, variation=" ++ fmt_fixed 3 (si_variation i)
      ++ ", pts=" ++ pretty (si_verts i) ++ ")"
  | None => "insufficient data"
  end.

(** Lines 329-333 and 336-340: [{z:5.1f}] and [{count:4d}]. *)
Definition surface_lines (title : string) (m : gmap Z nat) : list string :=
  title :: map (λ zc, "  z=" ++ pad_left 5 (fmt_fixed 1 (Qmake zc.1 10)) ++ ": "
                      ++ pad_left 4 (pretty zc.2) ++ " faces") (surface_levels m)
  ++ [EmptyString].

(** Lines 351-356. *)
Definition pocket_line (zp : Q * pocket) : string :=
  let p := zp.2 in
  "  z=" ++ fmt_fixed 1 zp.1 ++ ": " ++ pretty (p_count p) ++ " void cells, region: "
  ++ fmt_fixed 0 (p_width p) ++ " x " ++ fmt_fixed 0 (p_height p) ++ " mm at X=["
  ++ fmt_fixed 0 (p_x_range p).1 ++ "," ++ fmt_fixed 0 (p_x_range p).2 ++ "] Y=["
  ++ fmt_fixed 0 (p_y_range p).1 ++ "," ++ fmt_fixed 0 (p_y_range p).2 ++ "]".

(** Lines 343-360: [found_pockets] stays false exactly when no level has a
    pocket. *)
Definition pocket_lines (ps : list (Q * pocket)) : list string :=
  "Pocket/void detection:" ::
  match ps with
  | [] => ["  No internal voids detected (solid object)"]
  | _ => map pocket_line ps
  end ++ [EmptyString].

(** ** The recommendation as printed (lines 362-386) *)

(** [flat_vertical_pct] and [curve_pct]: a float division, then a float
    product by [100]. *)
Definition pct_f64 (k n : nat) : spec_float :=
  f64_mul (f64_int_div (Z.of_nat k) (Z.of_nat n)) (f64_of_Z 100).

(** [ratio = max(0.1, 20000 / len(triangles))]: [max] keeps its first
    argument unless the second is larger. *)
Definition ratio_f64 (n : nat) : spec_float :=
  let r := f64_int_div 20000 (Z.of_nat n) in
  let tenth := f64_int_div 1 10 in
  if Qltb (f64_to_Q tenth) (f64_to_Q r) then r else tenth.

(** Lines 380-382, [int(len(triangles)*ratio)] in binary64. *)
Definition consider_line (n : nat) : string :=
  let r := ratio_f64 n in
  "    Consider: --reduce " ++ fmt_fixed 1 (f64_to_Q r) ++ " to reduce from "
  ++ fmt_commas (Z.of_nat n) ++ " to ~"
  ++ fmt_commas (f64_trunc (f64_mul (f64_of_Z (Z.of_nat n)) r)) ++ " faces".

Definition rule : string := string_of_list_ascii (repeat "="%char 60).

Definition recommendation_lines (c : normal_counts) (n : nat) : list string :=
  let fv := pct_f64 (n_top c + n_bottom c + n_vertical c) n in
  let cp := pct_f64 (n_angled c) n in
  [rule; "Recommended reconstruction:"] ++
  match recommend (Z.of_nat n) (f64_to_Q fv) (f64_to_Q cp) with
  | ManualParametric =>
      ["  >>Manual parametric (simple geometry: " ++ pretty n ++ " faces, "
         ++ fmt_fixed 0 (f64_to_Q fv) ++ "% flat/vertical)";
       "    Write OpenSCAD by hand using dimensions above.";
       "    Best for: boxes, plates, simple brackets, geometric shapes"]
  | PolyhedronMode _ =>
      ["  >>Polyhedron (complex: " ++ fmt_commas (Z.of_nat n) ++ " faces, "
         ++ fmt_fixed 0 (f64_to_Q cp) ++ "% curved)";
       "    python scripts/stl-to-scad.py <file>";
       "    Perfect fidelity, ~1s render, valid manifold"] ++
      (if (50000 <? Z.of_nat n)%Z then [consider_line n] else [])
  | SlicedMode =>
      ["  >>Sliced cross-section (medium: " ++ fmt_commas (Z.of_nat n) ++ " faces, "
         ++ fmt_fixed 0 (f64_to_Q cp) ++ "% curved)";
       "    python scripts/stl-to-scad.py <file> --mode sliced";
       "    Approximate but editable in OpenSCAD"]
  end ++ [rule].

(** ** The report and the command line *)

Section Analyze.
(** [math.sqrt] and [** 0.5], as in [CrossSection]. *)
Variable sqrt pow_half : Q -> Q.

(** [analyze] after the reader: the error message of an empty mesh, or
    the whole report.  [min] of an empty list raises [ValueError]. *)
Definition analyze_report (name : string) (filesize : nat) (f : stl_format) (ts : list (triangle Q))
    : result (list string) :=
  match ts with
  | [] => Ok ["Error: No triangles found in file."]
  | _ =>
      match bounding_box ts with
      | None => Raise ValueError
      | Some b =>
          let av := all_verts ts in
          let n := length ts in
          let c := count_normals ts in
          hist ← z_level_report (z_hist av);
          let surf := detect_surfaces ts (min_y b) in
          Ok (header_lines name filesize f n ++ bbox_lines b ++ normals_lines c n
              ++ hist ++ [EmptyString]
              ++ "Cross-section analysis:"
                 :: map slice_line (cross_sections sqrt pow_half av (min_z b) (max_z b)) ++ [EmptyString]
              ++ "ASCII cross-sections (# = geometry present):"
                 :: ascii_sections av (min_z b) (max_z b) (max_x b - min_x b) (max_y b - min_y b)
              ++ [EmptyString]
              ++ surface_lines "Floor surfaces (top-facing flat faces by Z level):" surf.1
              ++ surface_lines "Ceiling surfaces (bottom-facing flat faces by Z level):" surf.2
              ++ pocket_lines (pocket_report av (min_x b) (min_y b) (min_z b) (max_z b))
              ++ recommendation_lines c n)%list
      end
  end.

(** The command line (lines 389-400) on [sys.argv], with [exists] for
    [os.path.exists(path)] and [data] the bytes of the file: the printed
    lines and the exit status.  An exception ends the run with status 1
    after the lines printed before it; the readers raise before anything
    is printed.  [None] marks the runs the model does not follow: a mesh
    with an infinite or NaN coordinate. *)
Definition main_run (argv : list string) (exists_ : bool) (data : list Byte.byte)
    : option (list string * nat) :=
  match argv with
  | [] => None
  | [a0] => Some (["Usage: " ++ a0 ++ " <file.stl>"], 1%nat)
  | _ :: path :: _ =>
      if negb exists_ then Some (["Error: File not found: " ++ path], 1%nat) else
      match load_stl data with
      | Raise _ => Some ([], 1%nat)
      | Ok (f, tsf) =>
          match finite_mesh tsf with
          | None => None
          | Some ts =>
              match analyze_report (py_basename path) (length data) f ts with
              | Ok ls => Some (ls, 0%nat)
              | Raise _ => Some ([], 1%nat)
              end
          end
      end
  end.
End Analyze.
(** ** A box of 6 x 8 x 10 mm

    Its twelve triangles as float32 words, and the report the script
    prints for it: every corner of a horizontal section lies 5 mm from the
    centre, so [sqrt] only meets squares and [isqrt_Q] computes it. *)

Definition nl : string := String (ascii_of_nat 10) EmptyString.

Definition box_tris : list (triangle Z) :=
  [Tri (Vec3 0 0 3212836864) (Vec3 0 0 0) (Vec3 1086324736 0 0) (Vec3 1086324736 1090519040 0);
   Tri (Vec3 0 0 3212836864) (Vec3 0 0 0) (Vec3 1086324736 1090519040 0) (Vec3 0 1090519040 0);
   Tri (Vec3 0 0 1065353216) (Vec3 0 0 1092616192) (Vec3 0 1090519040 1092616192) (Vec3 1086324736 1090519040 1092616192);
   Tri (Vec3 0 0 1065353216) (Vec3 0 0 1092616192) (Vec3 1086324736 1090519040 1092616192) (Vec3 1086324736 0 1092616192);
   Tri (Vec3 0 3212836864 0) (Vec3 0 0 0) (Vec3 0 0 1092616192) (Vec3 1086324736 0 1092616192);
   Tri (Vec3 0 3212836864 0) (Vec3 0 0 0) (Vec3 1086324736 0 1092616192) (Vec3 1086324736 0 0);
   Tri (Vec3 0 1065353216 0) (Vec3 0 1090519040 0) (Vec3 1086324736 1090519040 0) (Vec3 1086324736 1090519040 1092616192);
   Tri (Vec3 0 1065353216 0) (Vec3 0 1090519040 0) (Vec3 1086324736 1090519040 1092616192) (Vec3 0 1090519040 1092616192);
   Tri (Vec3 3212836864 0 0) (Vec3 0 0 0) (Vec3 0 1090519040 0) (Vec3 0 1090519040 1092616192);
   Tri (Vec3 3212836864 0 0) (Vec3 0 0 0) (Vec3 0 1090519040 1092616192) (Vec3 0 0 1092616192);
   Tri (Vec3 1065353216 0 0) (Vec3 1086324736 0 0) (Vec3 1086324736 0 1092616192) (Vec3 1086324736 1090519040 1092616192);
   Tri (Vec3 1065353216 0 0) (Vec3 1086324736 0 0) (Vec3 1086324736 1090519040 1092616192) (Vec3 1086324736 1090519040 0)]%Z.

Example main_run_box :
  main_run isqrt_Q isqrt_Q ["analyze-stl.py"; "box.stl"] true
    (write_binary_stl (repeat Byte.x00 80) 12 box_tris)
  = Some (["File: box.stl";
     "Format: Binary";
     "Size: 684 bytes";
     "Triangles: 12";
     EmptyString;
     "Bounding box:";
     "  X: 0.00 to 6.00  (width:  6.00 mm)";
     "  Y: 0.00 to 8.00  (height: 8.00 mm)";
     "  Z: 0.00 to 10.00  (depth:  10.00 mm)";
     "  Center: (3.00, 4.00, 5.00)";
     EmptyString;
     "Face normals:";
     "  Top-facing (flat):         2  (17%)";
     "  Bottom-facing (flat):      2  (17%)";
     "  Vertical (walls):          8  (67%)";
     "  Angled (curves/bevel):     0  (0%)";
     EmptyString;
     "Z-level distribution (2 distinct levels):";
     "  z=   0.0:     18 ########################################";
     "  z=  10.0:     18 ########################################";
     EmptyString;
     "Cross-section analysis:";
     "  z=0.0: circular (6.0 x 8.0 mm, r~5.0 mm, variation=0.000, pts=18)";
     "  z=1.0: insufficient data";
     "  z=2.5: insufficient data";
     "  z=5.0: insufficient data";
     "  z=7.5: insufficient data";
     "  z=9.0: insufficient data";
     "  z=10.0: circular (6.0 x 8.0 mm, r~5.0 mm, variation=0.000, pts=18)";
     EmptyString;
     "ASCII cross-sections (# = geometry present):";
     ("  " ++ nl ++ "  --- z=0.2mm ---");
     "    y=   8.0 |#  # |";
     "    y=   0.0 |#  # |";
     ("  " ++ nl ++ "  --- z=9.8mm ---");
     "    y=   8.0 |#  # |";
     "    y=   0.0 |#  # |";
     EmptyString;
     "Floor surfaces (top-facing flat faces by Z level):";
     EmptyString;
     "Ceiling surfaces (bottom-facing flat faces by Z level):";
     EmptyString;
     "Pocket/void detection:";
     "  No internal voids detected (solid object)";
     EmptyString;
     "============================================================";
     "Recommended reconstruction:";
     "  >>Manual parametric (simple geometry: 12 faces, 100% flat/vertical)";
     "    Write OpenSCAD by hand using dimensions above.";
     "    Best for: boxes, plates, simple brackets, geometric shapes";
     "============================================================"], 0%nat).
Proof. vm_compute. reflexivity. Qed.

(** ** Lemmas *)

Lemma z_level_report_nonempty av : av <> [] -> exists ls, z_level_report (z_hist av) = Ok ls.
Proof.
  intros Hav. destruct av as [|v av']; [done|].
  pose proof (z_hist_count (v :: av') (py_round1 (vz v))) as Hc.
  destruct (z_hist (v :: av') !! py_round1 (vz v)) as [c|] eqn:E;
    [|simpl in Hc; rewrite Z.eqb_refl in Hc; simpl in Hc; lia].
  unfold z_level_report. destruct (py_max_some Nat.ltb (map snd (map_to_list (z_hist (v :: av'))))) as [m Hm].
  - intros Hnil. apply map_eq_nil in Hnil. apply map_to_list_empty_iff in Hnil. by rewrite Hnil in E.
  - rewrite Hm. by eexists.
Qed.

Lemma bounding_box_some ts : ts <> [] -> exists b, bounding_box ts = Some b.
Proof. intros Hts. destruct (bounding_box_tight ts Hts) as (b & Hb & _). by exists b. Qed.

Section AnalyzeLemmas.
Variable sqrt pow_half : Q -> Q.

(** The report of a non-empty mesh is produced without an exception. *)
Lemma analyze_report_nonempty name filesize f ts :
  ts <> [] -> exists ls, analyze_report sqrt pow_half name filesize f ts = Ok ls.
Proof.
  intros Hts. destruct (bounding_box_some ts Hts) as [b Hb].
  destruct (z_level_report_nonempty (all_verts ts)) as [ls Hls].
  { destruct ts as [|t ts']; [done|]. simpl. destruct t; discriminate. }
  unfold analyze_report. destruct ts as [|t ts']; [done|]. rewrite Hb, Hls. by eexists.
Qed.

End AnalyzeLemmas.

(** Going down the concatenated sections of the report to the last one. *)
Local Ltac in_recommendation :=
  repeat match goal with
  | |- In _ (recommendation_lines _ _) => fail 1
  | |- In _ (_ ++ _) => apply in_or_app; right
  | |- In _ (_ :: _) => right
  end.

Lemma analyze_report_recommendation sqrt pow_half name filesize f ts :
  ts <> [] -> exists ls, analyze_report sqrt pow_half name filesize f ts = Ok ls /\
    forall x, In x (recommendation_lines (count_normals ts) (length ts)) -> In x ls.
Proof.
  intros Hts. destruct (bounding_box_some ts Hts) as [b Hb].
  destruct (z_level_report_nonempty (all_verts ts)) as [hl Hls].
  { destruct ts as [|t ts']; [done|]. simpl. destruct t; discriminate. }
  unfold analyze_report. destruct ts as [|t ts']; [done|]. rewrite Hb, Hls.
  eexists. split; [reflexivity|]. intros x Hx. in_recommendation. exact Hx.
Qed.

(** Above 1000 triangles the polyhedron branch is taken, whatever the
    percentages. *)
Lemma recommend_large n fv cp : (1000 < n)%Z -> recommend n fv cp = PolyhedronMode (reduce_ratio n).
Proof.
  intros Hn. unfold recommend.
  rewrite (proj2 (Z.ltb_ge n 500)), (proj2 (Z.ltb_lt 1000 n)) by lia. done.
Qed.

Lemma recommendation_lines_consider c n :
  (50000 < Z.of_nat n)%Z -> In (consider_line n) (recommendation_lines c n).
Proof.
  intros Hn. unfold recommendation_lines. rewrite recommend_large by lia.
  rewrite (proj2 (Z.ltb_lt 50000 (Z.of_nat n))) by done.
  apply in_or_app; right. apply in_or_app; left. apply in_or_app; right. by left.
Qed.

Lemma finite_mesh_nonempty tsf ts : tsf <> [] -> finite_mesh tsf = Some ts -> ts <> [].
Proof.
  intros Hne Hf ->. apply finite_mesh_length in Hf. destruct tsf; [done|]. simpl in Hf. lia.
Qed.

(** ** Theorems *)

Section AnalyzeTheorems.
Variable sqrt pow_half : Q -> Q.

(** (C31) A file the reader finds no triangle in makes [analyze] print
    only "Error: No triangles found in file." and return: the process
    exits with status 0, as after a successful report. *)
Theorem main_run_empty_mesh a0 path rest data f :
  load_stl data = Ok (f, []) ->
  main_run sqrt pow_half (a0 :: path :: rest) true data
  = Some (["Error: No triangles found in file."], 0%nat).
Proof. intros Hl. simpl. by rewrite Hl. Qed.

(** (C32) An exception of a reader escapes [analyze] before anything is
    printed: the run prints no report line and exits with status 1. *)
Theorem main_run_raise a0 path rest data e :
  load_stl data = Raise e -> main_run sqrt pow_half (a0 :: path :: rest) true data = Some ([], 1%nat).
Proof. intros Hl. simpl. by rewrite Hl. Qed.



End AnalyzeTheorems.

(** ** Witnesses *)

Lemma main_run_empty_mesh_witness :
  load_stl (write_binary_stl nul_header 0 []) = Ok (BinaryFmt, []) /\
  main_run isqrt_Q isqrt_Q ["analyze-stl.py"; "empty.stl"] true (write_binary_stl nul_header 0 [])
  = Some (["Error: No triangles found in file."], 0%nat).
Proof. split; [vm_compute; reflexivity|]. apply main_run_empty_mesh with (f := BinaryFmt). vm_compute. reflexivity. Defined.

Lemma main_run_raise_witness :
  load_stl [] = Raise StructError /\
  main_run isqrt_Q isqrt_Q ["analyze-stl.py"; "short.stl"] true [] = Some ([], 1%nat).
Proof. split; [vm_compute; reflexivity|]. apply main_run_raise with (e := StructError). vm_compute. reflexivity. Defined.


